(** * CourseGen: the generation-and-validation pipeline

    A shallow embedding of the server code that turns a model response
    into persisted Course / Module / Lesson documents:

    - [AIService]  (services/aiService.js): [extractText],
      [parseJSONResponse], [validateCourseStructure],
      [validateLessonStructure], [generateCourse], [generateLesson],
      [generateCourseSuggestions];
    - [Models]     (models/Course.js, Module.js, Lesson.js): the schemas'
      setters and validators, the Lesson [pre('save')] hook and [save],
      [addModule], [removeModule], [addLesson], [removeLesson],
      [reorderLessons], [addContentBlock], [removeContentBlock];
    - [CourseController] (controllers/courseController.js): [generateCourse],
      [getCourseSuggestions], [getCourse];
    - [LessonController] (controllers/lessonController.js): [getLesson],
      [updateLesson], [deleteContentBlock], [addContentBlock],
      [getLessonAnalytics];
    - [AiRoutes]   (routes/ai.js): [getCourseSuggestions], [generateCourse],
      [generateLesson];
    - [Interleaving]: several [getLesson] requests whose segments between
      two [await]s are scheduled one at a time, as on the Node event loop.

    JavaScript values are kept as the code sees them: a string is a
    sequence of UTF-16 code units, a number is a double, a parsed JSON
    document is a [JValue], a missing property is [None] ([undefined]), an
    exception is [Throw]. *)

From Stdlib Require Import String Ascii NArith ZArith QArith Bool Arith Lia List
  Permutation.
Import ListNotations.
Close Scope Q_scope.

Set Implicit Arguments.
Set Warnings "-register-all".

(* ===================================================================== *)
(** ** JavaScript strings and values                                      *)
(* ===================================================================== *)

Module JS.

(** A JavaScript string: its UTF-16 code units. *)
Definition jstring := list N.

(** [str "abc"] is the JavaScript string literal ['abc'] (code units below
    256 written as a Rocq string). *)
Definition str (s : string) : jstring :=
  map N_of_ascii (list_ascii_of_string s).

Fixpoint jstring_eqb (a b : jstring) : bool :=
  match a, b with
  | [], [] => true
  | x :: a', y :: b' => N.eqb x y && jstring_eqb a' b'
  | _, _ => false
  end.

(** [WhiteSpace] and [LineTerminator] of ECMAScript: what [String.trim]
    removes and what [\s] matches in a regular expression. *)
Definition isWhiteSpace (c : N) : bool :=
  (existsb (N.eqb c)
     [9; 10; 11; 12; 13; 32; 160; 5760; 8232; 8233; 8239; 8287; 12288; 65279]
   || ((8192 <=? c) && (c <=? 8202)))%N.

Fixpoint dropWhile (p : N -> bool) (s : jstring) : jstring :=
  match s with
  | [] => []
  | c :: r => if p c then dropWhile p r else s
  end.

Definition trimStart (s : jstring) : jstring := dropWhile isWhiteSpace s.
Definition trimEnd (s : jstring) : jstring := rev (dropWhile isWhiteSpace (rev s)).

(** [s.trim()] *)
Definition trim (s : jstring) : jstring := trimEnd (trimStart s).

(** [s.startsWith(p)] *)
Fixpoint startsWith (p s : jstring) : bool :=
  match p, s with
  | [], _ => true
  | x :: p', y :: s' => N.eqb x y && startsWith p' s'
  | _ :: _, [] => false
  end.

Definition endsWith (p s : jstring) : bool := startsWith (rev p) (rev s).

(** [s.replace(/^p\s*/, '')] for a literal prefix [p]: the match is
    anchored at the start, [\s*] is greedy. *)
Definition replace_prefix_ws (p s : jstring) : jstring :=
  if startsWith p s then dropWhile isWhiteSpace (skipn (length p) s) else s.

(** [s.replace(/\s*p$/, '')] for a literal suffix [p] that holds no white
    space: without the [m] flag [$] is the end of the input, so there is a
    match exactly when [s] ends with [p], and the leftmost match starts at
    the beginning of the white-space run that precedes that final [p]. *)
Definition replace_ws_suffix (p s : jstring) : jstring :=
  if endsWith p s
  then rev (dropWhile isWhiteSpace (skipn (length p) (rev s)))
  else s.

(** Number of maximal white-space runs of [s]; [prev] tells whether the
    code unit before [s] was white space. *)
Fixpoint ws_runs (prev : bool) (s : jstring) : nat :=
  match s with
  | [] => 0
  | c :: r =>
      if isWhiteSpace c
      then (if prev then 0 else 1) + ws_runs true r
      else ws_runs false r
  end.

(** [s.split(/\s+/).length]: one piece more than there are separators
    (the pieces at either end may be empty, and [''.split] gives ['']). *)
Definition split_ws_length (s : jstring) : nat := S (ws_runs false s).

(* --------------------------------------------------------------------- *)
(** *** [String.prototype.toLowerCase]                                    *)
(* --------------------------------------------------------------------- *)

(** The Unicode Default Case Conversion, with the locale-insensitive
    mappings of [UnicodeData.txt] and [SpecialCasing.txt]. *)

(** The simple lower-case mappings of the Unicode Character Database
    (version 14): the code points from the first to the second, every
    [step]-th one, are mapped to the code points from the fourth on. *)
Definition lower_table : list (N * N * N * N) :=
  [
   (65, 90, 1, 97); (192, 214, 1, 224); (216, 222, 1, 248); (256, 302, 2, 257);
   (306, 310, 2, 307); (313, 327, 2, 314); (330, 374, 2, 331); (376, 376, 1, 255);
   (377, 381, 2, 378); (385, 385, 1, 595); (386, 388, 2, 387); (390, 390, 1, 596);
   (391, 391, 1, 392); (393, 394, 1, 598); (395, 395, 1, 396); (398, 398, 1, 477);
   (399, 399, 1, 601); (400, 400, 1, 603); (401, 401, 1, 402); (403, 403, 1, 608);
   (404, 404, 1, 611); (406, 406, 1, 617); (407, 407, 1, 616); (408, 408, 1, 409);
   (412, 412, 1, 623); (413, 413, 1, 626); (415, 415, 1, 629); (416, 420, 2, 417);
   (422, 422, 1, 640); (423, 423, 1, 424); (425, 425, 1, 643); (428, 428, 1, 429);
   (430, 430, 1, 648); (431, 431, 1, 432); (433, 434, 1, 650); (435, 437, 2, 436);
   (439, 439, 1, 658); (440, 440, 1, 441); (444, 444, 1, 445); (452, 452, 1, 454);
   (453, 453, 1, 454); (455, 455, 1, 457); (456, 456, 1, 457); (458, 458, 1, 460);
   (459, 475, 2, 460); (478, 494, 2, 479); (497, 497, 1, 499); (498, 500, 2, 499);
   (502, 502, 1, 405); (503, 503, 1, 447); (504, 542, 2, 505); (544, 544, 1, 414);
   (546, 562, 2, 547); (570, 570, 1, 11365); (571, 571, 1, 572); (573, 573, 1, 410);
   (574, 574, 1, 11366); (577, 577, 1, 578); (579, 579, 1, 384); (580, 580, 1, 649);
   (581, 581, 1, 652); (582, 590, 2, 583); (880, 882, 2, 881); (886, 886, 1, 887);
   (895, 895, 1, 1011); (902, 902, 1, 940); (904, 906, 1, 941); (908, 908, 1, 972);
   (910, 911, 1, 973); (913, 929, 1, 945); (931, 939, 1, 963); (975, 975, 1, 983);
   (984, 1006, 2, 985); (1012, 1012, 1, 952); (1015, 1015, 1, 1016); (1017, 1017, 1, 1010);
   (1018, 1018, 1, 1019); (1021, 1023, 1, 891); (1024, 1039, 1, 1104); (1040, 1071, 1, 1072);
   (1120, 1152, 2, 1121); (1162, 1214, 2, 1163); (1216, 1216, 1, 1231); (1217, 1229, 2, 1218);
   (1232, 1326, 2, 1233); (1329, 1366, 1, 1377); (4256, 4293, 1, 11520); (4295, 4295, 1, 11559);
   (4301, 4301, 1, 11565); (5024, 5103, 1, 43888); (5104, 5109, 1, 5112); (7312, 7354, 1, 4304);
   (7357, 7359, 1, 4349); (7680, 7828, 2, 7681); (7838, 7838, 1, 223); (7840, 7934, 2, 7841);
   (7944, 7951, 1, 7936); (7960, 7965, 1, 7952); (7976, 7983, 1, 7968); (7992, 7999, 1, 7984);
   (8008, 8013, 1, 8000); (8025, 8031, 2, 8017); (8040, 8047, 1, 8032); (8072, 8079, 1, 8064);
   (8088, 8095, 1, 8080); (8104, 8111, 1, 8096); (8120, 8121, 1, 8112); (8122, 8123, 1, 8048);
   (8124, 8124, 1, 8115); (8136, 8139, 1, 8050); (8140, 8140, 1, 8131); (8152, 8153, 1, 8144);
   (8154, 8155, 1, 8054); (8168, 8169, 1, 8160); (8170, 8171, 1, 8058); (8172, 8172, 1, 8165);
   (8184, 8185, 1, 8056); (8186, 8187, 1, 8060); (8188, 8188, 1, 8179); (8486, 8486, 1, 969);
   (8490, 8490, 1, 107); (8491, 8491, 1, 229); (8498, 8498, 1, 8526); (8544, 8559, 1, 8560);
   (8579, 8579, 1, 8580); (9398, 9423, 1, 9424); (11264, 11311, 1, 11312); (11360, 11360, 1, 11361);
   (11362, 11362, 1, 619); (11363, 11363, 1, 7549); (11364, 11364, 1, 637); (11367, 11371, 2, 11368);
   (11373, 11373, 1, 593); (11374, 11374, 1, 625); (11375, 11375, 1, 592); (11376, 11376, 1, 594);
   (11378, 11378, 1, 11379); (11381, 11381, 1, 11382); (11390, 11391, 1, 575); (11392, 11490, 2, 11393);
   (11499, 11501, 2, 11500); (11506, 11506, 1, 11507); (42560, 42604, 2, 42561); (42624, 42650, 2, 42625);
   (42786, 42798, 2, 42787); (42802, 42862, 2, 42803); (42873, 42875, 2, 42874); (42877, 42877, 1, 7545);
   (42878, 42886, 2, 42879); (42891, 42891, 1, 42892); (42893, 42893, 1, 613); (42896, 42898, 2, 42897);
   (42902, 42920, 2, 42903); (42922, 42922, 1, 614); (42923, 42923, 1, 604); (42924, 42924, 1, 609);
   (42925, 42925, 1, 620); (42926, 42926, 1, 618); (42928, 42928, 1, 670); (42929, 42929, 1, 647);
   (42930, 42930, 1, 669); (42931, 42931, 1, 43859); (42932, 42946, 2, 42933); (42948, 42948, 1, 42900);
   (42949, 42949, 1, 642); (42950, 42950, 1, 7566); (42951, 42953, 2, 42952); (42960, 42960, 1, 42961);
   (42966, 42968, 2, 42967); (42997, 42997, 1, 42998); (65313, 65338, 1, 65345); (66560, 66599, 1, 66600);
   (66736, 66771, 1, 66776); (66928, 66938, 1, 66967); (66940, 66954, 1, 66979); (66956, 66962, 1, 66995);
   (66964, 66965, 1, 67003); (68736, 68786, 1, 68800); (71840, 71871, 1, 71872); (93760, 93791, 1, 93792);
   (125184, 125217, 1, 125218)
  ]%N.

(** The code points with the property [Case_Ignorable], and those with
    [Cased] and without [Case_Ignorable]. *)
Definition case_ignorable_table : list (N * N) :=
  [
   (39, 39); (46, 46); (58, 58); (94, 94); (96, 96); (168, 168);
   (173, 173); (175, 175); (180, 180); (183, 184); (688, 879); (884, 885);
   (890, 890); (900, 901); (903, 903); (1155, 1161); (1369, 1369); (1375, 1375);
   (1425, 1469); (1471, 1471); (1473, 1474); (1476, 1477); (1479, 1479); (1524, 1524);
   (1536, 1541); (1552, 1562); (1564, 1564); (1600, 1600); (1611, 1631); (1648, 1648);
   (1750, 1757); (1759, 1768); (1770, 1773); (1807, 1807); (1809, 1809); (1840, 1866);
   (1958, 1968); (2027, 2037); (2042, 2042); (2045, 2045); (2070, 2093); (2137, 2139);
   (2184, 2184); (2192, 2193); (2200, 2207); (2249, 2306); (2362, 2362); (2364, 2364);
   (2369, 2376); (2381, 2381); (2385, 2391); (2402, 2403); (2417, 2417); (2433, 2433);
   (2492, 2492); (2497, 2500); (2509, 2509); (2530, 2531); (2558, 2558); (2561, 2562);
   (2620, 2620); (2625, 2626); (2631, 2632); (2635, 2637); (2641, 2641); (2672, 2673);
   (2677, 2677); (2689, 2690); (2748, 2748); (2753, 2757); (2759, 2760); (2765, 2765);
   (2786, 2787); (2810, 2815); (2817, 2817); (2876, 2876); (2879, 2879); (2881, 2884);
   (2893, 2893); (2901, 2902); (2914, 2915); (2946, 2946); (3008, 3008); (3021, 3021);
   (3072, 3072); (3076, 3076); (3132, 3132); (3134, 3136); (3142, 3144); (3146, 3149);
   (3157, 3158); (3170, 3171); (3201, 3201); (3260, 3260); (3263, 3263); (3270, 3270);
   (3276, 3277); (3298, 3299); (3328, 3329); (3387, 3388); (3393, 3396); (3405, 3405);
   (3426, 3427); (3457, 3457); (3530, 3530); (3538, 3540); (3542, 3542); (3633, 3633);
   (3636, 3642); (3654, 3662); (3761, 3761); (3764, 3772); (3782, 3782); (3784, 3789);
   (3864, 3865); (3893, 3893); (3895, 3895); (3897, 3897); (3953, 3966); (3968, 3972);
   (3974, 3975); (3981, 3991); (3993, 4028); (4038, 4038); (4141, 4144); (4146, 4151);
   (4153, 4154); (4157, 4158); (4184, 4185); (4190, 4192); (4209, 4212); (4226, 4226);
   (4229, 4230); (4237, 4237); (4253, 4253); (4348, 4348); (4957, 4959); (5906, 5908);
   (5938, 5939); (5970, 5971); (6002, 6003); (6068, 6069); (6071, 6077); (6086, 6086);
   (6089, 6099); (6103, 6103); (6109, 6109); (6155, 6159); (6211, 6211); (6277, 6278);
   (6313, 6313); (6432, 6434); (6439, 6440); (6450, 6450); (6457, 6459); (6679, 6680);
   (6683, 6683); (6742, 6742); (6744, 6750); (6752, 6752); (6754, 6754); (6757, 6764);
   (6771, 6780); (6783, 6783); (6823, 6823); (6832, 6862); (6912, 6915); (6964, 6964);
   (6966, 6970); (6972, 6972); (6978, 6978); (7019, 7027); (7040, 7041); (7074, 7077);
   (7080, 7081); (7083, 7085); (7142, 7142); (7144, 7145); (7149, 7149); (7151, 7153);
   (7212, 7219); (7222, 7223); (7288, 7293); (7376, 7378); (7380, 7392); (7394, 7400);
   (7405, 7405); (7412, 7412); (7416, 7417); (7468, 7530); (7544, 7544); (7579, 7679);
   (8125, 8125); (8127, 8129); (8141, 8143); (8157, 8159); (8173, 8175); (8189, 8190);
   (8203, 8207); (8216, 8217); (8228, 8228); (8231, 8231); (8234, 8238); (8288, 8292);
   (8294, 8303); (8305, 8305); (8319, 8319); (8336, 8348); (8400, 8432); (11388, 11389);
   (11503, 11505); (11631, 11631); (11647, 11647); (11744, 11775); (11823, 11823); (12293, 12293);
   (12330, 12333); (12337, 12341); (12347, 12347); (12441, 12446); (12540, 12542); (40981, 40981);
   (42232, 42237); (42508, 42508); (42607, 42610); (42612, 42621); (42623, 42623); (42652, 42655);
   (42736, 42737); (42752, 42785); (42864, 42864); (42888, 42890); (42994, 42996); (43000, 43001);
   (43010, 43010); (43014, 43014); (43019, 43019); (43045, 43046); (43052, 43052); (43204, 43205);
   (43232, 43249); (43263, 43263); (43302, 43309); (43335, 43345); (43392, 43394); (43443, 43443);
   (43446, 43449); (43452, 43453); (43471, 43471); (43493, 43494); (43561, 43566); (43569, 43570);
   (43573, 43574); (43587, 43587); (43596, 43596); (43632, 43632); (43644, 43644); (43696, 43696);
   (43698, 43700); (43703, 43704); (43710, 43711); (43713, 43713); (43741, 43741); (43756, 43757);
   (43763, 43764); (43766, 43766); (43867, 43871); (43881, 43883); (44005, 44005); (44008, 44008);
   (44013, 44013); (64286, 64286); (64434, 64450); (65024, 65039); (65043, 65043); (65056, 65071);
   (65106, 65106); (65109, 65109); (65279, 65279); (65287, 65287); (65294, 65294); (65306, 65306);
   (65342, 65342); (65344, 65344); (65392, 65392); (65438, 65439); (65507, 65507); (65529, 65531);
   (66045, 66045); (66272, 66272); (66422, 66426); (67456, 67461); (67463, 67504); (67506, 67514);
   (68097, 68099); (68101, 68102); (68108, 68111); (68152, 68154); (68159, 68159); (68325, 68326);
   (68900, 68903); (69291, 69292); (69446, 69456); (69506, 69509); (69633, 69633); (69688, 69702);
   (69744, 69744); (69747, 69748); (69759, 69761); (69811, 69814); (69817, 69818); (69821, 69821);
   (69826, 69826); (69837, 69837); (69888, 69890); (69927, 69931); (69933, 69940); (70003, 70003);
   (70016, 70017); (70070, 70078); (70089, 70092); (70095, 70095); (70191, 70193); (70196, 70196);
   (70198, 70199); (70206, 70206); (70367, 70367); (70371, 70378); (70400, 70401); (70459, 70460);
   (70464, 70464); (70502, 70508); (70512, 70516); (70712, 70719); (70722, 70724); (70726, 70726);
   (70750, 70750); (70835, 70840); (70842, 70842); (70847, 70848); (70850, 70851); (71090, 71093);
   (71100, 71101); (71103, 71104); (71132, 71133); (71219, 71226); (71229, 71229); (71231, 71232);
   (71339, 71339); (71341, 71341); (71344, 71349); (71351, 71351); (71453, 71455); (71458, 71461);
   (71463, 71467); (71727, 71735); (71737, 71738); (71995, 71996); (71998, 71998); (72003, 72003);
   (72148, 72151); (72154, 72155); (72160, 72160); (72193, 72202); (72243, 72248); (72251, 72254);
   (72263, 72263); (72273, 72278); (72281, 72283); (72330, 72342); (72344, 72345); (72752, 72758);
   (72760, 72765); (72767, 72767); (72850, 72871); (72874, 72880); (72882, 72883); (72885, 72886);
   (73009, 73014); (73018, 73018); (73020, 73021); (73023, 73029); (73031, 73031); (73104, 73105);
   (73109, 73109); (73111, 73111); (73459, 73460); (78896, 78904); (92912, 92916); (92976, 92982);
   (92992, 92995); (94031, 94031); (94095, 94111); (94176, 94177); (94179, 94180); (110576, 110579);
   (110581, 110587); (110589, 110590); (113821, 113822); (113824, 113827); (118528, 118573); (118576, 118598);
   (119143, 119145); (119155, 119170); (119173, 119179); (119210, 119213); (119362, 119364); (121344, 121398);
   (121403, 121452); (121461, 121461); (121476, 121476); (121499, 121503); (121505, 121519); (122880, 122886);
   (122888, 122904); (122907, 122913); (122915, 122916); (122918, 122922); (123184, 123197); (123566, 123566);
   (123628, 123631); (125136, 125142); (125252, 125259); (127995, 127999); (917505, 917505); (917536, 917631);
   (917760, 917999)
  ]%N.

Definition cased_table : list (N * N) :=
  [
   (65, 90); (97, 122); (170, 170); (181, 181); (186, 186); (192, 214);
   (216, 246); (248, 442); (444, 447); (452, 659); (661, 687); (880, 883);
   (886, 887); (891, 893); (895, 895); (902, 902); (904, 906); (908, 908);
   (910, 929); (931, 1013); (1015, 1153); (1162, 1327); (1329, 1366); (1376, 1416);
   (4256, 4293); (4295, 4295); (4301, 4301); (4304, 4346); (4349, 4351); (5024, 5109);
   (5112, 5117); (7296, 7304); (7312, 7354); (7357, 7359); (7424, 7467); (7531, 7543);
   (7545, 7578); (7680, 7957); (7960, 7965); (7968, 8005); (8008, 8013); (8016, 8023);
   (8025, 8025); (8027, 8027); (8029, 8029); (8031, 8061); (8064, 8116); (8118, 8124);
   (8126, 8126); (8130, 8132); (8134, 8140); (8144, 8147); (8150, 8155); (8160, 8172);
   (8178, 8180); (8182, 8188); (8450, 8450); (8455, 8455); (8458, 8467); (8469, 8469);
   (8473, 8477); (8484, 8484); (8486, 8486); (8488, 8488); (8490, 8493); (8495, 8500);
   (8505, 8505); (8508, 8511); (8517, 8521); (8526, 8526); (8544, 8575); (8579, 8580);
   (9398, 9449); (11264, 11387); (11390, 11492); (11499, 11502); (11506, 11507); (11520, 11557);
   (11559, 11559); (11565, 11565); (42560, 42605); (42624, 42651); (42786, 42863); (42865, 42887);
   (42891, 42894); (42896, 42954); (42960, 42961); (42963, 42963); (42965, 42969); (42997, 42998);
   (43002, 43002); (43824, 43866); (43872, 43880); (43888, 43967); (64256, 64262); (64275, 64279);
   (65313, 65338); (65345, 65370); (66560, 66639); (66736, 66771); (66776, 66811); (66928, 66938);
   (66940, 66954); (66956, 66962); (66964, 66965); (66967, 66977); (66979, 66993); (66995, 67001);
   (67003, 67004); (68736, 68786); (68800, 68850); (71840, 71903); (93760, 93823); (119808, 119892);
   (119894, 119964); (119966, 119967); (119970, 119970); (119973, 119974); (119977, 119980); (119982, 119993);
   (119995, 119995); (119997, 120003); (120005, 120069); (120071, 120074); (120077, 120084); (120086, 120092);
   (120094, 120121); (120123, 120126); (120128, 120132); (120134, 120134); (120138, 120144); (120146, 120485);
   (120488, 120512); (120514, 120538); (120540, 120570); (120572, 120596); (120598, 120628); (120630, 120654);
   (120656, 120686); (120688, 120712); (120714, 120744); (120746, 120770); (120772, 120779); (122624, 122633);
   (122635, 122654); (125184, 125251); (127280, 127305); (127312, 127337); (127344, 127369)
  ]%N.

Local Open Scope N_scope.

Fixpoint simple_lower (t : list (N * N * N * N)) (c : N) : N :=
  match t with
  | [] => c
  | (a, b, step, image) :: r =>
      if (a <=? c) && (c <=? b) && ((c - a) mod step =? 0)
      then image + (c - a)
      else simple_lower r c
  end.

Fixpoint in_ranges (t : list (N * N)) (c : N) : bool :=
  match t with
  | [] => false
  | (a, b) :: r => ((a <=? c) && (c <=? b)) || in_ranges r c
  end.

(** [StringToCodePoints]: a high surrogate followed by a low one is one
    code point, any other code unit is one by itself. *)
Fixpoint codePoints (s : jstring) : list N :=
  match s with
  | [] => []
  | hi :: t =>
      match t with
      | lo :: r =>
          if (55296 <=? hi) && (hi <=? 56319) && (56320 <=? lo) && (lo <=? 57343)
          then 65536 + (hi - 55296) * 1024 + (lo - 56320) :: codePoints r
          else hi :: codePoints t
      | [] => [hi]
      end
  end.

(** [CodePointsToString] *)
Definition codeUnits (c : N) : jstring :=
  if c <? 65536 then [c]
  else [55296 + (c - 65536) / 1024; 56320 + (c - 65536) mod 1024].

(** Is the first code point of [l] that is not case-ignorable a cased
    one? *)
Fixpoint cased_next (l : list N) : bool :=
  match l with
  | [] => false
  | c :: r =>
      if in_ranges case_ignorable_table c then cased_next r
      else in_ranges cased_table c
  end.

(** The lower case of the code points [s] that follow [before] (which is
    in reverse): the simple mapping, but for U+0130, which becomes two
    code points, and for the capital sigma, which becomes the final
    sigma when a cased letter is before it and none after it (the
    condition [Final_Sigma] of [SpecialCasing.txt]). *)
Fixpoint lower_points (before s : list N) : list N :=
  match s with
  | [] => []
  | c :: r =>
      (if c =? 931
       then [if cased_next before && negb (cased_next r) then 962 else 963]
       else if c =? 304 then [105; 775]
       else [simple_lower lower_table c])
      ++ lower_points (c :: before) r
  end.

(** [s.toLowerCase()] *)
Definition toLowerCase (s : jstring) : jstring :=
  flat_map codeUnits (lower_points [] (codePoints s)).

Local Close Scope N_scope.

(* --------------------------------------------------------------------- *)
(** *** Numbers                                                           *)
(* --------------------------------------------------------------------- *)

(** A JavaScript number: an IEEE 754 double. A finite one is kept as the
    rational it is, in lowest terms; [-0] is not told apart from [0]
    (no operation of this program does); [NaN] is not a member: where an
    operation gives [NaN], its result is an [option]. *)
Inductive number : Type :=
| Finite (q : Q)
| Infinite (negative : bool).

Coercion Finite : Q >-> number.

Local Open Scope Z_scope.

(** The integer nearest to [n / d], the even one of two ([n >= 0],
    [d > 0]). *)
Definition nearest_even (n d : Z) : Z :=
  let q := n / d in
  match 2 * (n mod d) ?= d with
  | Lt => q
  | Gt => q + 1
  | Eq => if Z.even q then q else q + 1
  end.

(** [n / d] divided by [2 ^ e], as a fraction. *)
Definition scale2 (n d e : Z) : Z * Z :=
  if 0 <=? e then (n, d * 2 ^ e) else (n * 2 ^ (- e), d).

(** The largest [l] with [2 ^ l <= n / d] ([n, d > 0]). *)
Definition floor_log2 (n d : Z) : Z :=
  let l := Z.log2 n - Z.log2 d in
  let (a, b) := scale2 n d l in
  if b <=? a then l else l - 1.

(** [m * 2 ^ e] in lowest terms. *)
Definition dyadic (m e : Z) : Q :=
  if 0 <=? e then inject_Z (m * 2 ^ e) else Qred (Qmake m (Z.to_pos (2 ^ (- e)))).

(** The double nearest to [q] (round to nearest, ties to even): 53 bits
    of precision, exponents down to that of the subnormals, [Infinity]
    from [2 ^ 1024 - 2 ^ 970] on. *)
Definition to_double (q : Q) : number :=
  let n := Z.abs (Qnum q) in
  let d := Zpos (Qden q) in
  if n =? 0 then Finite 0
  else
    let e := Z.max (floor_log2 n d - 52) (- 1074) in
    let (a, b) := scale2 n d e in
    let m := nearest_even a b in
    if (971 <? e) || ((e =? 971) && (2 ^ 53 <=? m))
    then Infinite (Qnum q <? 0)
    else Finite (dyadic (Z.sgn (Qnum q) * m) e).

(** [m * 10 ^ e] as a double, for [m] of [digits] decimal digits. The
    power is not computed where it cannot matter: from [10 ^ 400] on the
    result is [Infinity], below [10 ^ (- 400)] it is [0]. *)
Definition decimal (m e : Z) (digits : nat) : number :=
  if m =? 0 then Finite 0
  else if 400 <? e then Infinite (m <? 0)
  else if e + Z.of_nat digits <? - 400 then Finite 0
  else if 0 <=? e then to_double (inject_Z (m * 10 ^ e))
  else to_double (Qmake m (Z.to_pos (10 ^ (- e)))).

(** [a === b], for numbers in lowest terms. *)
Definition number_eqb (a b : number) : bool :=
  match a, b with
  | Finite x, Finite y => (Qnum x =? Qnum y) && (Qden x =? Qden y)%positive
  | Infinite x, Infinite y => Bool.eqb x y
  | _, _ => false
  end.

(** [a <= b] *)
Definition number_leb (a b : number) : bool :=
  match a, b with
  | Finite x, Finite y => Qle_bool x y
  | Infinite true, _ => true
  | _, Infinite false => true
  | _, _ => false
  end.

(** [Number::toString], in base 10. *)

(** [10 ^ p <= a / b] *)
Definition reaches (a b p : Z) : bool :=
  if 0 <=? p then b * 10 ^ p <=? a else b <=? a * 10 ^ (- p).

(** The largest [p' <= p] with [10 ^ p' <= a / b]. *)
Fixpoint log10_from (fuel : nat) (a b p : Z) : Z :=
  match fuel with
  | O => p
  | S f => if reaches a b p then p else log10_from f a b (p - 1)
  end.

(** The largest [p] with [10 ^ p <= a / b] ([a, b > 0]): the search
    starts above it, at an estimate from the binary logarithm that errs by
    less than two. *)
Definition floor_log10 (a b : Z) : Z :=
  log10_from 8 a b (floor_log2 a b * 30103 / 100000 + 2).

(** [a / b] divided by [10 ^ t], as a fraction. *)
Definition scale10 (a b t : Z) : Z * Z :=
  if 0 <=? t then (a, b * 10 ^ t) else (a * 10 ^ (- t), b).

(** Is [s * 10 ^ t] read back as the double [x]? *)
Definition reads_back (x : Q) (s t : Z) : bool :=
  number_eqb (decimal s t 17) (Finite x).

(** The digits [s] and the exponent [n] of step 5 of [Number::toString]
    for [k] digits, if there are any: [s] has [k] digits and
    [s * 10 ^ (n - k)] is read back as [x]; of two such [s] the one closer
    to [x], the even one when both are as close. [p] is the exponent of
    the first digit of [x]. *)
Definition digits_at (x : Q) (p : Z) (k : Z) : option (Z * Z) :=
  let t := p + 1 - k in
  let (a, b) := scale10 (Qnum x) (Zpos (Qden x)) t in
  let lo := a / b in
  let hi := lo + 1 in
  let ok_lo := reads_back x lo t in
  let ok_hi := reads_back x hi t in
  let up := if hi =? 10 ^ k then (10 ^ (k - 1), p + 2) else (hi, p + 1) in
  match ok_lo, ok_hi with
  | true, false => Some (lo, p + 1)
  | false, true => Some up
  | false, false => None
  | true, true =>
      match 2 * (a mod b) ?= b with
      | Lt => Some (lo, p + 1)
      | Gt => Some up
      | Eq => if Z.even lo then Some (lo, p + 1) else Some up
      end
  end.

(** The shortest digits, from [k] digits on. *)
Fixpoint shortest (fuel : nat) (x : Q) (p k : Z) : Z * Z :=
  match fuel with
  | O => (0, 0)
  | S f =>
      match digits_at x p k with
      | Some r => r
      | None => shortest f x p (k + 1)
      end
  end.

(** The decimal digits of a natural number, as code units. *)
Fixpoint decimal_digits (fuel : nat) (n : Z) (acc : jstring) : jstring :=
  match fuel with
  | O => acc
  | S f =>
      let acc' := (Z.to_N (n mod 10) + 48)%N :: acc in
      if n <? 10 then acc' else decimal_digits f (n / 10) acc'
  end.

Definition decimal_string (n : Z) : jstring :=
  decimal_digits (S (Z.to_nat (Z.log2 n))) n [].

(** Steps 6 to 10 of [Number::toString]: the [k] digits [ds] of [s],
    placed by [n]. *)
Definition place (ds : jstring) (n : Z) : jstring :=
  let k := Z.of_nat (List.length ds) in
  if (k <=? n) && (n <=? 21) then ds ++ repeat 48%N (Z.to_nat (n - k))
  else if (0 <? n) && (n <=? 21)
  then firstn (Z.to_nat n) ds ++ str "." ++ skipn (Z.to_nat n) ds
  else if (-6 <? n) && (n <=? 0)
  then str "0." ++ repeat 48%N (Z.to_nat (- n)) ++ ds
  else
    let e := n - 1 in
    let exponent :=
      (if e <? 0 then str "-" else str "+") ++ decimal_string (Z.abs e) in
    match ds with
    | [d] => d :: str "e" ++ exponent
    | d :: r => d :: str "." ++ r ++ str "e" ++ exponent
    | [] => []
    end.

(** [String(x)], which is [x.toString()]. *)
Definition number_toString (x : number) : jstring :=
  match x with
  | Infinite false => str "Infinity"
  | Infinite true => str "-Infinity"
  | Finite q =>
      if Qnum q =? 0 then str "0"
      else
        let a := Qmake (Z.abs (Qnum q)) (Qden q) in
        let (s, n) := shortest 17 a (floor_log10 (Qnum a) (Zpos (Qden a))) 1 in
        (if Qnum q <? 0 then str "-" else []) ++ place (decimal_string s) n
  end.

Local Close Scope Z_scope.

(* --------------------------------------------------------------------- *)
(** *** Values                                                            *)
(* --------------------------------------------------------------------- *)

(** A value produced by [JSON.parse]. An object is the list of its own
    properties in the order [Object.keys] gives them. *)
Inductive JValue : Type :=
| JNull
| JBool (b : bool)
| JNum (n : number)
| JStr (s : jstring)
| JArr (items : list JValue)
| JObj (members : list (jstring * JValue)).

(** Errors the code throws. The payload is what the message interpolates:
    - [TypeError]: a property read on [null]/[undefined], or a call of
      something that is not a function;
    - [SyntaxError]: [JSON.parse] rejects its input;
    - [CouldNotExtract]: 'Could not extract text from AI response';
    - [InvalidJSON]: 'AI returned invalid JSON format';
    - [CourseMissing fs]: 'Course data missing required fields: fs';
    - [CourseNoModules]: 'Course must have at least one module';
    - [ModuleMissingTitle i]: 'Module i missing title';
    - [ModuleNoLessons t]: 'Module <t> must have at least one lesson';
    - [LessonMissing fs]: 'Lesson data missing required fields: fs';
    - [LessonNoContent]: 'Lesson must have at least one content block';
    - [BlockMissingType i]: 'Content block i missing type';
    - [InvalidBlockType t]: 'Invalid content block type: t';
    - [Transport m]: the model call rejected with message [m];
    - [FailedToGenerateCourse e]: 'Failed to generate course: ' + e;
    - [FailedToGenerateLesson e]: 'Failed to generate lesson: ' + e;
    - [CastError p], [ValidationError p]: Mongoose rejects path [p];
    - [VersionError]: 'No matching document found for id ...', a save
      whose document is not in the store with the version it was loaded
      with; [DocumentNotFoundError]: a save whose document is not in the
      store;
    - [StoreError]: the database refused a write. *)
Inductive Error : Type :=
| TypeError
| SyntaxError
| CouldNotExtract
| InvalidJSON
| CourseMissing (fields : list jstring)
| CourseNoModules
| ModuleMissingTitle (index : nat)
| ModuleNoLessons (title : option JValue)
| LessonMissing (fields : list jstring)
| LessonNoContent
| BlockMissingType (index : nat)
| InvalidBlockType (type : JValue)
| Transport (message : jstring)
| FailedToGenerateCourse (cause : Error)
| FailedToGenerateLesson (cause : Error)
| CastError (path : jstring)
| ValidationError (path : jstring)
| VersionError
| DocumentNotFoundError
| StoreError.

(** The outcome of a JavaScript computation: a value, or a thrown error. *)
Inductive Result (A : Type) : Type :=
| Ok (a : A)
| Throw (e : Error).
Arguments Ok {A} a.
Arguments Throw {A} e.

Definition rbind {A B} (r : Result A) (k : A -> Result B) : Result B :=
  match r with
  | Ok a => k a
  | Throw e => Throw e
  end.

(** [try { r } catch (error) { h error }] *)
Definition try_catch {A} (r : Result A) (h : Error -> Result A) : Result A :=
  match r with
  | Ok a => Ok a
  | Throw e => h e
  end.

(** JavaScript truthiness; [None] is [undefined]. *)
Definition truthy (v : option JValue) : bool :=
  match v with
  | None => false
  | Some JNull => false
  | Some (JBool b) => b
  | Some (JNum (Finite q)) => negb (Qeq_bool q 0)
  | Some (JNum (Infinite _)) => true
  | Some (JStr s) => match s with [] => false | _ => true end
  | Some (JArr _) => true
  | Some (JObj _) => true
  end.

(** [a || b] *)
Definition js_or (a b : option JValue) : option JValue :=
  if truthy a then a else b.

(** The member of key [k] that [JSON.parse] keeps: the last one. *)
Fixpoint lookup (k : jstring) (ms : list (jstring * JValue)) : option JValue :=
  match ms with
  | [] => None
  | (k', v) :: r =>
      match lookup k r with
      | Some v' => Some v'
      | None => if jstring_eqb k k' then Some v else None
      end
  end.

(** [v[k]] for the property names this program reads ([title], [modules],
    [type], [text], ...; none of them is a built-in member of a string,
    number, boolean or array): reading a property of [null] or
    [undefined] throws, an object gives its member, any other value
    gives [undefined]. *)
Definition get (v : option JValue) (k : jstring) : Result (option JValue) :=
  match v with
  | None => Throw TypeError
  | Some JNull => Throw TypeError
  | Some (JObj ms) => Ok (lookup k ms)
  | Some _ => Ok None
  end.

(** [Array.isArray(v)], giving the elements. *)
Definition asArray (v : option JValue) : option (list JValue) :=
  match v with
  | Some (JArr l) => Some l
  | _ => None
  end.

(** [ToIntegerOrInfinity] of a number: truncation toward zero. *)
Definition toInteger (q : Q) : Z := Z.quot (Qnum q) (Zpos (Qden q)).

(** Where [Array.prototype.splice] starts on an array of [len] elements
    for the integer [start]: counted from the end when [start] is
    negative, and clamped to the array. *)
Definition splice_start (start : Z) (len : nat) : nat :=
  if (start <? 0)%Z
  then Z.to_nat (Z.max (Z.of_nat len + start) 0)
  else Nat.min (Z.to_nat start) len.

(** The array after [a.splice(start, 0, x)], resp. [a.splice(start, 1)]. *)
Definition splice_in {A} (start : Z) (x : A) (a : list A) : list A :=
  let k := splice_start start (length a) in
  firstn k a ++ x :: skipn k a.

Definition splice_out {A} (start : Z) (a : list A) : list A :=
  let k := splice_start start (length a) in
  firstn k a ++ skipn (S k) a.

(** The value of the code unit [c] as a digit of [radix], if it is one. *)
Definition digit_of (radix c : N) : option N :=
  let d :=
    if ((48 <=? c) && (c <=? 57))%N then Some (c - 48)%N
    else if ((97 <=? c) && (c <=? 122))%N then Some (c - 87)%N
    else if ((65 <=? c) && (c <=? 90))%N then Some (c - 55)%N
    else None in
  match d with
  | Some v => if (v <? radix)%N then Some v else None
  | None => None
  end.

(** The number written by the longest prefix of [s] made of digits of
    [radix], after the digits that gave [acc]; [None] when there is no
    digit at all. *)
Fixpoint digits_prefix (radix : N) (s : jstring) (acc : option N) : option N :=
  match s with
  | [] => acc
  | c :: r =>
      match digit_of radix c with
      | Some d =>
          digits_prefix radix r
            (Some (radix * match acc with Some a => a | None => 0 end + d)%N)
      | None => acc
      end
  end.

(** [parseInt(s)] without a radix: leading white space is skipped, then a
    sign, then [0x] or [0X] selects base 16, then the digits are read up
    to the first code unit that is none. [None] is [NaN]. The integer is
    exact; the rounding to a double of an integer above 2^53 is not
    applied. *)
Definition parseInt (s : jstring) : option Z :=
  let t := trimStart s in
  let '(negative, u) :=
    match t with
    | 45%N :: r => (true, r)
    | 43%N :: r => (false, r)
    | _ => (false, t)
    end in
  let '(radix, v) :=
    match u with
    | 48%N :: 120%N :: r => (16%N, r)
    | 48%N :: 88%N :: r => (16%N, r)
    | _ => (10%N, u)
    end in
  match digits_prefix radix v None with
  | Some n => Some (if negative then (- Z.of_N n)%Z else Z.of_N n)
  | None => None
  end.

(* --------------------------------------------------------------------- *)
(** *** [Number(s)]                                                       *)
(* --------------------------------------------------------------------- *)

Local Open Scope N_scope.

Definition is_digit (c : N) : bool := (48 <=? c) && (c <=? 57).

(** The longest run of decimal digits at the head of [s], and the rest. *)
Fixpoint digit_run (s : jstring) : list N * jstring :=
  match s with
  | c :: r =>
      if is_digit c
      then let (ds, rest) := digit_run r in (c - 48 :: ds, rest)
      else ([], s)
  | [] => ([], [])
  end.

Definition digits_value (ds : list N) : Z :=
  fold_left (fun acc d => (acc * 10 + Z.of_N d)%Z) ds 0%Z.

(** [ExponentPart?] at the end of the text: the exponent, if the text is
    that and nothing more. *)
Definition exponent_part (s : jstring) : option Z :=
  match s with
  | [] => Some 0%Z
  | c :: r =>
      if (c =? 101) || (c =? 69) then
        let (negative, r1) :=
          match r with
          | 45 :: r' => (true, r')
          | 43 :: r' => (false, r')
          | _ => (false, r)
          end in
        match digit_run r1 with
        | ((_ :: _) as ds, []) =>
            Some (if negative then - digits_value ds else digits_value ds)%Z
        | _ => None
        end
      else None
  end.

(** [StrUnsignedDecimalLiteral] without [Infinity]: digits with an
    optional fraction, or a fraction alone, and an optional exponent. *)
Definition unsigned_decimal (negative : bool) (s : jstring) : option number :=
  let (ip, s1) := digit_run s in
  let '(fp, s2, dot) :=
    match s1 with
    | 46 :: r => let (fp, s2) := digit_run r in (fp, s2, true)
    | _ => ([], s1, false)
    end in
  match ip ++ fp with
  | [] => None
  | ds =>
      match exponent_part s2 with
      | None => None
      | Some e =>
          let m := digits_value ds in
          Some (decimal (if negative then - m else m)%Z
                  (e - Z.of_nat (List.length fp))%Z (List.length ds))
      end
  end.

(** The number the digits of [radix] in [s] write, when [s] is made of
    such digits only and has one at least. *)
Fixpoint radix_value (radix : N) (s : jstring) (acc : option N) : option N :=
  match s with
  | [] => acc
  | c :: r =>
      match digit_of radix c with
      | Some d =>
          radix_value radix r
            (Some (radix * match acc with Some a => a | None => 0 end + d))
      | None => None
      end
  end.

Definition non_decimal (radix : N) (s : jstring) : option number :=
  match radix_value radix s None with
  | Some n => Some (to_double (inject_Z (Z.of_N n)))
  | None => None
  end.

(** [Number(s)] for a string: [StringToNumber]. White space and line
    terminators around the literal are dropped; the empty text is [0]; a
    decimal literal may have a sign, a literal in base 16, 8 or 2 may
    not; [None] is [NaN]. *)
Definition toNumber (s : jstring) : option number :=
  match trim s with
  | [] => Some (Finite 0)
  | 48 :: x :: r =>
      if (x =? 120) || (x =? 88) then non_decimal 16 r
      else if (x =? 111) || (x =? 79) then non_decimal 8 r
      else if (x =? 98) || (x =? 66) then non_decimal 2 r
      else unsigned_decimal false (48 :: x :: r)
  | t =>
      let (negative, u) :=
        match t with
        | 45 :: r => (true, r)
        | 43 :: r => (false, r)
        | _ => (false, t)
        end in
      if startsWith (str "Infinity") u && (List.length u =? 8)%nat
      then Some (Infinite negative)
      else unsigned_decimal negative u
  end.

Local Close Scope N_scope.

End JS.

(* ===================================================================== *)
(** ** [JSON.parse]                                                       *)
(* ===================================================================== *)

(** A recursive-descent reader of the JSON grammar (ECMA-404), the
    built-in the service calls. [None] is the [SyntaxError]. *)
Module Json.
Import JS.

Local Open Scope N_scope.

(** JSON white space: space, tab, line feed, carriage return. *)
Definition is_ws (c : N) : bool :=
  (c =? 32) || (c =? 9) || (c =? 10) || (c =? 13).

Fixpoint skip_ws (s : jstring) : jstring :=
  match s with
  | c :: r => if is_ws c then skip_ws r else s
  | [] => []
  end.

Definition hex_val (c : N) : option N :=
  if is_digit c then Some (c - 48)
  else if (97 <=? c) && (c <=? 102) then Some (c - 87)
  else if (65 <=? c) && (c <=? 70) then Some (c - 55)
  else None.

Definition hex4 (a b c d : N) : option N :=
  match hex_val a, hex_val b, hex_val c, hex_val d with
  | Some x, Some y, Some z, Some w => Some (((x * 16 + y) * 16 + z) * 16 + w)
  | _, _, _, _ => None
  end.

(** The code unit a one-letter escape stands for. *)
Definition escape (c : N) : option N :=
  if c =? 34 then Some 34            (* quotation mark *)
  else if c =? 92 then Some 92       (* \\ *)
  else if c =? 47 then Some 47       (* \/ *)
  else if c =? 98 then Some 8        (* \b *)
  else if c =? 102 then Some 12      (* \f *)
  else if c =? 110 then Some 10      (* \n *)
  else if c =? 114 then Some 13      (* \r *)
  else if c =? 116 then Some 9       (* \t *)
  else None.

(** The characters of a string after its opening quote, up to and
    including the closing one; [acc] is what was read, reversed. *)
Fixpoint string_body (s acc : jstring) : option (jstring * jstring) :=
  match s with
  | [] => None
  | c :: r =>
      if c =? 34 then Some (rev acc, r)
      else if c =? 92 then
        match r with
        | e :: r1 =>
            if e =? 117 then
              match r1 with
              | a :: b :: x :: y :: r2 =>
                  match hex4 a b x y with
                  | Some h => string_body r2 (h :: acc)
                  | None => None
                  end
              | _ => None
              end
            else
              match escape e with
              | Some h => string_body r1 (h :: acc)
              | None => None
              end
        | [] => None
        end
      else if c <? 32 then None
      else string_body r (c :: acc)
  end.

(** The integer part: a single 0, or a non-zero digit and the digits
    after it (no leading zero). *)
Definition int_part (s : jstring) : option (list N * jstring) :=
  match s with
  | c :: r =>
      if c =? 48 then Some ([0], r)
      else if is_digit c then Some (digit_run s)
      else None
  | [] => None
  end.

(** [(\.[0-9]+)?] *)
Definition frac_part (s : jstring) : option (list N * jstring) :=
  match s with
  | c :: r =>
      if c =? 46 then
        match digit_run r with
        | ([], _) => None
        | (ds, rest) => Some (ds, rest)
        end
      else Some ([], s)
  | [] => Some ([], [])
  end.

(** [([eE][+-]?[0-9]+)?] *)
Definition exp_part (s : jstring) : option (Z * jstring) :=
  match s with
  | c :: r =>
      if (c =? 101) || (c =? 69) then
        let (neg, r1) :=
          match r with
          | sg :: r' =>
              if sg =? 45 then (true, r')
              else if sg =? 43 then (false, r')
              else (false, r)
          | [] => (false, r)
          end in
        match digit_run r1 with
        | ([], _) => None
        | (ds, rest) =>
            Some ((if neg then - digits_value ds else digits_value ds)%Z, rest)
        end
      else Some (0%Z, s)
  | [] => Some (0%Z, [])
  end.

(** A number literal, as the double it is read as. *)
Definition number (s : jstring) : option (JS.number * jstring) :=
  let (neg, s1) :=
    match s with
    | c :: r => if c =? 45 then (true, r) else (false, s)
    | [] => (false, s)
    end in
  match int_part s1 with
  | None => None
  | Some (ip, s2) =>
      match frac_part s2 with
      | None => None
      | Some (fp, s3) =>
          match exp_part s3 with
          | None => None
          | Some (e, s4) =>
              let m := digits_value (ip ++ fp) in
              Some (decimal (if neg then - m else m)%Z
                            (e - Z.of_nat (List.length fp))%Z
                            (List.length (ip ++ fp)), s4)
          end
      end
  end.

(** The key [k] as an array index, if it is one: the decimal form,
    without a leading zero, of an integer below [2 ^ 32 - 1]. *)
Definition index_key (k : jstring) : option N :=
  match k with
  | [] => None
  | c :: r =>
      if forallb is_digit k && negb ((c =? 48) && negb (List.length r =? 0)%nat)
         && (List.length k <=? 10)%nat
      then
        let n := Z.to_N (digits_value (map (fun d => d - 48) k)) in
        if n <? 4294967295 then Some n else None
      else None
  end.

(** The own properties of an object after the property [k] got the value
    [v]: a property that is there keeps its place; a new one comes after
    the others, but an array index comes among the array indices, which
    are first and in ascending order. *)
Fixpoint replace_member (k : jstring) (v : JValue)
    (ms : list (jstring * JValue)) : option (list (jstring * JValue)) :=
  match ms with
  | [] => None
  | (k', v') :: r =>
      if jstring_eqb k k' then Some ((k, v) :: r)
      else option_map (cons (k', v')) (replace_member k v r)
  end.

Fixpoint insert_index (i : N) (k : jstring) (v : JValue)
    (ms : list (jstring * JValue)) : list (jstring * JValue) :=
  match ms with
  | [] => [(k, v)]
  | (k', v') :: r =>
      match index_key k' with
      | Some j => if j <? i then (k', v') :: insert_index i k v r
                  else (k, v) :: ms
      | None => (k, v) :: ms
      end
  end.

Definition put (ms : list (jstring * JValue)) (m : jstring * JValue)
  : list (jstring * JValue) :=
  let (k, v) := m in
  match replace_member k v ms with
  | Some ms' => ms'
  | None =>
      match index_key k with
      | Some i => insert_index i k v ms
      | None => ms ++ [(k, v)]
      end
  end.

(** The object whose members were read in the order [ms]. *)
Definition object (ms : list (jstring * JValue)) : JValue :=
  JObj (fold_left put ms []).

(** [s] with the literal [w] removed from its head. *)
Definition expect (w s : jstring) : option jstring :=
  if startsWith w s then Some (skipn (List.length w) s) else None.

(** A value, the elements of an array after [[] or [,], and the members
    of an object after [{] or [,]. Every call spends one unit of [fuel];
    a value reads at least one code unit before it recurses, so twice the
    length of the input is more than any chain of calls needs. *)
Fixpoint value (fuel : nat) (s : jstring) : option (JValue * jstring) :=
  match fuel with
  | O => None
  | S f =>
      match skip_ws s with
      | [] => None
      | c :: r =>
          if c =? 123 then                         (* { *)
            match skip_ws r with
            | c' :: r' =>
                if c' =? 125 then Some (JObj [], r') else members f (c' :: r') []
            | [] => None
            end
          else if c =? 91 then                     (* [ *)
            match skip_ws r with
            | c' :: r' =>
                if c' =? 93 then Some (JArr [], r') else elements f (c' :: r') []
            | [] => None
            end
          else if c =? 34 then                     (* quotation mark *)
            match string_body r [] with
            | Some (str, rest) => Some (JStr str, rest)
            | None => None
            end
          else if c =? 116 then                    (* true *)
            option_map (fun rest => (JBool true, rest)) (expect (str "rue") r)
          else if c =? 102 then                    (* false *)
            option_map (fun rest => (JBool false, rest)) (expect (str "alse") r)
          else if c =? 110 then                    (* null *)
            option_map (fun rest => (JNull, rest)) (expect (str "ull") r)
          else
            match number (c :: r) with
            | Some (n, rest) => Some (JNum n, rest)
            | None => None
            end
      end
  end

with elements (fuel : nat) (s : jstring) (acc : list JValue)
  : option (JValue * jstring) :=
  match fuel with
  | O => None
  | S f =>
      match value f s with
      | None => None
      | Some (v, r) =>
          match skip_ws r with
          | c :: r' =>
              if c =? 44 then elements f r' (v :: acc)
              else if c =? 93 then Some (JArr (rev (v :: acc)), r')
              else None
          | [] => None
          end
      end
  end

with members (fuel : nat) (s : jstring) (acc : list (jstring * JValue))
  : option (JValue * jstring) :=
  match fuel with
  | O => None
  | S f =>
      match skip_ws s with
      | q :: r =>
          if q =? 34 then
            match string_body r [] with
            | None => None
            | Some (k, r1) =>
                match skip_ws r1 with
                | c :: r2 =>
                    if c =? 58 then
                      match value f r2 with
                      | None => None
                      | Some (v, r3) =>
                          match skip_ws r3 with
                          | d :: r4 =>
                              if d =? 44 then members f r4 ((k, v) :: acc)
                              else if d =? 125
                              then Some (object (rev ((k, v) :: acc)), r4)
                              else None
                          | [] => None
                          end
                      end
                    else None
                | [] => None
                end
            end
          else None
      | [] => None
      end
  end.

(** [JSON.parse(text)]: one value, with nothing but white space around. *)
Definition parse (text : jstring) : option JValue :=
  match value (2 * List.length text + 2) text with
  | Some (v, rest) =>
      match skip_ws rest with
      | [] => Some v
      | _ => None
      end
  | None => None
  end.

End Json.

(* ===================================================================== *)
(** ** The Mongoose schemas                                               *)
(* ===================================================================== *)

(** models/Course.js, models/Module.js and the Lesson model: the stored
    documents and what the schemas do to a value on its way in (cast,
    setters, validators). Paths no operation below reads or writes
    ([isPublic], [enrollmentCount], [hinglishAudio], timestamps, the
    Lesson's [difficulty]) are left out.

    A value on its way into a path is cast as Mongoose casts it
    ([lib/cast/string.js], [lib/cast/number.js], [SchemaArray.cast]); a
    value that cannot be cast is reported as [CastError] when the document
    is validated. Of the paths that fail validation the first one is
    reported. *)
Module Schema.
Import JS.

Record CourseDoc : Type := {
  c_id : nat;
  c_title : jstring;
  c_description : option jstring;
  c_creator : jstring;
  c_modules : list nat;
  c_tags : list (option jstring);
  c_difficulty : jstring;
  c_estimatedHours : option number
}.

Record ModuleDoc : Type := {
  m_id : nat;
  m_title : jstring;
  m_description : option jstring;
  m_course : nat;
  m_lessons : list nat;
  m_order : number;
  m_objectives : list (option jstring)
}.

Record LessonDoc : Type := {
  l_id : nat;
  l_title : jstring;
  l_content : list JValue;
  l_objectives : list (option jstring);
  l_module : nat;
  l_order : number;
  l_isEnriched : bool;
  l_estimatedMinutes : option number;
  l_tags : list (option jstring);
  l_readingTime : option nat
}.

(** The cast of a [String] path: [null] and [undefined] stay; a string is
    itself; a number and a boolean are their [toString()]; an object with
    an [_id] that is a string and not empty is that string; an array and
    any other object are a [CastError] (their [toString] is that of
    [Array], is [Object.prototype.toString], or is no function). *)
Definition castString (path : jstring) (v : option JValue)
  : Result (option jstring) :=
  match v with
  | None | Some JNull => Ok None
  | Some (JStr s) => Ok (Some s)
  | Some (JNum n) => Ok (Some (number_toString n))
  | Some (JBool b) => Ok (Some (str (if b then "true" else "false")))
  | Some (JObj ms) =>
      match lookup (str "_id") ms with
      | Some (JStr (c :: s)) => Ok (Some (c :: s))
      | _ => Throw (CastError path)
      end
  | Some (JArr _) => Throw (CastError path)
  end.

(** [castNumber(val)] of [lib/cast/number.js]: [null] and [undefined]
    stay, the empty string is [null], any other string is [Number(s)]
    unless that is [NaN], a boolean is 1 or 0, a number is itself; an
    array and an object are rejected ([Number] of them is [NaN] or
    throws). *)
Definition castNumberValue (path : jstring) (val : option JValue)
  : Result (option number) :=
  match val with
  | None | Some JNull => Ok None
  | Some (JNum n) => Ok (Some n)
  | Some (JStr []) => Ok None
  | Some (JStr s) =>
      match toNumber s with
      | Some n => Ok (Some n)
      | None => Throw (CastError path)
      end
  | Some (JBool b) => Ok (Some (Finite (if b then 1 else 0)))
  | Some (JArr _) | Some (JObj _) => Throw (CastError path)
  end.

(** The cast of a [Number] path: an object with an [_id] stands for that
    [_id]. *)
Definition castNumber (path : jstring) (v : option JValue)
  : Result (option number) :=
  match v with
  | Some (JObj ms) =>
      match lookup (str "_id") ms with
      | Some id => castNumberValue path (Some id)
      | None => Throw (CastError path)
      end
  | _ => castNumberValue path v
  end.

(** The elements of a path of type [[String]], each cast as a string;
    [null] stays [null] ([None]). *)
Fixpoint castStrings (path : jstring) (l : list JValue)
  : Result (list (option jstring)) :=
  match l with
  | [] => Ok []
  | v :: r =>
      rbind (castString path (Some v)) (fun s =>
      rbind (castStrings path r) (fun r' => Ok (s :: r')))
  end.

(** A path of type [[String]]: a value that is no array is cast as the
    array of that one value; an absent value is the default [[]]. (The
    callers pass [x || []] or a truthy [x]: never [null].) *)
Definition castStringArray (path : jstring) (v : option JValue)
  : Result (list (option jstring)) :=
  match v with
  | None => Ok []
  | Some (JArr l) => castStrings path l
  | Some x => castStrings path [x]
  end.

(** A path of type [[Mixed]]: an array, element by element as it is; a
    value that is no array is the array of that one value. *)
Definition castArray (path : jstring) (v : option JValue)
  : Result (list JValue) :=
  match v with
  | None => Ok []
  | Some (JArr l) => Ok l
  | Some x => Ok [x]
  end.

(** The setters [trim], and [trim] with [lowercase], on the elements of
    a [[String]] path. *)
Definition trimmed (l : list (option jstring)) : list (option jstring) :=
  map (option_map trim) l.

Definition lowered (l : list (option jstring)) : list (option jstring) :=
  map (option_map (fun x => toLowerCase (trim x))) l.

(** [required] on a [String] path: present and not empty. *)
Definition required (path : jstring) (v : option jstring) : Result jstring :=
  match v with
  | Some (c :: s) => Ok (c :: s)
  | _ => Throw (ValidationError path)
  end.

(** [maxlength: n] *)
Definition maxlength (path : jstring) (n : nat) (s : jstring) : Result unit :=
  if List.length s <=? n then Ok tt else Throw (ValidationError path).

(** [maxlength: n] on the elements of a [[String]] path; [null] passes. *)
Fixpoint each_maxlength (path : jstring) (n : nat) (l : list (option jstring))
  : Result unit :=
  match l with
  | [] => Ok tt
  | Some s :: r => rbind (maxlength path n s) (fun _ => each_maxlength path n r)
  | None :: r => each_maxlength path n r
  end.

(** [min: lo] and [max: hi] on a [Number] path. *)
Definition in_range (path : jstring) (lo : Q) (hi : option Q) (n : number)
  : Result unit :=
  if number_leb lo n
     && match hi with Some h => number_leb n h | None => true end
  then Ok tt else Throw (ValidationError path).

Definition in_range_opt (path : jstring) (lo : Q) (hi : option Q)
    (n : option number) : Result unit :=
  match n with
  | Some x => in_range path lo hi x
  | None => Ok tt
  end.

Definition difficulties : list jstring :=
  [str "beginner"; str "intermediate"; str "advanced"].

(** [enum: [...]] *)
Definition enum (path : jstring) (allowed : list jstring) (s : jstring)
  : Result unit :=
  if existsb (jstring_eqb s) allowed then Ok tt else Throw (ValidationError path).

(** [new Course({title, description, creator, tags, difficulty,
    estimatedHours})] followed by the validation [save()] runs: title
    required, trimmed, at most 200; description trimmed, at most 1000;
    creator required; each tag trimmed, lower-cased, at most 50;
    difficulty one of the three levels; estimatedHours in [0, 1000]. *)
Definition Course_new (id : nat)
    (title description : option JValue) (creator : jstring)
    (tags difficulty estimatedHours : option JValue) : Result CourseDoc :=
  rbind (castString (str "title") title) (fun t =>
  rbind (castString (str "description") description) (fun d =>
  rbind (castStringArray (str "tags") tags) (fun tg =>
  rbind (castString (str "difficulty") difficulty) (fun df =>
  rbind (castNumber (str "estimatedHours") estimatedHours) (fun h =>
  let d' := option_map trim d in
  let tg' := lowered tg in
  let df' := match df with Some x => x | None => str "beginner" end in
  rbind (required (str "title") (option_map trim t)) (fun t' =>
  rbind (maxlength (str "title") 200 t') (fun _ =>
  rbind (match d' with
         | Some x => maxlength (str "description") 1000 x
         | None => Ok tt
         end) (fun _ =>
  rbind (required (str "creator") (Some creator)) (fun cr =>
  rbind (each_maxlength (str "tags") 50 tg') (fun _ =>
  rbind (enum (str "difficulty") difficulties df') (fun _ =>
  rbind (in_range_opt (str "estimatedHours") 0 (Some 1000%Q) h) (fun _ =>
  Ok {| c_id := id; c_title := t'; c_description := d'; c_creator := cr;
        c_modules := []; c_tags := tg'; c_difficulty := df';
        c_estimatedHours := h |})))))))))))).

(** [new Module({title, description, course, order, objectives})] and its
    validation: title required, trimmed, at most 200; description trimmed,
    at most 500; order required, not negative; each objective trimmed, at
    most 200. *)
Definition Module_new (id : nat)
    (title description : option JValue) (course : nat)
    (order objectives : option JValue) : Result ModuleDoc :=
  rbind (castString (str "title") title) (fun t =>
  rbind (castString (str "description") description) (fun d =>
  rbind (castNumber (str "order") order) (fun o =>
  rbind (castStringArray (str "objectives") objectives) (fun ob =>
  let d' := option_map trim d in
  let ob' := trimmed ob in
  rbind (required (str "title") (option_map trim t)) (fun t' =>
  rbind (maxlength (str "title") 200 t') (fun _ =>
  rbind (match d' with
         | Some x => maxlength (str "description") 500 x
         | None => Ok tt
         end) (fun _ =>
  rbind (match o with
         | Some q => rbind (in_range (str "order") 0 None q) (fun _ => Ok q)
         | None => Throw (ValidationError (str "order"))
         end) (fun o' =>
  rbind (each_maxlength (str "objectives") 200 ob') (fun _ =>
  Ok {| m_id := id; m_title := t'; m_description := d'; m_course := course;
        m_lessons := []; m_order := o'; m_objectives := ob' |}))))))))).

(** The words the [pre('save')] hook counts in one block: the text of a
    paragraph or heading, the question and options of an mcq, the items
    of a list. [(x || '').split] and [x.forEach] throw a [TypeError] when
    [x] is truthy and not a string, resp. not an array. *)
Definition words_of (v : option JValue) : Result nat :=
  match js_or v (Some (JStr [])) with
  | Some (JStr s) => Ok (split_ws_length s)
  | _ => Throw TypeError
  end.

Fixpoint words_each (l : list JValue) : Result nat :=
  match l with
  | [] => Ok 0
  | JStr s :: r => rbind (words_each r) (fun n => Ok (split_ws_length s + n))
  | _ :: _ => Throw TypeError
  end.

Definition words_forEach (v : option JValue) : Result nat :=
  match v with
  | Some (JArr l) => words_each l
  | _ => Throw TypeError
  end.

Definition type_is (t : option JValue) (name : string) : bool :=
  match t with
  | Some (JStr s) => jstring_eqb s (str name)
  | _ => false
  end.

Definition block_words (block : JValue) : Result nat :=
  rbind (get (Some block) (str "type")) (fun t =>
  if type_is t "paragraph" || type_is t "heading" then
    rbind (get (Some block) (str "text")) words_of
  else if type_is t "mcq" then
    rbind (get (Some block) (str "question")) (fun q =>
    rbind (words_of q) (fun n =>
    rbind (get (Some block) (str "options")) (fun o =>
    if truthy o then rbind (words_forEach o) (fun k => Ok (n + k)) else Ok n)))
  else if type_is t "list" then
    rbind (get (Some block) (str "items")) (fun i =>
    if truthy i then words_forEach i else Ok 0)
  else Ok 0).

Fixpoint wordCount (content : list JValue) : Result nat :=
  match content with
  | [] => Ok 0
  | b :: r =>
      rbind (block_words b) (fun n =>
      rbind (wordCount r) (fun k => Ok (n + k)))
  end.

(** [Math.max(1, Math.ceil(wordCount / 200))] *)
Definition readingTime_of (words : nat) : nat :=
  Nat.max 1 ((words + 199) / 200).

(** [lessonSchema.pre('save')], when [content] is modified. *)
Definition pre_save (l : LessonDoc) : Result LessonDoc :=
  rbind (wordCount (l_content l)) (fun w =>
  Ok {| l_id := l_id l; l_title := l_title l; l_content := l_content l;
        l_objectives := l_objectives l; l_module := l_module l;
        l_order := l_order l; l_isEnriched := l_isEnriched l;
        l_estimatedMinutes := l_estimatedMinutes l; l_tags := l_tags l;
        l_readingTime := Some (readingTime_of w) |}).

(** The [content] validator: an array with at least one block. *)
Definition content_ok (content : list JValue) : Result unit :=
  match content with
  | [] => Throw (ValidationError (str "content"))
  | _ :: _ => Ok tt
  end.

(** [new Lesson({title, content, module, order, isEnriched})] and its
    validation: title required, trimmed, at most 200; content not empty;
    order required, not negative. *)
Definition Lesson_new (id : nat) (title : option JValue)
    (content : list JValue) (module : nat) (order : option JValue)
    (isEnriched : bool) : Result LessonDoc :=
  rbind (castString (str "title") title) (fun t =>
  rbind (castNumber (str "order") order) (fun o =>
  rbind (required (str "title") (option_map trim t)) (fun t' =>
  rbind (maxlength (str "title") 200 t') (fun _ =>
  rbind (content_ok content) (fun _ =>
  rbind (match o with
         | Some q => rbind (in_range (str "order") 0 None q) (fun _ => Ok q)
         | None => Throw (ValidationError (str "order"))
         end) (fun o' =>
  Ok {| l_id := id; l_title := t'; l_content := content; l_objectives := [];
        l_module := module; l_order := o'; l_isEnriched := isEnriched;
        l_estimatedMinutes := None; l_tags := []; l_readingTime := None |})))))).

End Schema.

(* ===================================================================== *)
(** ** The world a request runs in                                        *)
(* ===================================================================== *)

Module Runtime.
Import JS Schema.

(** [response.text] of a model response: a method returning the text, or
    a plain property (any value, or absent). *)
Inductive TextField : Type :=
| TextFunction (returns : jstring)
| TextValue (v : option JValue).

(** The response envelope of the model client, as far as [extractText]
    looks into it. *)
Record Envelope : Type := {
  env_text : TextField;
  env_candidates : option JValue
}.

(** What [ai.models.generateContent] settles to. *)
Inductive ModelOutcome : Type :=
| Rejected (message : jstring)
| Resolved (response : Envelope).

(** What the code cannot decide: the outcome of the n-th model call (the
    model is not a function of its prompt) and whether the n-th write
    reaches the database. *)
Record Env : Type := {
  model : nat -> ModelOutcome;
  db_ok : nat -> bool
}.

(** The three collections, the next fresh [ObjectId], and the number of
    model calls and of database writes issued so far. *)
Record World : Type := {
  courses : list CourseDoc;
  modules : list ModuleDoc;
  lessons : list LessonDoc;
  next_id : nat;
  calls : nat;
  writes : nat
}.

(** A computation that reads and writes the world and may throw; the
    world a throwing computation leaves behind is kept. *)
Definition M (A : Type) : Type := World -> Result A * World.

Definition ret {A} (a : A) : M A := fun w => (Ok a, w).

Definition bind {A B} (m : M A) (k : A -> M B) : M B :=
  fun w =>
    match m w with
    | (Ok a, w') => k a w'
    | (Throw e, w') => (Throw e, w')
    end.

Definition throw {A} (e : Error) : M A := fun w => (Throw e, w).

Definition lift {A} (r : Result A) : M A := fun w => (r, w).

(** [try { m } catch (error) { h error }] *)
Definition try_catchM {A} (m : M A) (h : Error -> M A) : M A :=
  fun w =>
    match m w with
    | (Ok a, w') => (Ok a, w')
    | (Throw e, w') => h e w'
    end.

Declare Scope m_scope.
Delimit Scope m_scope with m.
Notation "x <- m ;; k" := (bind m (fun x => k))
  (at level 61, m at next level, right associativity) : m_scope.
Notation "m ;;; k" := (bind m (fun _ => k))
  (at level 61, right associativity) : m_scope.

Definition with_courses (cs : list CourseDoc) (w : World) : World :=
  {| courses := cs; modules := modules w; lessons := lessons w;
     next_id := next_id w; calls := calls w; writes := writes w |}.

Definition with_modules (ms : list ModuleDoc) (w : World) : World :=
  {| courses := courses w; modules := ms; lessons := lessons w;
     next_id := next_id w; calls := calls w; writes := writes w |}.

Definition with_lessons (ls : list LessonDoc) (w : World) : World :=
  {| courses := courses w; modules := modules w; lessons := ls;
     next_id := next_id w; calls := calls w; writes := writes w |}.

(** A new [ObjectId], made by the driver without a round trip. *)
Definition fresh_id : M nat :=
  fun w =>
    (Ok (next_id w),
     {| courses := courses w; modules := modules w; lessons := lessons w;
        next_id := S (next_id w); calls := calls w; writes := writes w |}).

(** Put [d] in the place of the document whose key is [id], or after the
    last document when there is none. *)
Fixpoint upsert {D} (key : D -> nat) (id : nat) (d : D) (l : list D) : list D :=
  match l with
  | [] => [d]
  | x :: r => if key x =? id then d :: r else x :: upsert key id d r
  end.

Fixpoint find_id {D} (key : D -> nat) (id : nat) (l : list D) : option D :=
  match l with
  | [] => None
  | x :: r => if key x =? id then Some x else find_id key id r
  end.

Section WithEnv.
Variable E : Env.

(** One call of [ai.models.generateContent]. *)
Definition call_model : M ModelOutcome :=
  fun w =>
    (Ok (model E (calls w)),
     {| courses := courses w; modules := modules w; lessons := lessons w;
        next_id := next_id w; calls := S (calls w); writes := writes w |}).

(** One write: applied when the database takes it, [StoreError] when it
    does not. *)
Definition db_write (f : World -> World) : M unit :=
  fun w =>
    let w' := {| courses := courses w; modules := modules w;
                 lessons := lessons w; next_id := next_id w;
                 calls := calls w; writes := S (writes w) |} in
    if db_ok E (writes w) then (Ok tt, f w') else (Throw StoreError, w').

Definition write_course (c : CourseDoc) : M unit :=
  db_write (fun w => with_courses (upsert c_id (c_id c) c (courses w)) w).

Definition write_module (m : ModuleDoc) : M unit :=
  db_write (fun w => with_modules (upsert m_id (m_id m) m (modules w)) w).

Definition write_lesson (l : LessonDoc) : M unit :=
  db_write (fun w => with_lessons (upsert l_id (l_id l) l (lessons w)) w).

End WithEnv.

(** [Model.findById(id)] *)
Definition find_course (id : nat) : M (option CourseDoc) :=
  fun w => (Ok (find_id c_id id (courses w)), w).
Definition find_module (id : nat) : M (option ModuleDoc) :=
  fun w => (Ok (find_id m_id id (modules w)), w).
Definition find_lesson (id : nat) : M (option LessonDoc) :=
  fun w => (Ok (find_id l_id id (lessons w)), w).

(** The JSON body a handler sends, with its HTTP status. *)
Record Response (A : Type) : Type := {
  status : nat;
  success : bool;
  data : option A;
  error : option jstring
}.

Definition respond {A} (st : nat) (d : A) : Response A :=
  {| status := st; success := true; data := Some d; error := None |}.

Definition refuse {A} (st : nat) (msg : string) : Response A :=
  {| status := st; success := false; data := None; error := Some (str msg) |}.

End Runtime.

(* ===================================================================== *)
(** ** services/aiService.js                                              *)
(* ===================================================================== *)

Module AIService.
Import JS Schema Runtime.
Local Open Scope m_scope.

(** [v[0]]: the first element of an array, the member ['0'] of an object,
    the first code unit of a string. *)
Definition first (v : option JValue) : Result (option JValue) :=
  match v with
  | None | Some JNull => Throw TypeError
  | Some (JArr l) => Ok (hd_error l)
  | Some (JObj ms) => Ok (lookup (str "0") ms)
  | Some (JStr (c :: _)) => Ok (Some (JStr [c]))
  | Some _ => Ok None
  end.

(** [extractText(response)] *)
Definition extractText (response : Envelope) : Result (option JValue) :=
  match env_text response with
  | TextFunction r => Ok (Some (JStr r))
  | TextValue (Some (JStr s)) => Ok (Some (JStr s))
  | TextValue _ =>
      let cs := env_candidates response in
      if truthy cs then
        rbind (first cs) (fun c0 =>
        if truthy c0 then
          rbind (get c0 (str "content")) (fun ct =>
          if truthy ct then
            rbind (get ct (str "parts")) (fun ps =>
            if truthy ps then
              rbind (first ps) (fun p0 => get p0 (str "text"))
            else Throw CouldNotExtract)
          else Throw CouldNotExtract)
        else Throw CouldNotExtract)
      else Throw CouldNotExtract
  end.

Definition fence : jstring := str "```".
Definition fence_json : jstring := str "```json".

(** The text [parseJSONResponse] hands to [JSON.parse]: trimmed, then
    with the markdown fence removed when the text starts with one. *)
Definition cleanText (text : jstring) : jstring :=
  let t := trim text in
  if startsWith fence_json t then
    replace_ws_suffix fence (replace_prefix_ws fence_json t)
  else if startsWith fence t then
    replace_ws_suffix fence (replace_prefix_ws fence t)
  else t.

(** [parseJSONResponse(text)]; [text.trim()] is a [TypeError] when [text]
    is not a string, and every error inside the [try] becomes
    'AI returned invalid JSON format'. *)
Definition parseJSONResponse (text : option JValue) : Result JValue :=
  try_catch
    (match text with
     | Some (JStr s) =>
         match Json.parse (cleanText s) with
         | Some v => Ok v
         | None => Throw SyntaxError
         end
     | _ => Throw TypeError
     end)
    (fun _ => Throw InvalidJSON).

(** [required.filter(field => !data[field])] *)
Fixpoint missing (data : JValue) (required : list jstring)
  : Result (list jstring) :=
  match required with
  | [] => Ok []
  | f :: r =>
      rbind (get (Some data) f) (fun v =>
      rbind (missing data r) (fun m =>
      Ok (if truthy v then m else f :: m)))
  end.

(** The body of [courseData.modules.forEach((module, index) => ...)] and
    the loop from [index] on. *)
Definition check_module (module : JValue) (index : nat) : Result unit :=
  rbind (get (Some module) (str "title")) (fun t =>
  if negb (truthy t) then Throw (ModuleMissingTitle index)
  else
    rbind (get (Some module) (str "lessons")) (fun ls =>
    match asArray ls with
    | Some (_ :: _) => Ok tt
    | _ => Throw (ModuleNoLessons t)
    end)).

Fixpoint check_modules (ms : list JValue) (index : nat) : Result unit :=
  match ms with
  | [] => Ok tt
  | m :: r => rbind (check_module m index) (fun _ => check_modules r (S index))
  end.

(** [validateCourseStructure(courseData)] *)
Definition validateCourseStructure (courseData : JValue) : Result unit :=
  rbind (missing courseData [str "title"; str "description"; str "modules"])
    (fun m =>
  match m with
  | _ :: _ => Throw (CourseMissing m)
  | [] =>
      rbind (get (Some courseData) (str "modules")) (fun ms =>
      match asArray ms with
      | Some (x :: r) => check_modules (x :: r) 0
      | _ => Throw CourseNoModules
      end)
  end).

Definition validTypes : list jstring :=
  [str "heading"; str "paragraph"; str "code"; str "list"; str "video";
   str "mcq"; str "image"].

(** [validTypes.includes(t)] *)
Definition includes (t : option JValue) : bool :=
  match t with
  | Some (JStr s) => existsb (jstring_eqb s) validTypes
  | _ => false
  end.

(** The body of [lessonData.content.forEach((block, index) => ...)] and
    the loop from [index] on. *)
Definition check_block (block : JValue) (index : nat) : Result unit :=
  rbind (get (Some block) (str "type")) (fun t =>
  if negb (truthy t) then Throw (BlockMissingType index)
  else
    match t with
    | Some ty => if includes t then Ok tt else Throw (InvalidBlockType ty)
    | None => Throw (BlockMissingType index)
    end).

Fixpoint check_blocks (bs : list JValue) (index : nat) : Result unit :=
  match bs with
  | [] => Ok tt
  | b :: r => rbind (check_block b index) (fun _ => check_blocks r (S index))
  end.

(** [validateLessonStructure(lessonData)] *)
Definition validateLessonStructure (lessonData : JValue) : Result unit :=
  rbind (missing lessonData [str "title"; str "content"]) (fun m =>
  match m with
  | _ :: _ => Throw (LessonMissing m)
  | [] =>
      rbind (get (Some lessonData) (str "content")) (fun c =>
      match asArray c with
      | Some (x :: r) => check_blocks (x :: r) 0
      | _ => Throw LessonNoContent
      end)
  end).

(** What follows [await this.ai.models.generateContent(...)] inside the
    [try] of [generateCourse], [generateLesson] and
    [generateCourseSuggestions]. *)
Definition settle (o : ModelOutcome) : Result (option JValue) :=
  match o with
  | Rejected m => Throw (Transport m)
  | Resolved r => extractText r
  end.

Definition course_of (o : ModelOutcome) : Result JValue :=
  try_catch
    (rbind (settle o) (fun text =>
     rbind (parseJSONResponse text) (fun courseData =>
     rbind (validateCourseStructure courseData) (fun _ => Ok courseData))))
    (fun e => Throw (FailedToGenerateCourse e)).

Definition lesson_of (o : ModelOutcome) : Result JValue :=
  try_catch
    (rbind (settle o) (fun text =>
     rbind (parseJSONResponse text) (fun lessonData =>
     rbind (validateLessonStructure lessonData) (fun _ => Ok lessonData))))
    (fun e => Throw (FailedToGenerateLesson e)).

Definition suggestions_of (o : ModelOutcome) : Result JValue :=
  try_catch
    (rbind (settle o) parseJSONResponse)
    (fun _ => Ok (JArr [])).

Section WithEnv.
Variable E : Env.

(** [generateCourse(topic)]: one model call, then extraction, parsing and
    validation. The prompt built from [topic] does not decide the outcome
    and is not kept. *)
Definition generateCourse (topic : jstring) : M JValue :=
  o <- call_model E ;; lift (course_of o).

(** [generateLesson(courseTitle, moduleTitle, lessonTitle, lessonIndex)] *)
Definition generateLesson (courseTitle moduleTitle lessonTitle : jstring)
    (lessonIndex : number) : M JValue :=
  o <- call_model E ;; lift (lesson_of o).

(** [generateCourseSuggestions(partialTopic)] *)
Definition generateCourseSuggestions (partialTopic : jstring) : M JValue :=
  o <- call_model E ;; lift (suggestions_of o).

End WithEnv.

End AIService.

(* ===================================================================== *)
(** ** Instance methods of the models                                     *)
(* ===================================================================== *)

Module Models.
Import JS Schema Runtime.
Local Open Scope m_scope.

Section WithEnv.
Variable E : Env.

(** [courseSchema.methods.addModule]: push the id unless it is there
    already, and save; gives the in-memory document. *)
Definition addModule (c : CourseDoc) (moduleId : nat) : M CourseDoc :=
  if existsb (Nat.eqb moduleId) (c_modules c) then ret c
  else
    let c' := {| c_id := c_id c; c_title := c_title c;
                 c_description := c_description c; c_creator := c_creator c;
                 c_modules := c_modules c ++ [moduleId]; c_tags := c_tags c;
                 c_difficulty := c_difficulty c;
                 c_estimatedHours := c_estimatedHours c |} in
    write_course E c' ;;; ret c'.

(** [moduleSchema.methods.addLesson] *)
Definition addLesson (m : ModuleDoc) (lessonId : nat) : M ModuleDoc :=
  if existsb (Nat.eqb lessonId) (m_lessons m) then ret m
  else
    let m' := {| m_id := m_id m; m_title := m_title m;
                 m_description := m_description m; m_course := m_course m;
                 m_lessons := m_lessons m ++ [lessonId]; m_order := m_order m;
                 m_objectives := m_objectives m |} in
    write_module E m' ;;; ret m'.

End WithEnv.

(** A lesson as [populate] shows it with [select: 'title order
    estimatedMinutes isEnriched']: these four paths and the id; and
    [readingTime] when the selection names it too ([None] when it does
    not). Virtuals are not shown. *)
Record LessonSummary : Type := {
  s_id : nat;
  s_title : jstring;
  s_order : number;
  s_estimatedMinutes : option number;
  s_isEnriched : bool;
  s_readingTime : option (option nat)
}.

Definition summary (readingTime : bool) (l : LessonDoc) : LessonSummary :=
  {| s_id := l_id l; s_title := l_title l; s_order := l_order l;
     s_estimatedMinutes := l_estimatedMinutes l;
     s_isEnriched := l_isEnriched l;
     s_readingTime := if readingTime then Some (l_readingTime l) else None |}.

(** A course with its modules and the summaries of their lessons in
    place of the ids ([populate]); an id with no document is dropped. *)
Record CourseView : Type := {
  v_course : CourseDoc;
  v_modules : list (ModuleDoc * list LessonSummary)
}.

Fixpoint pick {D} (key : D -> nat) (ids : list nat) (l : list D) : list D :=
  match ids with
  | [] => []
  | id :: r =>
      match find_id key id l with
      | Some d => d :: pick key r l
      | None => pick key r l
      end
  end.

(** [Course.findById(id).populate({path: 'modules', populate: {path:
    'lessons', select}})]; [readingTime] tells whether the selection
    names that path. *)
Definition populate (readingTime : bool) (id : nat) : M (option CourseView) :=
  fun w =>
    (Ok (option_map
           (fun c =>
              {| v_course := c;
                 v_modules :=
                   map (fun m =>
                          (m, map (summary readingTime)
                                  (pick l_id (m_lessons m) (lessons w))))
                       (pick m_id (c_modules c) (modules w)) |})
           (find_id c_id id (courses w))),
     w).

(** The lesson with other [content]. *)
Definition set_content (l : LessonDoc) (content : list JValue) : LessonDoc :=
  {| l_id := l_id l; l_title := l_title l; l_content := content;
     l_objectives := l_objectives l; l_module := l_module l;
     l_order := l_order l; l_isEnriched := l_isEnriched l;
     l_estimatedMinutes := l_estimatedMinutes l; l_tags := l_tags l;
     l_readingTime := l_readingTime l |}.

(** The validators of the Lesson schema on a document as it is in memory
    (setters have run when the values were set): [save()] validates every
    path of a document that was loaded, before any [pre('save')] hook. *)
Definition validateLesson (l : LessonDoc) : Result unit :=
  rbind (required (str "title") (Some (l_title l))) (fun t =>
  rbind (maxlength (str "title") 200 t) (fun _ =>
  rbind (content_ok (l_content l)) (fun _ =>
  rbind (each_maxlength (str "objectives") 200 (l_objectives l)) (fun _ =>
  rbind (in_range (str "order") 0 None (l_order l)) (fun _ =>
  rbind (in_range_opt (str "estimatedMinutes") 1 (Some 240%Q)
           (l_estimatedMinutes l)) (fun _ =>
  rbind (each_maxlength (str "tags") 30 (l_tags l)) (fun _ =>
  match l_readingTime l with
  | Some O => Throw (ValidationError (str "readingTime"))
  | _ => Ok tt
  end))))))).

(** What [reorderLessons] settles to: the module, or the rejection
    'Invalid lesson IDs provided for reordering'. *)
Inductive Reorder : Type :=
| Reordered (m : ModuleDoc)
| InvalidLessonIDs.

(** What [removeContentBlock] gives: the lesson, or the thrown
    'Invalid content block index'. *)
Inductive Removal : Type :=
| Removed (l : LessonDoc)
| InvalidBlockIndex.

Section Methods.
Variable E : Env.

(** [courseSchema.methods.removeModule] *)
Definition removeModule (c : CourseDoc) (moduleId : nat) : M CourseDoc :=
  let c' := {| c_id := c_id c; c_title := c_title c;
               c_description := c_description c; c_creator := c_creator c;
               c_modules := filter (fun id => negb (id =? moduleId)) (c_modules c);
               c_tags := c_tags c; c_difficulty := c_difficulty c;
               c_estimatedHours := c_estimatedHours c |} in
  write_course E c' ;;; ret c'.

(** [moduleSchema.methods.removeLesson] *)
Definition removeLesson (m : ModuleDoc) (lessonId : nat) : M ModuleDoc :=
  let m' := {| m_id := m_id m; m_title := m_title m;
               m_description := m_description m; m_course := m_course m;
               m_lessons := filter (fun id => negb (id =? lessonId)) (m_lessons m);
               m_order := m_order m; m_objectives := m_objectives m |} in
  write_module E m' ;;; ret m'.

(** [moduleSchema.methods.reorderLessons] *)
Definition reorderLessons (m : ModuleDoc) (lessonIds : list nat) : M Reorder :=
  let validIds :=
    filter (fun id => existsb (fun lessonId => lessonId =? id) (m_lessons m))
           lessonIds in
  if negb (List.length validIds =? List.length (m_lessons m))
  then ret InvalidLessonIDs
  else
    let m' := {| m_id := m_id m; m_title := m_title m;
                 m_description := m_description m; m_course := m_course m;
                 m_lessons := validIds; m_order := m_order m;
                 m_objectives := m_objectives m |} in
    write_module E m' ;;; ret (Reordered m').

(** [lesson.save()] once [content] has been modified: the validation,
    the [pre('save')] hook, the write; gives the lesson as the hook left
    it. *)
Definition Lesson_save (l : LessonDoc) : M LessonDoc :=
  lift (validateLesson l) ;;;
  l' <- lift (pre_save l) ;;
  write_lesson E l' ;;;
  ret l'.

(** [lessonSchema.methods.addContentBlock(block, position = -1)], for a
    [position] that is a number. *)
Definition addContentBlock (l : LessonDoc) (block : JValue)
    (position : option Q) : M LessonDoc :=
  let position := match position with Some q => q | None => (-1)%Q end in
  let content := l_content l in
  Lesson_save
    (set_content l
       (if Qeq_bool position (-1)
           || Qle_bool (inject_Z (Z.of_nat (List.length content))) position
        then content ++ [block]
        else splice_in (toInteger position) block content)).

(** [lessonSchema.methods.removeContentBlock(index)], for an [index] that
    is a number. *)
Definition removeContentBlock (l : LessonDoc) (index : Q) : M Removal :=
  let content := l_content l in
  if Qle_bool 0 index
     && negb (Qle_bool (inject_Z (Z.of_nat (List.length content))) index)
  then
    l' <- Lesson_save (set_content l (splice_out (toInteger index) content)) ;;
    ret (Removed l')
  else ret InvalidBlockIndex.

End Methods.

End Models.

(* ===================================================================== *)
(** ** controllers/courseController.js                                    *)
(* ===================================================================== *)

Module CourseController.
Import JS Schema Runtime Models.
Local Open Scope m_scope.

(** The block every new lesson starts with. *)
Definition placeholder : JValue :=
  JObj [(str "type", JStr (str "paragraph"));
        (str "text",
         JStr (str "Content will be generated when you first view this lesson."))].

(** The loop index as the JavaScript number it is. *)
Definition num (i : nat) : option JValue := Some (JNum (inject_Z (Z.of_nat i))).

(** [x.length] and [x[i]] of the loops, for the array validation has
    checked [x] to be. *)
Definition elements (v : option JValue) : Result (list JValue) :=
  match asArray v with
  | Some l => Ok l
  | None => Throw TypeError
  end.

Section WithEnv.
Variable E : Env.

(** The body of the inner loop, for [lessonData = moduleData.lessons[j]]:
    create the placeholder lesson, save it, attach it to the module. *)
Definition createLesson (module : ModuleDoc) (j : nat) (lessonData : JValue)
  : M ModuleDoc :=
  title <- lift (get (Some lessonData) (str "title")) ;;
  order <- lift (get (Some lessonData) (str "order")) ;;
  id <- fresh_id ;;
  fresh <- lift (Lesson_new id title [placeholder] (m_id module)
                            (js_or order (num j)) false) ;;
  lesson <- lift (pre_save fresh) ;;
  write_lesson E lesson ;;;
  addLesson E module (l_id lesson).

(** [for (let j = ...; j < moduleData.lessons.length; j++)], from [j]. *)
Fixpoint createLessons (module : ModuleDoc) (j : nat) (ls : list JValue)
  : M ModuleDoc :=
  match ls with
  | [] => ret module
  | lessonData :: r =>
      module' <- createLesson module j lessonData ;;
      createLessons module' (S j) r
  end.

(** The body of the outer loop, for [moduleData = courseData.modules[i]]. *)
Definition createModule (course : CourseDoc) (i : nat) (moduleData : JValue)
  : M CourseDoc :=
  title <- lift (get (Some moduleData) (str "title")) ;;
  description <- lift (get (Some moduleData) (str "description")) ;;
  order <- lift (get (Some moduleData) (str "order")) ;;
  objectives <- lift (get (Some moduleData) (str "objectives")) ;;
  id <- fresh_id ;;
  module <- lift (Module_new id title (js_or description (Some (JStr [])))
                             (c_id course) (js_or order (num i))
                             (js_or objectives (Some (JArr [])))) ;;
  write_module E module ;;;
  ls <- lift (rbind (get (Some moduleData) (str "lessons")) elements) ;;
  module' <- createLessons module 0 ls ;;
  addModule E course (m_id module').

(** [for (let i = ...; i < courseData.modules.length; i++)], from [i]. *)
Fixpoint createModules (course : CourseDoc) (i : nat) (ms : list JValue)
  : M CourseDoc :=
  match ms with
  | [] => ret course
  | moduleData :: r =>
      course' <- createModule course i moduleData ;;
      createModules course' (S i) r
  end.

(** What [generateCourse] does with the outline the service returned:
    create the course, then its modules and placeholder lessons. *)
Definition build (creator : jstring) (courseData : JValue) : M CourseDoc :=
  title <- lift (get (Some courseData) (str "title")) ;;
  description <- lift (get (Some courseData) (str "description")) ;;
  tags <- lift (get (Some courseData) (str "tags")) ;;
  difficulty <- lift (get (Some courseData) (str "difficulty")) ;;
  estimatedHours <- lift (get (Some courseData) (str "estimatedHours")) ;;
  id <- fresh_id ;;
  course <- lift (Course_new id title description creator
                             (js_or tags (Some (JArr [])))
                             (js_or difficulty (Some (JStr (str "beginner"))))
                             (js_or estimatedHours (Some (JNum 10%Q)))) ;;
  write_course E course ;;;
  ms <- lift (rbind (get (Some courseData) (str "modules")) elements) ;;
  createModules course 0 ms.

(** [generateCourse]: [POST /api/courses], for the user [sub]. A thrown
    error is what [asyncHandler] passes on to the error middleware. *)
Definition generateCourse (sub topic : jstring)
  : M (Response (option CourseView)) :=
  match trim topic with
  | [] => ret (refuse 400 "Topic is required")
  | t =>
      courseData <- AIService.generateCourse E t ;;
      course <- build sub courseData ;;
      populated <- populate false (c_id course) ;;
      ret (respond 201 populated)
  end.

(** [getCourseSuggestions]: [POST /api/courses/suggestions]. *)
Definition getCourseSuggestions (partialTopic : jstring)
  : M (Response JValue) :=
  if List.length (trim partialTopic) <? 2
  then ret (refuse 400 "Partial topic must be at least 2 characters long")
  else
    suggestions <- AIService.generateCourseSuggestions E (trim partialTopic) ;;
    ret (respond 200 suggestions).

End WithEnv.


End CourseController.

(* ===================================================================== *)
(** ** controllers/lessonController.js                                    *)
(* ===================================================================== *)

Module LessonController.
Import JS Schema Runtime Models.
Local Open Scope m_scope.

Definition set_enrichment (l : LessonDoc) (content : list JValue)
    (objectives : list (option jstring)) (estimatedMinutes : option number)
  : LessonDoc :=
  {| l_id := l_id l; l_title := l_title l; l_content := content;
     l_objectives := objectives; l_module := l_module l;
     l_order := l_order l; l_isEnriched := true;
     l_estimatedMinutes := estimatedMinutes; l_tags := l_tags l;
     l_readingTime := l_readingTime l |}.

(** The four assignments of [getLesson] on the in-memory lesson:
    [content], [objectives || []], [estimatedMinutes || 15] and
    [isEnriched = true]. A value that cannot be cast leaves its path as
    it was and is reported when the document is validated: the second
    component is that report. *)
Definition assign (l : LessonDoc) (lessonData : JValue)
  : Result (LessonDoc * Result unit) :=
  rbind (get (Some lessonData) (str "content")) (fun c =>
  rbind (get (Some lessonData) (str "objectives")) (fun o =>
  rbind (get (Some lessonData) (str "estimatedMinutes")) (fun m =>
  let cc := castArray (str "content") c in
  let co := castStringArray (str "objectives") (js_or o (Some (JArr []))) in
  let cm := castNumber (str "estimatedMinutes") (js_or m (Some (JNum 15%Q))) in
  let content :=
    match cc with Ok x => x | Throw _ => l_content l end in
  let objectives :=
    match co with Ok x => trimmed x | Throw _ => l_objectives l end in
  let minutes :=
    match cm with Ok x => x | Throw _ => l_estimatedMinutes l end in
  Ok (set_enrichment l content objectives minutes,
      rbind cc (fun _ => rbind co (fun _ => rbind cm (fun _ => Ok tt))))))).

(** [deepEqual] of Mongoose on two JSON values, by which an assignment
    decides whether it modifies its path: the same primitive, arrays with
    equal elements, objects with the same keys in the same order and
    equal values. *)
Fixpoint deepEqual (a b : JValue) : bool :=
  match a, b with
  | JNull, JNull => true
  | JBool x, JBool y => Bool.eqb x y
  | JNum x, JNum y => number_eqb x y
  | JStr x, JStr y => jstring_eqb x y
  | JArr x, JArr y =>
      (fix all (x y : list JValue) : bool :=
         match x, y with
         | [], [] => true
         | u :: x', v :: y' => deepEqual u v && all x' y'
         | _, _ => false
         end) x y
  | JObj x, JObj y =>
      (fix all (x y : list (jstring * JValue)) : bool :=
         match x, y with
         | [], [] => true
         | (k, u) :: x', (k', v) :: y' =>
             jstring_eqb k k' && deepEqual u v && all x' y'
         | _, _ => false
         end) x y
  | _, _ => false
  end.

Definition same_content (a b : list JValue) : bool :=
  deepEqual (JArr a) (JArr b).

Fixpoint same_strings (a b : list (option jstring)) : bool :=
  match a, b with
  | [], [] => true
  | Some x :: a', Some y :: b' => jstring_eqb x y && same_strings a' b'
  | None :: a', None :: b' => same_strings a' b'
  | _, _ => false
  end.

Definition same_number (a b : option number) : bool :=
  match a, b with
  | None, None => true
  | Some x, Some y => number_eqb x y
  | _, _ => false
  end.

Definition same_time (a b : option nat) : bool :=
  match a, b with
  | None, None => true
  | Some x, Some y => x =? y
  | _, _ => false
  end.

(** [save()] sends the paths that were modified, and no other: the
    document the update leaves in the store, when [loaded] is the lesson
    as it was loaded, [l] the lesson in memory and [stored] the one the
    update finds. *)
Definition merged (loaded l stored : LessonDoc) : LessonDoc :=
  {| l_id := l_id stored; l_title := l_title stored;
     l_content :=
       if same_content (l_content loaded) (l_content l)
       then l_content stored else l_content l;
     l_objectives :=
       if same_strings (l_objectives loaded) (l_objectives l)
       then l_objectives stored else l_objectives l;
     l_module := l_module stored; l_order := l_order stored;
     l_isEnriched :=
       if Bool.eqb (l_isEnriched loaded) (l_isEnriched l)
       then l_isEnriched stored else l_isEnriched l;
     l_estimatedMinutes :=
       if same_number (l_estimatedMinutes loaded) (l_estimatedMinutes l)
       then l_estimatedMinutes stored else l_estimatedMinutes l;
     l_tags := l_tags stored;
     l_readingTime :=
       if same_time (l_readingTime loaded) (l_readingTime l)
       then l_readingTime stored else l_readingTime l |}.

(** A save that sets an array increments the version key [__v] and asks
    for the version the document was loaded with. *)
Definition versioned (loaded l : LessonDoc) : bool :=
  negb (same_content (l_content loaded) (l_content l))
  || negb (same_strings (l_objectives loaded) (l_objectives l)).

Section WithEnv.
Variable E : Env.

(** The update [save()] sends for the lesson [l] in memory that was
    loaded as [loaded]; [current] tells whether the stored lesson still
    has the version it was loaded with. An update that finds no document
    is rejected: with [VersionError] when it asked for the version. *)
Definition save_changes (current : bool) (loaded l : LessonDoc) : M unit :=
  stored <- find_lesson (l_id l) ;;
  match stored with
  | Some s =>
      if versioned loaded l && negb current
      then db_write E (fun w => w) ;;; throw VersionError
      else write_lesson E (merged loaded l s)
  | None =>
      db_write E (fun w => w) ;;;
      throw (if versioned loaded l then VersionError
             else DocumentNotFoundError)
  end.

(** [await lesson.save()] inside the [try], for the lesson [l] in memory
    that was loaded as [loaded]: the validation of the document, with the
    report of the casts; the [pre('save')] hook, which recomputes the
    reading time when [content] was modified; the update. Whatever fails,
    the [catch] goes on with the in-memory lesson as it then is: that
    lesson is returned, and whether the save incremented the version. *)
Definition save_or_keep (current : bool) (loaded l : LessonDoc)
    (casts : Result unit) : M (LessonDoc * bool) :=
  match rbind casts (fun _ => validateLesson l) with
  | Throw _ => ret (l, false)
  | Ok _ =>
      match (if same_content (l_content loaded) (l_content l)
             then Ok l else pre_save l) with
      | Throw _ => ret (l, false)
      | Ok l' =>
          try_catchM
            (save_changes current loaded l' ;;; ret (l', versioned loaded l'))
            (fun _ => ret (l', false))
      end
  end.

(** The [try] block of [getLesson] from the moment the model call
    settles, with its [catch]: the in-memory lesson that is sent, and
    whether the version was incremented. *)
Definition enrich_when (current : bool) (l : LessonDoc) (o : ModelOutcome)
  : M (LessonDoc * bool) :=
  match AIService.lesson_of o with
  | Throw _ => ret (l, false)
  | Ok lessonData =>
      match assign l lessonData with
      | Throw _ => ret (l, false)
      | Ok (l', casts) => save_or_keep current l l' casts
      end
  end.

(** The same in a request that runs alone: the stored lesson has the
    version it was loaded with. *)
Definition enrich (l : LessonDoc) (o : ModelOutcome) : M LessonDoc :=
  p <- enrich_when true l o ;; ret (fst p).

(** [Lesson.findById(id).populate(module).populate(module.course)] and
    the ownership check: the lesson, or the response that ends the
    request. Reading [lesson.module.course.creator] through a reference
    with no document is a [TypeError]. *)
Definition load (sub : jstring) (id : nat)
  : M (Response LessonDoc + LessonDoc) :=
  found <- find_lesson id ;;
  match found with
  | None => ret (inl (refuse 404 "Lesson not found"))
  | Some lesson =>
      module <- find_module (l_module lesson) ;;
      match module with
      | None => throw TypeError
      | Some m =>
          course <- find_course (m_course m) ;;
          match course with
          | None => throw TypeError
          | Some c =>
              if jstring_eqb (c_creator c) sub then ret (inr lesson)
              else ret (inl (refuse 403 "Access denied"))
          end
      end
  end.

(** [getLesson] up to [await aiService.generateLesson(...)]: either the
    response, or the in-memory lesson and the outcome of the model call
    the handler is now waiting for. *)
Definition getLesson_begin (sub : jstring) (id : nat)
  : M (Response LessonDoc + LessonDoc * ModelOutcome) :=
  loaded <- load sub id ;;
  match loaded with
  | inl r => ret (inl r)
  | inr lesson =>
      if l_isEnriched lesson then ret (inl (respond 200 lesson))
      else o <- call_model E ;; ret (inr (lesson, o))
  end.

(** [getLesson] from the moment the model call settles. *)
Definition getLesson_resume (p : LessonDoc * ModelOutcome)
  : M (Response LessonDoc) :=
  lesson <- enrich (fst p) (snd p) ;;
  ret (respond 200 lesson).

(** [getLesson]: [GET /api/lessons/:id], for the user [sub]. *)
Definition getLesson (sub : jstring) (id : nat) : M (Response LessonDoc) :=
  r <- getLesson_begin sub id ;;
  match r with
  | inl resp => ret resp
  | inr p => getLesson_resume p
  end.

(** The fields of the request body [updateLesson] reads. *)
Record UpdateBody : Type := {
  b_title : option JValue;
  b_content : option JValue;
  b_objectives : option JValue;
  b_estimatedMinutes : option JValue;
  b_tags : option JValue
}.

(** [Lesson.findByIdAndUpdate(id, updateData, {new: true, runValidators:
    true})] for the [updateData] built from the truthy fields of the
    body: the paths given are cast, pass their setters and validators and
    are written; no [save] middleware runs on this path, so nothing else
    of the document changes. *)
Definition findByIdAndUpdate (l : LessonDoc) (b : UpdateBody)
  : Result LessonDoc :=
  rbind (if truthy (b_title b)
         then rbind (castString (str "title") (b_title b)) (fun t =>
              rbind (required (str "title") (option_map trim t)) (fun t' =>
              rbind (maxlength (str "title") 200 t') (fun _ => Ok t')))
         else Ok (l_title l)) (fun title =>
  rbind (if truthy (b_content b)
         then rbind (castArray (str "content") (b_content b)) (fun c =>
              rbind (content_ok c) (fun _ => Ok c))
         else Ok (l_content l)) (fun content =>
  rbind (if truthy (b_objectives b)
         then rbind (castStringArray (str "objectives") (b_objectives b))
                (fun o =>
              rbind (each_maxlength (str "objectives") 200 (trimmed o))
                (fun _ => Ok (trimmed o)))
         else Ok (l_objectives l)) (fun objectives =>
  rbind (if truthy (b_estimatedMinutes b)
         then rbind (castNumber (str "estimatedMinutes") (b_estimatedMinutes b))
                (fun m =>
              rbind (in_range_opt (str "estimatedMinutes") 1 (Some 240%Q) m)
                (fun _ => Ok m))
         else Ok (l_estimatedMinutes l)) (fun minutes =>
  rbind (if truthy (b_tags b)
         then rbind (castStringArray (str "tags") (b_tags b)) (fun t =>
              let t' := lowered t in
              rbind (each_maxlength (str "tags") 30 t') (fun _ => Ok t'))
         else Ok (l_tags l)) (fun tags =>
  Ok {| l_id := l_id l; l_title := title; l_content := content;
        l_objectives := objectives; l_module := l_module l;
        l_order := l_order l; l_isEnriched := l_isEnriched l;
        l_estimatedMinutes := minutes; l_tags := tags;
        l_readingTime := l_readingTime l |}))))).

(** [updateLesson]: [PUT /api/lessons/:id], for the user [sub]. *)
Definition updateLesson (sub : jstring) (id : nat) (body : UpdateBody)
  : M (Response LessonDoc) :=
  loaded <- load sub id ;;
  match loaded with
  | inl r => ret r
  | inr lesson =>
      updated <- lift (findByIdAndUpdate lesson body) ;;
      write_lesson E updated ;;;
      ret (respond 200 updated)
  end.

(** [deleteContentBlock]: [DELETE /api/lessons/:id/blocks/:index], for
    the user [sub]; [index] is the route parameter, a string. Both
    comparisons of the bounds check are false for [NaN], and
    [splice(NaN, 1)] starts at 0. *)
Definition deleteContentBlock (sub : jstring) (id : nat) (index : jstring)
  : M (Response LessonDoc) :=
  let blockIndex := parseInt index in
  loaded <- load sub id ;;
  match loaded with
  | inl r => ret r
  | inr lesson =>
      let content := l_content lesson in
      if match blockIndex with
         | Some k => (k <? 0)%Z || (Z.of_nat (List.length content) <=? k)%Z
         | None => false
         end
      then ret (refuse 400 "Invalid content block index")
      else
        let start := match blockIndex with Some k => k | None => 0%Z end in
        saved <- Lesson_save E (set_content lesson (splice_out start content)) ;;
        ret (respond 200 saved)
  end.

(** [addContentBlock]: [POST /api/lessons/:id/blocks], for the user
    [sub] and a body whose [position] is absent or a number. *)
Definition addContentBlock (sub : jstring) (id : nat)
    (block : option JValue) (position : option Q) : M (Response LessonDoc) :=
  let position := match position with Some q => q | None => (-1)%Q end in
  loaded <- load sub id ;;
  match loaded with
  | inl r => ret r
  | inr lesson =>
      match block with
      | None => ret (refuse 400 "Block must have a type")
      | Some b =>
          if negb (truthy block) then ret (refuse 400 "Block must have a type")
          else
            type <- lift (get block (str "type")) ;;
            if negb (truthy type) then ret (refuse 400 "Block must have a type")
            else if negb (AIService.includes type)
            then ret (refuse 400 "Invalid block type")
            else
              let content := l_content lesson in
              saved <- Lesson_save E
                (set_content lesson
                   (if Qeq_bool position (-1)
                       || Qle_bool (inject_Z (Z.of_nat (List.length content)))
                                   position
                    then content ++ [b]
                    else splice_in (toInteger position) b content)) ;;
              ret (respond 200 saved)
      end
  end.

End WithEnv.

(** The members of the analytics object, but [contentTypeDistribution]
    (its keys are the string forms of the [type] values, which are not
    modelled). *)
Record Analytics : Type := {
  a_contentBlockCount : nat;
  a_hasVideo : bool;
  a_hasQuiz : bool;
  a_hasCode : bool;
  a_estimatedReadingTime : option nat;
  a_wordCount : nat;
  a_codeBlockCount : nat;
  a_quizQuestionCount : nat
}.

(** [content.some(block => block.type === name)] *)
Fixpoint some_type (name : string) (content : list JValue) : Result bool :=
  match content with
  | [] => Ok false
  | block :: r =>
      rbind (get (Some block) (str "type")) (fun t =>
      if type_is t name then Ok true else some_type name r)
  end.

(** The body of [lesson.content.forEach(block => ...)] on the three
    counters [wordCount], [codeBlockCount], [quizQuestionCount], and the
    loop. *)
Definition tally (block : JValue) (acc : nat * nat * nat)
  : Result (nat * nat * nat) :=
  let '(words, codes, quizzes) := acc in
  rbind (get (Some block) (str "type")) (fun t =>
  if type_is t "paragraph" || type_is t "heading" then
    rbind (get (Some block) (str "text")) (fun x =>
    rbind (words_of x) (fun n => Ok (words + n, codes, quizzes)))
  else if type_is t "code" then Ok (words, S codes, quizzes)
  else if type_is t "mcq" then Ok (words, codes, S quizzes)
  else Ok (words, codes, quizzes)).

Fixpoint tally_all (content : list JValue) (acc : nat * nat * nat)
  : Result (nat * nat * nat) :=
  match content with
  | [] => Ok acc
  | block :: r => rbind (tally block acc) (tally_all r)
  end.

Definition analytics_of (lesson : LessonDoc) : Result Analytics :=
  let content := l_content lesson in
  rbind (some_type "video" content) (fun video =>
  rbind (some_type "mcq" content) (fun quiz =>
  rbind (some_type "code" content) (fun code =>
  rbind (tally_all content (0, 0, 0)) (fun '(words, codes, quizzes) =>
  Ok {| a_contentBlockCount := List.length content;
        a_hasVideo := video; a_hasQuiz := quiz; a_hasCode := code;
        a_estimatedReadingTime := l_readingTime lesson;
        a_wordCount := words; a_codeBlockCount := codes;
        a_quizQuestionCount := quizzes |})))).

(** The refusal [load] gave, as the response of a handler that sends
    other data. *)
Definition refusal {A B} (r : Response A) : Response B :=
  {| status := status r; success := success r; data := None;
     error := error r |}.

(** [getLessonAnalytics]: [GET /api/lessons/:id/analytics], for the user
    [sub]. *)
Definition getLessonAnalytics (sub : jstring) (id : nat)
  : M (Response Analytics) :=
  loaded <- load sub id ;;
  match loaded with
  | inl r => ret (refusal r)
  | inr lesson =>
      analytics <- lift (analytics_of lesson) ;;
      ret (respond 200 analytics)
  end.

End LessonController.

(* ===================================================================== *)
(** ** routes/ai.js                                                        *)
(* ===================================================================== *)

Module AiRoutes.
Import JS Runtime.
Local Open Scope m_scope.

(** [getCourseSuggestions]: [POST /api/ai/course-suggestions], for a
    [partialTopic] that is a string. The [query] and [message] members of
    the body are not kept. *)
Definition getCourseSuggestions (E : Env) (partialTopic : jstring)
  : M (Response JValue) :=
  if List.length (trim partialTopic) <? 2
  then ret (refuse 400 "Partial topic must be at least 2 characters long")
  else
    try_catchM
      (suggestions <- AIService.generateCourseSuggestions E partialTopic ;;
       ret (respond 200 suggestions))
      (fun _ => ret (respond 200 (JArr []))).

(** The body of a generation route: the [data], or the error whose
    message is the [error] member. *)
Record Reply : Type := {
  r_status : nat;
  r_data : option JValue;
  r_error : option Error
}.

(** [generateCourse]: [POST /api/ai/generate-course]. The message of the
    error the service throws is never empty, so the fallback message of
    the [catch] is not used. *)
Definition generateCourse (E : Env) (topic : jstring) : M Reply :=
  try_catchM
    (courseData <- AIService.generateCourse E topic ;;
     ret {| r_status := 200; r_data := Some courseData; r_error := None |})
    (fun error =>
     ret {| r_status := 500; r_data := None; r_error := Some error |}).

(** [generateLesson]: [POST /api/ai/generate-lesson]; [lessonIndex] is 0
    when the body has none. *)
Definition generateLesson (E : Env)
    (courseTitle moduleTitle lessonTitle : jstring) (lessonIndex : option Q)
  : M Reply :=
  let lessonIndex := match lessonIndex with Some q => q | None => 0%Q end in
  try_catchM
    (lessonData <- AIService.generateLesson E courseTitle moduleTitle
                     lessonTitle lessonIndex ;;
     ret {| r_status := 200; r_data := Some lessonData; r_error := None |})
    (fun error =>
     ret {| r_status := 500; r_data := None; r_error := Some error |}).

End AiRoutes.

(* ===================================================================== *)
(** ** Requests that overlap                                              *)
(* ===================================================================== *)

(** Node runs one handler at a time and switches at an [await]. A
    [getLesson] request is cut at its one long wait, the model call:
    [getLesson_begin] runs to it, and the request resumes from it with
    the lesson it loaded before. A schedule names the request that runs
    its next segment. The version key [__v] of the lessons is kept beside
    the store, as the log of the increments. *)
Module Interleaving.
Import JS Schema Runtime LessonController.

(** A request: arrived; waiting for the model with the lesson it loaded,
    the outcome the call will have and the version the lesson had when it
    was loaded; answered. *)
Inductive Request : Type :=
| Arrived (sub : jstring) (id : nat)
| Waiting (lesson : LessonDoc) (o : ModelOutcome) (version : nat)
| Answered (r : Result (Response LessonDoc)).

Record System : Type := {
  world : World;
  increments : list nat;
  requests : list Request
}.

(** The version of lesson [id]: the number of its increments. *)
Definition version_of (id : nat) (log : list nat) : nat :=
  count_occ Nat.eq_dec log id.

Fixpoint set_nth {A} (i : nat) (a : A) (l : list A) : list A :=
  match l, i with
  | [], _ => []
  | _ :: r, O => a :: r
  | x :: r, S i' => x :: set_nth i' a r
  end.

(** The next segment of one request, on the world and the versions as
    they are now. *)
Definition segment (E : Env) (q : Request) (w : World) (log : list nat)
  : Request * World * list nat :=
  match q with
  | Arrived sub id =>
      match getLesson_begin E sub id w with
      | (Ok (inl resp), w') => (Answered (Ok resp), w', log)
      | (Ok (inr (l, o)), w') =>
          (Waiting l o (version_of (l_id l) log), w', log)
      | (Throw e, w') => (Answered (Throw e), w', log)
      end
  | Waiting l o v =>
      match enrich_when E (v =? version_of (l_id l) log) l o w with
      | (Ok (l', incremented), w') =>
          (Answered (Ok (respond 200 l')), w',
           if incremented then l_id l :: log else log)
      | (Throw e, w') => (Answered (Throw e), w', log)
      end
  | Answered r => (Answered r, w, log)
  end.

Definition step (E : Env) (s : System) (i : nat) : System :=
  match nth_error (requests s) i with
  | None => s
  | Some q =>
      let '(q', w', log') := segment E q (world s) (increments s) in
      {| world := w'; increments := log';
         requests := set_nth i q' (requests s) |}
  end.







End Interleaving.

(* ===================================================================== *)
(** ** Vocabulary of the statements                                       *)
(* ===================================================================== *)

Module Spec.
Import JS Schema Runtime AIService.






(** A block whose [type] is one of the seven kinds. *)
Definition recognized (block : JValue) : Prop :=
  exists kind,
    get (Some block) (str "type") = Ok (Some (JStr kind)) /\ In kind validTypes.

(** The world once a model call has been issued. *)
Definition called (w : World) : World :=
  {| courses := courses w; modules := modules w; lessons := lessons w;
     next_id := next_id w; calls := S (calls w); writes := writes w |}.



Definition ids_below {D} (key : D -> nat) (n : nat) (l : list D) : Prop :=
  Forall (fun d => key d < n) l.

(** Every stored id was handed out before: the next fresh id is new. *)
Record wf (w : World) : Prop := {
  wf_courses : ids_below c_id (next_id w) (courses w);
  wf_modules : ids_below m_id (next_id w) (modules w);
  wf_lessons : ids_below l_id (next_id w) (lessons w)
}.

(** A lesson as the hierarchy builder creates it. *)
Definition placeholder_lesson (l : LessonDoc) : Prop :=
  l_isEnriched l = false /\ l_content l = [CourseController.placeholder].

(** The lesson stubs of a module outline, the module outlines of a
    course outline, and the number of stubs in all of them. *)
Definition outline_lessons (moduleData : JValue) : list JValue :=
  match get (Some moduleData) (str "lessons") with
  | Ok (Some (JArr ls)) => ls
  | _ => []
  end.

Definition outline_modules (courseData : JValue) : list JValue :=
  match get (Some courseData) (str "modules") with
  | Ok (Some (JArr ms)) => ms
  | _ => []
  end.

Definition lesson_total (ms : list JValue) : nat :=
  fold_right (fun m n => List.length (outline_lessons m) + n) 0 ms.

(** The fields [addModule] leaves alone. *)
Definition same_course (c c1 : CourseDoc) : Prop :=
  c_id c1 = c_id c /\ c_title c1 = c_title c /\
  c_description c1 = c_description c /\ c_creator c1 = c_creator c /\
  c_tags c1 = c_tags c /\ c_difficulty c1 = c_difficulty c /\
  c_estimatedHours c1 = c_estimatedHours c.

(** New modules of course [cid] and new placeholder lessons, each in one
    of these modules. *)
Definition attached (cid : nat) (addm : list ModuleDoc) (addl : list LessonDoc)
  : Prop :=
  Forall (fun m => m_course m = cid) addm /\
  Forall (fun l => placeholder_lesson l /\
                   exists m, In m addm /\ l_module l = m_id m) addl.

(** What the inner loop leaves behind when it ran on module [m], the last
    of the modules [pm ++ [m]], in world [w]: the stored module [m1] keeps
    its id, course and order; the lessons grew by the placeholders [add]
    of that module, [bound] of them when the loop returned and no more
    than that when it threw. *)
Definition lessons_grown (m : ModuleDoc) (pm : list ModuleDoc) (w w' : World)
    (r : Result ModuleDoc) (bound : nat) : Prop :=
  wf w' /\ courses w' = courses w /\
  exists m1 add,
    modules w' = pm ++ [m1] /\ m_id m1 = m_id m /\ m_course m1 = m_course m /\
    m_order m1 = m_order m /\
    Forall (fun x => x < next_id w') (m_lessons m1) /\
    lessons w' = lessons w ++ add /\
    Forall (fun l => placeholder_lesson l /\ l_module l = m_id m) add /\
    match r with
    | Ok m' => m' = m1 /\ List.length add = bound
    | Throw _ => List.length add <= bound
    end.

(** What the outer loop leaves behind when it ran on course [c], the last
    of the courses [pc ++ [c]], in world [w]: the stored course [c1]
    differs from [c] in its module list at most; the modules grew by
    [addm] and the lessons by [addl], [bound] modules and [total] lessons
    when the loop returned. *)
Definition modules_grown (c : CourseDoc) (pc : list CourseDoc) (w w' : World)
    (r : Result CourseDoc) (bound total : nat) : Prop :=
  wf w' /\
  exists c1 addm addl,
    courses w' = pc ++ [c1] /\ same_course c c1 /\
    Forall (fun x => x < next_id w') (c_modules c1) /\
    modules w' = modules w ++ addm /\ lessons w' = lessons w ++ addl /\
    attached (c_id c) addm addl /\
    match r with
    | Ok c' => c' = c1 /\ List.length addm = bound /\ List.length addl = total
    | Throw _ => List.length addm <= bound
    end.

(** What [build] leaves behind, whatever its result [r]: nothing new,
    when it threw before the course was written or the database refused
    that write; or else the course [c], whose [estimatedHours] is the cast
    of [courseData.estimatedHours || 10], with the modules and lessons
    created so far, all of them when [build] returned. *)
Definition built (E : Env) (creator : jstring) (cd : JValue) (w w' : World)
    (r : Result CourseDoc) : Prop :=
  wf w' /\
  exists cs addm addl,
    courses w' = courses w ++ cs /\ modules w' = modules w ++ addm /\
    lessons w' = lessons w ++ addl /\
    ((cs = [] /\ addm = [] /\ addl = [] /\ (exists e, r = Throw e) /\
      (writes w' = writes w \/ db_ok E (writes w) = false)) \/
     (exists c h,
        cs = [c] /\ c_id c = next_id w /\ c_creator c = creator /\
        get (Some cd) (str "estimatedHours") = Ok h /\
        castNumber (str "estimatedHours") (js_or h (Some (JNum 10%Q)))
          = Ok (c_estimatedHours c) /\
        ids_below c_id (c_id c) (courses w) /\
        attached (c_id c) addm addl /\ db_ok E (writes w) = true /\
        match r with
        | Ok c' => c' = c /\
                   List.length addm = List.length (outline_modules cd) /\
                   List.length addl = lesson_total (outline_modules cd)
        | Throw _ => List.length addm <= List.length (outline_modules cd)
        end)).

(** The lesson a read reaches: found, with its module and course, and
    owned by the reader. *)
Definition readable (sub : jstring) (id : nat) (w : World) (l : LessonDoc)
  : Prop :=
  find_id l_id id (lessons w) = Some l /\
  exists m c,
    find_id m_id (l_module l) (modules w) = Some m /\
    find_id c_id (m_course m) (courses w) = Some c /\
    jstring_eqb (c_creator c) sub = true.

(** The lesson the [try] of [getLesson] leaves in memory, when it was
    loaded as [l] and the model call settled to [o]: the lesson as it
    was, when the generation failed; a lesson with the content of the
    generated body and marked enriched, when it did not. *)
Definition answers (l : LessonDoc) (o : ModelOutcome) (l' : LessonDoc) : Prop :=
  match lesson_of o with
  | Throw _ => l' = l
  | Ok lessonData =>
      l_isEnriched l' = true /\
      get (Some lessonData) (str "content") = Ok (Some (JArr (l_content l')))
  end.

(** Every validator of the Lesson schema passes. *)
Definition valid_lesson (l : LessonDoc) : Prop :=
  Models.validateLesson l = Ok tt.

(** Every block is of one of the seven kinds. *)
Definition recognized_lesson (l : LessonDoc) : Prop :=
  Forall recognized (l_content l).

(** [m] keeps the property [Q] of the stored lessons, whatever its
    result. *)
Definition keeps {A} (Q : list LessonDoc -> Prop) (m : M A) : Prop :=
  forall w r w', Q (lessons w) -> m w = (r, w') -> Q (lessons w').

(** The lesson as the [pre('save')] hook leaves it when its content has
    [n] words. *)
Definition timed (l : LessonDoc) (n : nat) : LessonDoc :=
  {| l_id := l_id l; l_title := l_title l; l_content := l_content l;
     l_objectives := l_objectives l; l_module := l_module l;
     l_order := l_order l; l_isEnriched := l_isEnriched l;
     l_estimatedMinutes := l_estimatedMinutes l; l_tags := l_tags l;
     l_readingTime := Some (readingTime_of n) |}.

(** The world after one more write, which put [l] in the place of the
    lesson of its id. *)
Definition stored (l : LessonDoc) (w : World) : World :=
  {| courses := courses w; modules := modules w;
     lessons := upsert l_id (l_id l) l (lessons w);
     next_id := next_id w; calls := calls w; writes := S (writes w) |}.

(** The title of a document made from an outline entry: the entry's
    [title], cast to a string and trimmed. *)
Definition titled (entry : JValue) (title : jstring) : Prop :=
  exists t s,
    get (Some entry) (str "title") = Ok t /\
    castString (str "title") t = Ok (Some s) /\ title = trim s.

(** The lesson [l] is the placeholder of the stub [stub] in module
    [mid]. *)
Definition placeholder_of (mid : nat) (stub : JValue) (l : LessonDoc) : Prop :=
  titled stub (l_title l) /\ placeholder_lesson l /\ l_module l = mid.

(** The lessons [ls] are the placeholders of the stubs in module [mid],
    one for each stub and in their order, with no [estimatedMinutes]. *)
Definition placeholders_of (mid : nat) (stubs : list JValue)
    (ls : list LessonDoc) : Prop :=
  Forall2 (fun stub l => placeholder_of mid stub l /\
                         l_estimatedMinutes l = None) stubs ls.

(** The modules [docs], each with its lessons, are those the builder
    makes of the module outlines in course [cid]. *)
Definition built_modules (cid : nat) (outlines : list JValue)
    (docs : list (ModuleDoc * list LessonDoc)) : Prop :=
  Forall2 (fun md p => titled md (m_title (fst p)) /\ m_course (fst p) = cid /\
                       m_lessons (fst p) = map l_id (snd p) /\
                       placeholders_of (m_id (fst p)) (outline_lessons md) (snd p))
          outlines docs.

(** Modules and their lessons as [populate] shows them. *)
Definition shown (readingTime : bool) (docs : list (ModuleDoc * list LessonDoc))
  : list (ModuleDoc * list Models.LessonSummary) :=
  map (fun p => (fst p, map (Models.summary readingTime) (snd p))) docs.

(** The summaries [ls] show placeholders of the stubs, one for each stub
    and in their order: the title of the stub, not enriched, no
    [estimatedMinutes]. *)
Definition mirrors_lessons (stubs : list JValue) (ls : list Models.LessonSummary)
  : Prop :=
  Forall2 (fun stub l => titled stub (Models.s_title l) /\
                         Models.s_isEnriched l = false /\
                         Models.s_estimatedMinutes l = None) stubs ls.

(** The modules of [view], each with its lessons, are those of the
    module outlines, one for each outline and in their order; every
    module is in course [cid] and lists its lessons in their order. *)
Definition mirrors_modules (cid : nat) (outlines : list JValue)
    (view : list (ModuleDoc * list Models.LessonSummary)) : Prop :=
  Forall2 (fun md p => titled md (m_title (fst p)) /\ m_course (fst p) = cid /\
                       m_lessons (fst p) = map Models.s_id (snd p) /\
                       mirrors_lessons (outline_lessons md) (snd p))
          outlines view.

(** The populated course [v] shows the outline [cd]. *)
Definition mirrors (cd : JValue) (v : Models.CourseView) : Prop :=
  titled cd (c_title (Models.v_course v)) /\
  c_modules (Models.v_course v) = map m_id (map fst (Models.v_modules v)) /\
  mirrors_modules (c_id (Models.v_course v)) (outline_modules cd)
    (Models.v_modules v).

(** Ids handed out from [lo] on and before [hi]. *)
Definition between (lo hi : nat) (ids : list nat) : Prop :=
  Forall (fun x => lo <= x < hi) ids.


(** A value with a member [k] that is truthy. *)
Definition has (v : JValue) (k : string) : Prop :=
  exists x, get (Some v) (str k) = Ok x /\ truthy x = true.

(** A value whose member [k] is the array [items], which is not empty. *)
Definition lists (v : JValue) (k : string) (items : list JValue) : Prop :=
  get (Some v) (str k) = Ok (Some (JArr items)) /\ items <> [].

(** A course outline with a title, a description and modules, each
    module with a title and lessons. *)
Definition well_formed_outline (courseData : JValue) : Prop :=
  has courseData "title" /\ has courseData "description" /\
  exists modules,
    lists courseData "modules" modules /\
    Forall (fun m => has m "title" /\ exists lessons, lists m "lessons" lessons)
           modules.

(** A lesson body with a title and content blocks of the seven kinds. *)
Definition well_formed_lesson (lessonData : JValue) : Prop :=
  has lessonData "title" /\
  exists blocks, lists lessonData "content" blocks /\ Forall recognized blocks.

End Spec.

(* ===================================================================== *)
(** ** Sample data                                                        *)
(* ===================================================================== *)

Module Examples.
Import JS Schema Runtime LessonController.

(** JSON text written with apostrophes in the place of quotation marks. *)
Definition json (s : string) : jstring :=
  map (fun c => if N.eqb c 39 then 34%N else c) (str s).

Definition empty_world : World :=
  {| courses := []; modules := []; lessons := []; next_id := 0;
     calls := 0; writes := 0 |}.

(** A response whose [text] property is the string [s]. *)
Definition text_response (s : jstring) : ModelOutcome :=
  Resolved {| env_text := TextValue (Some (JStr s)); env_candidates := None |}.

(** The model answers its n-th call with the n-th text; the database takes
    every write. *)
Definition answering (texts : list jstring) : Env :=
  {| model := fun n => text_response (nth n texts []); db_ok := fun _ => true |}.

(** The model is out of quota; the database takes every write. *)
Definition rate_limited : Env :=
  {| model := fun _ => Rejected (str "429 Too Many Requests");
     db_ok := fun _ => true |}.

(** Two modules, the second with [order] 0; the second lesson of the
    first module has [order] 0 too. *)
Definition outline : jstring :=
  json "{'title':'Algebra','description':'Basics','estimatedHours':0,'modules':[{'title':'Vectors','order':1,'lessons':[{'title':'Intro','order':1},{'title':'Norms','order':0}]},{'title':'Matrices','order':0,'lessons':[{'title':'Products','order':0}]}]}".

(** The store after user [u1] generated a course from [outline]: course
    0, modules 1 and 4, placeholder lessons 2, 3 and 5. *)
Definition library : World :=
  Eval vm_compute in
    snd (CourseController.generateCourse (answering [outline]) (str "u1")
           (str "Algebra") empty_world).

Definition lesson_a : jstring :=
  json "{'title':'Intro','objectives':['add vectors'],'estimatedMinutes':20,'content':[{'type':'paragraph','text':'Vectors add.'}]}".

Definition lesson_b : jstring :=
  json "{'title':'Intro','content':[{'type':'heading','text':'Vectors scale.'}]}".



(** The first call was the outline; the next two answer lesson reads. *)
Definition two_lessons : Env := answering [outline; lesson_a; lesson_b].

(** A lesson whose first block, resp. second block, is of kind [quiz]. *)
Definition quiz_first : jstring :=
  json "{'title':'Intro','content':[{'type':'quiz','text':'Why?'},{'type':'paragraph','text':'Because.'}]}".

Definition quiz_second : jstring :=
  json "{'title':'Intro','content':[{'type':'paragraph','text':'Because.'},{'type':'quiz','text':'Why?'}]}".


(** An outline with every field of the data model, whose one lesson stub
    has a title of 201 characters. *)
Definition long_title : jstring := repeat 97%N 201.

Definition long_stub : jstring :=
  json "{'title':'Algebra','description':'Basics','difficulty':'beginner','estimatedHours':5,'tags':['math'],'modules':[{'title':'Vectors','description':'Arrows','order':0,'lessons':[{'title':'"
  ++ long_title ++ json "','order':0}]}]}".

(** An outline the builder takes. *)
Definition small_outline : jstring :=
  json "{'title':'Algebra','description':'Basics','estimatedHours':12,'modules':[{'title':'Vectors','lessons':[{'title':'Intro'},{'title':'Norms'}]}]}".

(** An outline the builder takes although its values are not of the types
    of the data model: the title and a stub title are numbers, the tags
    are one string, the hours and an order are numeric strings. *)
Definition loose_outline : jstring :=
  json "{'title':123,'description':'Basics','tags':'Math ','estimatedHours':'5','modules':[{'title':'Vectors','order':'2','lessons':[{'title':7},{'title':'Norms'}]}]}".

(** The value a text parses to ([null] when it does not parse). *)
Definition parsed (text : jstring) : JValue :=
  match Json.parse text with
  | Some v => v
  | None => JNull
  end.

Definition outline_data : JValue := Eval vm_compute in parsed outline.
Definition small_outline_data : JValue := Eval vm_compute in parsed small_outline.
Definition long_stub_data : JValue := Eval vm_compute in parsed long_stub.
Definition loose_outline_data : JValue := Eval vm_compute in parsed loose_outline.

(** A request body that replaces the content by one paragraph of 201
    words. *)
Definition many_words : jstring :=
  concat (repeat (str "word ") 200) ++ str "word".

Definition long_paragraph : JValue :=
  JObj [(str "type", JStr (str "paragraph")); (str "text", JStr many_words)].

Definition replace_content : UpdateBody :=
  {| b_title := None; b_content := Some (JArr [long_paragraph]);
     b_objectives := None; b_estimatedMinutes := None; b_tags := None |}.

(** Suggestions that are no array, and an array of six. *)
Definition wrapped_suggestions : jstring :=
  json "{'suggestions':['Linear Algebra']}".

Definition six_suggestions : jstring :=
  json "['a','b','c','d','e','f']".

(** Four blocks, and a lesson made of the first three. *)
Definition heading_block : JValue :=
  JObj [(str "type", JStr (str "heading")); (str "text", JStr (str "Vectors"))].

Definition paragraph_block : JValue :=
  JObj [(str "type", JStr (str "paragraph"));
        (str "text", JStr (str "Vectors add."))].

Definition quiz_block : JValue :=
  JObj [(str "type", JStr (str "mcq")); (str "question", JStr (str "Do they?"));
        (str "options", JArr [JStr (str "yes"); JStr (str "no")]);
        (str "answer", JNum 0%Q)].

Definition code_block : JValue :=
  JObj [(str "type", JStr (str "code")); (str "language", JStr (str "python"));
        (str "text", JStr (str "print(1)"))].

Definition lesson_c : jstring :=
  json "{'title':'Intro','objectives':['add vectors'],'estimatedMinutes':20,'content':[{'type':'heading','text':'Vectors'},{'type':'paragraph','text':'Vectors add.'},{'type':'mcq','question':'Do they?','options':['yes','no'],'answer':0}]}".

Definition three_blocks : Env := answering [outline; lesson_c].

(** The library after user [u1] has read lesson 2, which now has the
    three blocks of [lesson_c]. *)
Definition studied : World :=
  Eval vm_compute in snd (getLesson three_blocks (str "u1") 2 library).

End Examples.

Arguments JS.get : simpl never.
Arguments AIService.check_block : simpl never.

(* ===================================================================== *)
(** * Properties                                                          *)
(* ===================================================================== *)

Import JS Schema Runtime Models AIService LessonController Interleaving.
Import Spec Examples.
Local Open Scope m_scope.

(** ** Results and the request monad *)

Lemma rbind_ok A B (r : Result A) (k : A -> Result B) b :
  rbind r k = Ok b -> exists a, r = Ok a /\ k a = Ok b.
Proof. destruct r; simpl; intros H; [eauto | discriminate]. Qed.

Ltac rinv H :=
  repeat (apply rbind_ok in H;
          let a := fresh "a" in
          let Ha := fresh "Ha" in
          destruct H as (a & Ha & H)).

Lemma bind_cases A B (m : M A) (k : A -> M B) w r w' :
  bind m k w = (r, w') ->
  (exists e, m w = (Throw e, w') /\ r = Throw e) \/
  (exists a w1, m w = (Ok a, w1) /\ k a w1 = (r, w')).
Proof.
  unfold bind. destruct (m w) as [[a|e] w1]; intros H.
  - right. eauto.
  - left. exists e. now inversion H.
Qed.

Lemma lift_cases A (x : Result A) w r w' :
  lift x w = (r, w') -> r = x /\ w' = w.
Proof. unfold lift. intros H. now inversion H. Qed.

(** A write to the database, whatever its outcome. *)
Lemma db_write_cases E f w r w' :
  db_write E f w = (r, w') ->
  let w1 := {| courses := courses w; modules := modules w; lessons := lessons w;
               next_id := next_id w; calls := calls w; writes := S (writes w) |} in
  (r = Ok tt /\ w' = f w1 /\ db_ok E (writes w) = true) \/
  ((exists e, r = Throw e) /\ w' = w1 /\ db_ok E (writes w) = false).
Proof.
  unfold db_write. destruct (db_ok E (writes w)); intros H; inversion H; subst.
  - left. auto.
  - right. eauto.
Qed.

(** ** Strings *)

Lemma jstring_eqb_eq a : forall b, jstring_eqb a b = true <-> a = b.
Proof.
  induction a as [|x a IH]; intros [|y b]; simpl; split; try discriminate; auto.
  - intros H. apply andb_true_iff in H as [H1 H2].
    apply N.eqb_eq in H1. apply IH in H2. congruence.
  - inversion 1; subst. apply andb_true_iff. split; [apply N.eqb_refl | now apply IH].
Qed.

















(** ** [parseJSONResponse] *)













(** ** [validateLessonStructure] *)

Lemma includes_In t :
  includes t = true -> exists kind, t = Some (JStr kind) /\ In kind validTypes.
Proof.
  destruct t as [[| | |s| |]|]; try discriminate.
  unfold includes. intros H. exists s. split; [reflexivity|].
  apply existsb_exists in H as (k & Hk & He). apply jstring_eqb_eq in He. now subst.
Qed.

Lemma check_block_ok b i : check_block b i = Ok tt -> recognized b.
Proof.
  unfold check_block, recognized.
  destruct (get (Some b) (str "type")) as [t|e]; simpl rbind; [|discriminate].
  destruct (truthy t); simpl negb; cbv iota; [|discriminate].
  destruct t as [ty|]; [|discriminate].
  destruct (includes (Some ty)) eqn:Hi; [|discriminate].
  intros _. apply includes_In in Hi as (k & Hk & Hin).
  exists k. split; [congruence | assumption].
Qed.

Lemma check_blocks_ok bs :
  forall i, check_blocks bs i = Ok tt -> Forall recognized bs.
Proof.
  induction bs as [|b bs IH]; intros i; simpl; [constructor|].
  destruct (check_block b i) as [[]|e] eqn:Hb; simpl rbind; [|discriminate].
  intros H. constructor; [eapply check_block_ok; eassumption | eapply IH; eassumption].
Qed.

(** A lesson that passes validation has a content array of recognized
    blocks only. *)
Lemma validateLessonStructure_ok lessonData :
  validateLessonStructure lessonData = Ok tt ->
  exists blocks,
    get (Some lessonData) (str "content") = Ok (Some (JArr blocks)) /\
    Forall recognized blocks.
Proof.
  unfold validateLessonStructure.
  destruct (missing lessonData [str "title"; str "content"]) as [[|f m]|e];
    simpl rbind; try discriminate.
  destruct (get (Some lessonData) (str "content")) as [c|e]; simpl rbind;
    [|discriminate].
  destruct c as [[| | | |l|]|]; unfold asArray; try discriminate.
  destruct l as [|x r]; [discriminate|].
  intros H. exists (x :: r). split; [reflexivity|].
  eapply check_blocks_ok; eassumption.
Qed.

Lemma recognized_includes b ty :
  get (Some b) (str "type") = Ok (Some ty) -> recognized b ->
  includes (Some ty) = true.
Proof.
  intros Hg (k & Hk & Hin). rewrite Hg in Hk. inversion Hk; subst.
  unfold includes. apply existsb_exists.
  exists k. split; [assumption | now apply jstring_eqb_eq].
Qed.

(** The loop stops at the first block that fails. *)
Lemma check_blocks_first pre : forall i b post e,
  check_blocks pre i = Ok tt -> check_block b (i + List.length pre) = Throw e ->
  check_blocks (pre ++ b :: post) i = Throw e.
Proof.
  induction pre as [|x pre IH]; intros i b post e Hp Hb; simpl in *.
  - rewrite Nat.add_0_r in Hb. now rewrite Hb.
  - destruct (check_block x i) as [[]|e0]; simpl in *; [|discriminate].
    apply IH; [assumption|]. rewrite Nat.add_succ_r in Hb. exact Hb.
Qed.

Lemma check_block_invalid b i ty :
  get (Some b) (str "type") = Ok (Some ty) -> truthy (Some ty) = true ->
  includes (Some ty) = false -> check_block b i = Throw (InvalidBlockType ty).
Proof.
  intros Hg Ht Hi. unfold check_block, rbind. now rewrite Hg, Ht, Hi.
Qed.

(** C7 (amended). A generated lesson with a block whose type is not one
    of the seven kinds is rejected as a whole; when that block is the
    first thing validation stumbles on, the error is 'Invalid content
    block type: ' followed by the kind, and carries no block index;
    [generateLesson] then throws and the read that asked for the lesson
    goes on with the lesson it has, writing nothing. *)
Theorem C7_unrecognized_kind_rejects_lesson lessonData pre b post ty :
  get (Some lessonData) (str "content") = Ok (Some (JArr (pre ++ b :: post))) ->
  get (Some b) (str "type") = Ok (Some ty) ->
  includes (Some ty) = false ->
  (exists e, validateLessonStructure lessonData = Throw e) /\
  (missing lessonData [str "title"; str "content"] = Ok [] ->
   check_blocks pre 0 = Ok tt -> truthy (Some ty) = true ->
   validateLessonStructure lessonData = Throw (InvalidBlockType ty)) /\
  (forall E lesson o text w,
     settle o = Ok text -> parseJSONResponse text = Ok lessonData ->
     (exists e, lesson_of o = Throw (FailedToGenerateLesson e)) /\
     enrich E lesson o w = (Ok lesson, w)).
Proof.
  intros Hc Hb Hi.
  assert (R : exists e, validateLessonStructure lessonData = Throw e).
  { destruct (validateLessonStructure lessonData) as [[]|e] eqn:Hv; [|eauto].
    apply validateLessonStructure_ok in Hv as (blocks & Hc' & Hf).
    rewrite Hc in Hc'. inversion Hc'; subst blocks.
    apply Forall_app in Hf as [_ Hf]. inversion Hf; subst.
    pose proof (recognized_includes Hb H1). congruence. }
  split; [exact R|]. split.
  - intros Hm Hp Ht. unfold validateLessonStructure. rewrite Hm. simpl rbind.
    rewrite Hc. simpl rbind. unfold asArray.
    destruct (pre ++ b :: post) as [|x r] eqn:Hl; [now destruct pre|].
    change (check_blocks (x :: r) 0 = Throw (InvalidBlockType ty)).
    rewrite <- Hl. apply check_blocks_first; [assumption|].
    now apply check_block_invalid.
  - intros E lesson o text w Hs Hp. destruct R as (e & He).
    assert (Hl : lesson_of o = Throw (FailedToGenerateLesson e)).
    { unfold lesson_of. rewrite Hs. simpl rbind. rewrite Hp. simpl rbind.
      now rewrite He. }
    split; [eauto|]. unfold enrich, enrich_when, bind, ret. now rewrite Hl.
Qed.

Lemma C7_unrecognized_kind_rejects_lesson_witness :
  exists lessonData,
    parseJSONResponse (Some (JStr quiz_second)) = Ok lessonData /\
    validateLessonStructure lessonData
      = Throw (InvalidBlockType (JStr (str "quiz"))).
Proof.
  eexists. split; [vm_compute; reflexivity|].
  refine (proj1 (proj2 (@C7_unrecognized_kind_rejects_lesson _
            [JObj [(str "type", JStr (str "paragraph"));
                   (str "text", JStr (str "Because."))]]
            (JObj [(str "type", JStr (str "quiz"));
                   (str "text", JStr (str "Why?"))])
            [] (JStr (str "quiz")) _ _ _)) _ _ _);
    vm_compute; reflexivity.
Defined.

(** C7, as stated, fails: the error does not name the block index. The
    unrecognized block is first in one lesson and second in the other, and
    the two errors are the same. *)
Lemma C7_error_names_no_index :
  rbind (parseJSONResponse (Some (JStr quiz_first))) validateLessonStructure
    = Throw (InvalidBlockType (JStr (str "quiz"))) /\
  rbind (parseJSONResponse (Some (JStr quiz_second))) validateLessonStructure
    = Throw (InvalidBlockType (JStr (str "quiz"))).
Proof. split; vm_compute; reflexivity. Qed.

(** ** Topic suggestions *)

(** C9 (amended). The suggestions operation never throws: after its one
    model call it gives whatever JSON value the response text parses to,
    unchecked, and the empty list when the call, the extraction or the
    parse fails; the route handler answers in every case. *)
Theorem C9_suggestions_degrade_to_empty E partialTopic w :
  (exists v,
     generateCourseSuggestions E partialTopic w = (Ok v, called w) /\
     match settle (model E (calls w)) with
     | Ok text =>
         match parseJSONResponse text with
         | Ok parsed => v = parsed
         | Throw _ => v = JArr []
         end
     | Throw _ => v = JArr []
     end) /\
  (exists resp w', AiRoutes.getCourseSuggestions E partialTopic w = (Ok resp, w')).
Proof.
  split.
  - unfold generateCourseSuggestions, bind, call_model, lift, suggestions_of.
    destruct (settle (model E (calls w))) as [text|e]; simpl.
    + destruct (parseJSONResponse text) as [v|e]; simpl; eauto.
    + eauto.
  - unfold AiRoutes.getCourseSuggestions.
    destruct (List.length (trim partialTopic) <? 2); [unfold ret; eauto|].
    unfold try_catchM, bind, generateCourseSuggestions, bind, call_model, lift,
      suggestions_of.
    destruct (settle (model E (calls w))) as [text|e]; simpl.
    + destruct (parseJSONResponse text) as [v|e]; simpl; unfold ret; eauto.
    + unfold ret; eauto.
Qed.

(** C9, as stated, fails: nothing checks that the parsed value is an
    array of one to five strings. An object and an array of six come back
    as they are. *)
Lemma C9_suggestions_are_not_validated :
  fst (generateCourseSuggestions (answering [wrapped_suggestions])
         (str "alg") empty_world)
    = Ok (JObj [(str "suggestions", JArr [JStr (str "Linear Algebra")])]) /\
  fst (generateCourseSuggestions (answering [six_suggestions])
         (str "alg") empty_world)
    = Ok (JArr [JStr (str "a"); JStr (str "b"); JStr (str "c");
                JStr (str "d"); JStr (str "e"); JStr (str "f")]).
Proof. split; vm_compute; reflexivity. Qed.

(** ** The store *)

Lemma ids_below_le D (key : D -> nat) n n' l :
  n <= n' -> ids_below key n l -> ids_below key n' l.
Proof. intros Hn. apply Forall_impl. intros; lia. Qed.

Lemma ids_below_S D (key : D -> nat) n l :
  ids_below key n l -> ids_below key (S n) l.
Proof. apply ids_below_le. lia. Qed.

Lemma upsert_fresh D (key : D -> nat) id d l :
  ids_below key id l -> upsert key id d l = l ++ [d].
Proof.
  induction 1 as [|x l Hx _ IH]; simpl; [reflexivity|].
  destruct (Nat.eqb_spec (key x) id); [lia|]. now rewrite IH.
Qed.

Lemma upsert_last D (key : D -> nat) d0 d l :
  ids_below key (key d0) l -> upsert key (key d0) d (l ++ [d0]) = l ++ [d].
Proof.
  induction 1 as [|x l Hx _ IH]; simpl.
  - now rewrite Nat.eqb_refl.
  - destruct (Nat.eqb_spec (key x) (key d0)); [lia|]. now rewrite IH.
Qed.

Lemma existsb_eqb_fresh n l :
  Forall (fun x => x < n) l -> existsb (Nat.eqb n) l = false.
Proof.
  induction 1 as [|x l Hx _ IH]; simpl; [reflexivity|].
  rewrite IH. destruct (Nat.eqb_spec n x); [lia|reflexivity].
Qed.

Lemma Lesson_new_ok id t c m o b l :
  Lesson_new id t c m o b = Ok l ->
  l_id l = id /\ l_content l = c /\ l_module l = m /\ l_isEnriched l = b.
Proof.
  unfold Lesson_new. intros H. rinv H. inversion H. now simpl.
Qed.

Lemma pre_save_ok l l' :
  pre_save l = Ok l' ->
  l_id l' = l_id l /\ l_content l' = l_content l /\ l_module l' = l_module l /\
  l_isEnriched l' = l_isEnriched l /\ l_order l' = l_order l /\
  exists n, wordCount (l_content l) = Ok n /\ l_readingTime l' = Some (readingTime_of n).
Proof.
  unfold pre_save. intros H. rinv H. inversion H. simpl. eauto 10.
Qed.

Lemma Module_new_ok id t d c o ob m :
  Module_new id t d c o ob = Ok m ->
  m_id m = id /\ m_course m = c /\ m_lessons m = [] /\
  castNumber (str "order") o = Ok (Some (m_order m)).
Proof.
  unfold Module_new. intros H. rinv H. inversion H. simpl.
  repeat split; try reflexivity.
  destruct a1; [|discriminate]. rinv Ha6. inversion Ha6. now subst.
Qed.

Lemma Course_new_ok id t d cr tg df h c :
  Course_new id t d cr tg df h = Ok c ->
  c_id c = id /\ c_modules c = [] /\ c_creator c = cr /\
  castNumber (str "estimatedHours") h = Ok (c_estimatedHours c).
Proof.
  unfold Course_new. intros H. rinv H. inversion H. simpl.
  repeat split; try reflexivity.
  - unfold required in Ha7. destruct cr; [discriminate|]. now inversion Ha7.
  - assumption.
Qed.

(** The next step of a handler, when that step is a pure computation:
    either it throws and the handler stops in the same world, or the
    handler goes on. *)
Ltac lift_step K H :=
  let e := fresh "e" in
  let a := fresh "a" in
  let w1 := fresh "w" in
  apply bind_cases in K as [(e & H & ->)|(a & w1 & H & K)];
  apply lift_cases in H as [H ->].

(** The next step of a handler, when that step is a write. *)
Ltac write_step K H :=
  let e := fresh "e" in
  let w1 := fresh "w" in
  apply bind_cases in K as [(e & H & ->)|([] & w1 & H & K)];
  [apply db_write_cases in H as [(? & _)|(_ & -> & ?)]; [discriminate|]
  |apply db_write_cases in H as [(_ & -> & ?)|((? & ?) & _)]; [|discriminate]].

Lemma Forall_lt_le n n' l :
  n <= n' -> Forall (fun x => x < n) l -> Forall (fun x => x < n') l.
Proof. intros Hn. apply Forall_impl. intros; lia. Qed.

(** A world that differs from a well-formed one in its counters only. *)
Lemma wf_keep w w' :
  wf w -> next_id w <= next_id w' -> courses w' = courses w ->
  modules w' = modules w -> lessons w' = lessons w -> wf w'.
Proof.
  intros [W1 W2 W3] Hn Hc Hm Hl.
  split; [rewrite Hc | rewrite Hm | rewrite Hl];
    (eapply ids_below_le; [exact Hn | assumption]).
Qed.

(** A round of the inner loop that throws before it writes. *)
Lemma lessons_grown_keep m pm w w' e bound :
  wf w -> modules w = pm ++ [m] ->
  Forall (fun x => x < next_id w) (m_lessons m) ->
  next_id w <= next_id w' -> courses w' = courses w ->
  modules w' = modules w -> lessons w' = lessons w ->
  lessons_grown m pm w w' (Throw e) bound.
Proof.
  intros Hwf Hm Hls Hn Hc Hmo Hl. split; [|split].
  - now apply wf_keep with w.
  - assumption.
  - exists m, []. rewrite Hmo, Hl, app_nil_r. repeat split; auto.
    + now apply Forall_lt_le with (next_id w).
    + simpl. lia.
Qed.

(** What one round of the inner loop leaves behind, whatever its result. *)
Lemma createLesson_spec E m j ld w r w' pm :
  CourseController.createLesson E m j ld w = (r, w') ->
  wf w -> modules w = pm ++ [m] -> ids_below m_id (m_id m) pm ->
  Forall (fun x => x < next_id w) (m_lessons m) ->
  lessons_grown m pm w w' r 1.
Proof.
  intros K Hwf Hm Hpm Hls. unfold CourseController.createLesson in K.
  lift_step K Htitle; [now apply lessons_grown_keep|].
  lift_step K Horder; [now apply lessons_grown_keep|].
  apply bind_cases in K as [(e & H & _)|(id & w1 & H & K)]; [discriminate|].
  unfold fresh_id in H. inversion H; subst id w1; clear H.
  lift_step K Hnew; [apply lessons_grown_keep; simpl; auto|].
  lift_step K Hhook; [apply lessons_grown_keep; simpl; auto|].
  symmetry in Hnew. apply Lesson_new_ok in Hnew as (I1 & I2 & I3 & I4).
  symmetry in Hhook. apply pre_save_ok in Hhook as (J1 & J2 & J3 & J4 & _).
  rename a2 into lesson.
  assert (Hph : placeholder_lesson lesson /\ l_module lesson = m_id m).
  { unfold placeholder_lesson. rewrite J4, J2, J3. auto. }
  assert (Hid : l_id lesson = next_id w) by congruence.
  write_step K Hwl; [apply lessons_grown_keep; simpl; auto|].
  unfold with_lessons in K. simpl in K.
  rewrite Hid, upsert_fresh in K by apply Hwf.
  unfold addLesson in K. rewrite existsb_eqb_fresh in K by assumption.
  destruct Hwf as [W1 W2 W3].
  write_step K Hwm.
  - (* the lesson is stored, the module is not updated *)
    split; [|split].
    + split; simpl; try (apply ids_below_S; assumption).
      apply Forall_app. split; [apply ids_below_S; assumption|].
      constructor; [lia|constructor].
    + reflexivity.
    + exists m, [lesson]. repeat split; auto.
      now apply Forall_lt_le with (next_id w); [simpl; lia|].
  - unfold ret in K. inversion K; subst r w'; clear K. simpl.
    rewrite Hm, (upsert_last (key := m_id) m _ Hpm).
    split; [|split].
    + split; simpl.
      * apply ids_below_S; assumption.
      * rewrite Hm in W2. apply Forall_app in W2 as [W2 W2'].
        apply Forall_app. split; [apply ids_below_S; assumption|].
        constructor; [|constructor]. simpl. inversion W2'; subst. lia.
      * apply Forall_app; split; [apply ids_below_S; assumption|].
        constructor; [lia|constructor].
    + reflexivity.
    + eexists _, [lesson]. repeat split; simpl; auto.
      apply Forall_app. split.
      * now apply Forall_lt_le with (next_id w); [lia|].
      * constructor; [lia|constructor].
Qed.

Lemma createLessons_spec E ls : forall m j w r w' pm,
  CourseController.createLessons E m j ls w = (r, w') ->
  wf w -> modules w = pm ++ [m] -> ids_below m_id (m_id m) pm ->
  Forall (fun x => x < next_id w) (m_lessons m) ->
  lessons_grown m pm w w' r (List.length ls).
Proof.
  induction ls as [|ld ls IH]; intros m j w r w' pm H Hwf Hm Hpm Hls.
  - simpl in H. inversion H; subst r w'. split; [assumption|]. split; [reflexivity|].
    exists m, []. rewrite app_nil_r. repeat split; auto.
  - simpl in H.
    apply bind_cases in H as [(e & H & ->)|(m' & w1 & H & K)];
      apply createLesson_spec with (pm := pm) in H; try assumption;
      destruct H as (Hwf1 & Hc1 & m1 & add & Hm1 & Hi1 & Hco1 & Ho1 & Hl1 & Hle1 & Hf1 & Hr1).
    + split; [assumption|]. split; [assumption|].
      exists m1, add. repeat split; auto. simpl. lia.
    + destruct Hr1 as [-> Hlen].
      apply IH with (pm := pm) in K; try assumption; [|now rewrite Hi1].
      destruct K as (Hwf2 & Hc2 & m2 & add2 & Hm2 & Hi2 & Hco2 & Ho2 & Hl2 & Hle2 & Hf2 & Hr2).
      split; [assumption|]. split; [congruence|].
      exists m2, (add ++ add2). repeat split; try congruence.
      * rewrite Hle2, Hle1. now rewrite app_assoc.
      * apply Forall_app. split; [assumption|].
        eapply Forall_impl; [|exact Hf2]. simpl. intros l [? ?]. split; congruence.
      * rewrite length_app. destruct r as [m3|e]; simpl.
        -- destruct Hr2 as [-> Hr2]. split; [reflexivity|lia].
        -- lia.
Qed.

Lemma elements_outline_lessons md ls :
  rbind (get (Some md) (str "lessons")) CourseController.elements = Ok ls ->
  outline_lessons md = ls.
Proof.
  unfold outline_lessons. destruct (get (Some md) (str "lessons")) as [[v|]|e]; simpl;
    try discriminate.
  destruct v; simpl; try discriminate. now inversion 1.
Qed.

Lemma elements_outline_modules cd ms :
  rbind (get (Some cd) (str "modules")) CourseController.elements = Ok ms ->
  outline_modules cd = ms.
Proof.
  unfold outline_modules. destruct (get (Some cd) (str "modules")) as [[v|]|e]; simpl;
    try discriminate.
  destruct v; simpl; try discriminate. now inversion 1.
Qed.

Lemma same_course_refl c : same_course c c.
Proof. repeat split. Qed.

Lemma same_course_trans a b c : same_course a b -> same_course b c -> same_course a c.
Proof. unfold same_course. intuition congruence. Qed.

Lemma attached_app cid a1 l1 a2 l2 :
  attached cid a1 l1 -> attached cid a2 l2 -> attached cid (a1 ++ a2) (l1 ++ l2).
Proof.
  intros [A1 B1] [A2 B2]. split.
  - apply Forall_app. now split.
  - apply Forall_app. split; (eapply Forall_impl; [|eassumption]); simpl;
      intros l (P & m & I & Q); (split; [assumption|]); exists m;
      (split; [|assumption]); apply in_or_app; auto.
Qed.

(** A round of the outer loop that throws before it writes. *)
Lemma modules_grown_keep c pc w w' e bound total :
  wf w -> courses w = pc ++ [c] ->
  Forall (fun x => x < next_id w) (c_modules c) ->
  next_id w <= next_id w' -> courses w' = courses w ->
  modules w' = modules w -> lessons w' = lessons w ->
  modules_grown c pc w w' (Throw e) bound total.
Proof.
  intros Hwf Hc Hms Hn Hc0 Hmo Hl. split.
  - now apply wf_keep with w.
  - exists c, [], []. rewrite Hc0, Hmo, Hl, !app_nil_r.
    repeat split; auto using same_course_refl.
    + now apply Forall_lt_le with (next_id w).
    + simpl. lia.
Qed.

(** The lessons of one new module are attached to it. *)
Lemma attached_one cid module m1 add :
  m_course module = cid -> m_id m1 = m_id module -> m_course m1 = m_course module ->
  Forall (fun l => placeholder_lesson l /\ l_module l = m_id module) add ->
  attached cid [m1] add.
Proof.
  intros I Hi Hco Hf. split.
  - constructor; [congruence|constructor].
  - eapply Forall_impl; [|exact Hf]. simpl. intros l [P Q]. split; [assumption|].
    exists m1. split; [now left|congruence].
Qed.

(** What one round of the outer loop leaves behind, whatever its result. *)
Lemma createModule_spec E c i md w r w' pc :
  CourseController.createModule E c i md w = (r, w') ->
  wf w -> courses w = pc ++ [c] -> ids_below c_id (c_id c) pc ->
  Forall (fun x => x < next_id w) (c_modules c) ->
  modules_grown c pc w w' r 1 (List.length (outline_lessons md)).
Proof.
  intros K Hwf Hc Hpc Hms. unfold CourseController.createModule in K.
  lift_step K Htitle; [now apply modules_grown_keep|].
  lift_step K Hdescription; [now apply modules_grown_keep|].
  lift_step K Horder; [now apply modules_grown_keep|].
  lift_step K Hobjectives; [now apply modules_grown_keep|].
  apply bind_cases in K as [(e & H & _)|(id & w1 & H & K)]; [discriminate|].
  unfold fresh_id in H. inversion H; subst id w1; clear H.
  lift_step K Hnew; [apply modules_grown_keep; simpl; auto|].
  rename a3 into module.
  symmetry in Hnew. apply Module_new_ok in Hnew as (I1 & I2 & I3 & _).
  write_step K Hwm; [apply modules_grown_keep; simpl; auto|].
  unfold with_modules in K. simpl in K.
  rewrite I1, upsert_fresh in K by apply Hwf.
  set (w1 := {| courses := courses w; modules := modules w ++ [module];
                lessons := lessons w; next_id := S (next_id w);
                calls := calls w; writes := S (writes w) |}) in *.
  assert (Hwf1 : wf w1).
  { destruct Hwf as [W1 W2 W3]. split; simpl; try (apply ids_below_S; assumption).
    apply Forall_app. split; [apply ids_below_S; assumption|].
    constructor; [lia|constructor]. }
  lift_step K Hls.
  { split; [assumption|]. exists c, [module], [].
    rewrite app_nil_r. repeat split; simpl; auto.
    now apply Forall_lt_le with (next_id w); [lia|]. }
  symmetry in Hls. apply elements_outline_lessons in Hls.
  assert (Hlow : ids_below m_id (m_id module) (modules w))
    by (rewrite I1; apply Hwf).
  assert (Hnone : Forall (fun x => x < next_id w1) (m_lessons module))
    by (rewrite I3; constructor).
  apply bind_cases in K as [(e & H8 & ->)|(module' & w2 & H8 & K)];
    apply (@createLessons_spec E _ module 0 w1 _ _ (modules w)) in H8;
    try assumption; try reflexivity;
    destruct H8 as (Hwf2 & Hc2 & m1 & add & Hm2 & Hi2 & Hco2 & _ & Hl2 & Hle2 & Hf2 & Hr2);
    unfold w1 in Hc2, Hle2; simpl in Hc2, Hle2;
    destruct (@attached_one _ _ _ _ I2 Hi2 Hco2 Hf2) as [Ha1 Ha2].
  { (* a lesson could not be created *)
    split; [assumption|]. exists c, [m1], add.
    repeat split; auto using same_course_refl; try assumption.
    - congruence.
    - apply Forall_lt_le with (next_id w); [|assumption].
      destruct Hwf2 as [_ W _]. rewrite Hm2 in W. apply Forall_app in W as [_ W].
      inversion W; subst. lia. }
  destruct Hr2 as [-> Hlen].
  assert (Hnext : S (next_id w) <= next_id w2).
  { destruct Hwf2 as [_ W _]. rewrite Hm2 in W. apply Forall_app in W as [_ W].
    inversion W; subst. lia. }
  unfold addModule in K.
  rewrite Hi2, I1, existsb_eqb_fresh in K by assumption.
  write_step K Hwc.
  - (* the module is complete, the course is not updated *)
    split; [destruct Hwf2; split; assumption|]. simpl.
    exists c, [m1], add. repeat split; auto using same_course_refl; try assumption.
    + congruence.
    + apply Forall_lt_le with (next_id w); [lia|assumption].
  - unfold ret in K. inversion K; subst r w'; clear K. simpl.
    rewrite Hc2, Hc, (upsert_last (key := c_id) c _ Hpc).
    split.
    + destruct Hwf2 as [W1 W2 W3]. split; simpl; try assumption.
      rewrite Hc2, Hc in W1.
      apply Forall_app in W1 as [W1 W1']. apply Forall_app. split; [assumption|].
      constructor; [|constructor]. simpl. now inversion W1'.
    + eexists _, [m1], add. repeat split; simpl; auto; try assumption.
      * apply Forall_app. split.
        -- apply Forall_lt_le with (next_id w); [lia|assumption].
        -- constructor; [lia|constructor].
      * congruence.
Qed.

Lemma createModules_spec E ms : forall c i w r w' pc,
  CourseController.createModules E c i ms w = (r, w') ->
  wf w -> courses w = pc ++ [c] -> ids_below c_id (c_id c) pc ->
  Forall (fun x => x < next_id w) (c_modules c) ->
  modules_grown c pc w w' r (List.length ms) (lesson_total ms).
Proof.
  induction ms as [|md ms IH]; intros c i w r w' pc H Hwf Hc Hpc Hms.
  - simpl in H. inversion H; subst r w'. split; [assumption|].
    exists c, [], []. rewrite !app_nil_r.
    repeat split; auto using same_course_refl; constructor.
  - simpl in H.
    apply bind_cases in H as [(e & H & ->)|(c' & w1 & H & K)];
      apply createModule_spec with (pc := pc) in H; try assumption;
      destruct H as (Hwf1 & c1 & addm & addl & Hc1 & Hs1 & Hm1 & Hmo1 & Hle1 & Ha1 & Hr1).
    + split; [assumption|]. exists c1, addm, addl. repeat split; try apply Hs1;
        try apply Ha1; auto. simpl. lia.
    + destruct Hr1 as (-> & Hlm & Hll).
      assert (Hid : c_id c1 = c_id c) by apply Hs1.
      apply IH with (pc := pc) in K; try assumption; [|now rewrite Hid].
      destruct K as (Hwf2 & c2 & addm2 & addl2 & Hc2 & Hs2 & Hm2 & Hmo2 & Hle2 & Ha2 & Hr2).
      split; [assumption|].
      exists c2, (addm ++ addm2), (addl ++ addl2).
      split; [assumption|]. split; [eapply same_course_trans; eassumption|].
      split; [assumption|].
      split; [rewrite Hmo2, Hmo1; now rewrite app_assoc|].
      split; [rewrite Hle2, Hle1; now rewrite app_assoc|].
      split; [apply attached_app; [assumption | now rewrite <- Hid]|].
      rewrite !length_app. destruct r as [c3|e]; simpl.
      * destruct Hr2 as (-> & ? & ?). repeat split; lia.
      * lia.
Qed.

Lemma find_id_last D (key : D -> nat) d l :
  ids_below key (key d) l -> find_id key (key d) (l ++ [d]) = Some d.
Proof.
  induction 1 as [|x l Hx _ IH]; simpl.
  - now rewrite Nat.eqb_refl.
  - destruct (Nat.eqb_spec (key x) (key d)); [lia|assumption].
Qed.

(** A build that throws before the course is stored. *)
Lemma built_keep E creator cd w w' e :
  wf w -> next_id w <= next_id w' -> courses w' = courses w ->
  modules w' = modules w -> lessons w' = lessons w ->
  writes w' = writes w \/ db_ok E (writes w) = false ->
  built E creator cd w w' (Throw e).
Proof.
  intros Hwf Hn Hc Hm Hl Hw. split.
  - now apply wf_keep with w.
  - exists [], [], []. rewrite Hc, Hm, Hl, !app_nil_r.
    repeat split. left. repeat split; eauto.
Qed.

(** What [build] leaves behind, whatever its result: nothing, or the
    course with the modules and lessons created so far. *)
Lemma build_spec E creator cd w r w' :
  CourseController.build E creator cd w = (r, w') ->
  wf w ->
  built E creator cd w w' r.
Proof.
  intros K Hwf. unfold CourseController.build in K.
  lift_step K Htitle; [now apply built_keep; auto|].
  lift_step K Hdescription; [now apply built_keep; auto|].
  lift_step K Htags; [now apply built_keep; auto|].
  lift_step K Hdifficulty; [now apply built_keep; auto|].
  lift_step K Hhours; [now apply built_keep; auto|].
  rename a3 into hours.
  apply bind_cases in K as [(e & H & _)|(id & w1 & H & K)]; [discriminate|].
  unfold fresh_id in H. inversion H; subst id w1; clear H.
  lift_step K Hnew; [apply built_keep; simpl; auto|].
  rename a3 into course.
  symmetry in Hnew. apply Course_new_ok in Hnew as (I1 & I2 & I3 & I4).
  write_step K Hwc; [apply built_keep; simpl; auto|].
  simpl in H. rename H into Hdb.
  unfold with_courses in K. simpl in K.
  rewrite I1, upsert_fresh in K by apply Hwf.
  set (w1 := {| courses := courses w ++ [course]; modules := modules w;
                lessons := lessons w; next_id := S (next_id w);
                calls := calls w; writes := S (writes w) |}) in *.
  assert (Hwf1 : wf w1).
  { destruct Hwf as [W1 W2 W3]. split; simpl; try (apply ids_below_S; assumption).
    apply Forall_app. split; [apply ids_below_S; assumption|].
    constructor; [lia|constructor]. }
  assert (Hlow : ids_below c_id (c_id course) (courses w))
    by (rewrite I1; apply Hwf).
  assert (Hnone : Forall (fun x => x < next_id w1) (c_modules course))
    by (rewrite I2; constructor).
  lift_step K Hms.
  { split; [assumption|]. exists [course], [], []. rewrite !app_nil_r.
    repeat split. right. exists course, hours.
    repeat split; auto; try constructor. simpl. lia. }
  symmetry in Hms. apply elements_outline_modules in Hms.
  apply (@createModules_spec E _ course 0 w1 r w' (courses w)) in K;
    try assumption; try reflexivity.
  destruct K as (Hwf2 & c1 & addm & addl & Hc1 & Hs1 & _ & Hmo1 & Hle1 & Ha1 & Hr1).
  split; [assumption|]. exists [c1], addm, addl.
  split; [assumption|]. split; [assumption|]. split; [assumption|].
  right. exists c1, hours.
  destruct Hs1 as (S1 & _ & _ & S4 & _ & _ & S7).
  destruct Ha1 as [Ha1 Ha2].
  rewrite S1. repeat split; try congruence; try assumption.
  rewrite Hms. exact Hr1.
Qed.

Lemma wf_called w : wf w -> wf (called w).
Proof. intros [W1 W2 W3]. now split. Qed.

Lemma wf_empty_world : wf empty_world.
Proof. split; constructor. Qed.

(** ** The hierarchy builder *)

(** C4 (amended). When the builder returns on a valid outline with M
    modules and L_i lesson stubs, which it does only if every document
    passes its schema and every write is taken, the store holds the course,
    exactly M new modules of that course and exactly the sum of the L_i
    new lessons, each in one of these modules, not enriched, with the one
    placeholder block for content. *)
Theorem C4_builder_counts E creator courseData w course w' :
  wf w ->
  validateCourseStructure courseData = Ok tt ->
  CourseController.build E creator courseData w = (Ok course, w') ->
  exists nm nl,
    courses w' = courses w ++ [course] /\
    modules w' = modules w ++ nm /\
    lessons w' = lessons w ++ nl /\
    List.length nm = List.length (outline_modules courseData) /\
    List.length nl = lesson_total (outline_modules courseData) /\
    Forall (fun m => m_course m = c_id course) nm /\
    Forall (fun l => placeholder_lesson l /\
                     exists m, In m nm /\ l_module l = m_id m) nl.
Proof.
  intros Hwf _ H. apply build_spec in H; [|assumption].
  destruct H as (_ & cs & nm & nl & Hc & Hm & Hl & [(_ & _ & _ & (e & He) & _)|H]);
    [discriminate|].
  destruct H as (c & h & -> & _ & _ & _ & _ & _ & [A1 A2] & _ & (-> & L1 & L2)).
  exists nm, nl. repeat split; assumption.
Qed.

Lemma C4_builder_counts_witness :
  exists course w' nm nl,
    CourseController.build (answering []) (str "u1") loose_outline_data
      empty_world = (Ok course, w') /\
    modules w' = nm /\ lessons w' = nl /\
    List.length nm = 1 /\ List.length nl = 2 /\
    c_title course = str "123" /\ c_tags course = [Some (str "math")] /\
    map m_order nm = [Finite 2] /\ map l_title nl = [str "7"; str "Norms"].
Proof.
  assert (H : exists course w',
            CourseController.build (answering []) (str "u1") loose_outline_data
              empty_world = (Ok course, w'))
    by (eexists _, _; vm_compute; reflexivity).
  destruct H as (course & w' & H).
  assert (V : validateCourseStructure loose_outline_data = Ok tt)
    by (vm_compute; reflexivity).
  destruct (@C4_builder_counts _ _ _ _ _ _ wf_empty_world V H)
    as (nm & nl & _ & Hm & Hl & Lm & Ll & _).
  exists course, w', nm, nl.
  repeat (split; [assumption|]).
  simpl in Hm, Hl. subst nm nl.
  assert (W : (Ok course, w')
              = CourseController.build (answering []) (str "u1")
                  loose_outline_data empty_world) by now rewrite H.
  vm_compute in W. inversion W; subst course w'.
  repeat split; reflexivity.
Defined.

(** C4, as stated, fails: an outline that passes validation and has every
    field of the data model, with one module and one lesson stub whose
    title has 201 characters, leaves one module and no lesson. *)
Lemma C4_valid_outline_not_persisted :
  parseJSONResponse (Some (JStr long_stub)) = Ok long_stub_data /\
  validateCourseStructure long_stub_data = Ok tt /\
  List.length (outline_modules long_stub_data) = 1 /\
  lesson_total (outline_modules long_stub_data) = 1 /\
  exists e w',
    CourseController.build (answering []) (str "u1") long_stub_data empty_world
      = (Throw e, w') /\
    List.length (modules w') = 1 /\ List.length (lessons w') = 0.
Proof.
  split; [vm_compute; reflexivity|]. split; [vm_compute; reflexivity|].
  split; [vm_compute; reflexivity|]. split; [vm_compute; reflexivity|].
  eexists _, _. split; [vm_compute; reflexivity|].
  split; vm_compute; reflexivity.
Qed.



(** C5: the code at the failing input. In [outline] the second module
    and the second lesson of the first module are given [order] 0; both
    are stored with their position, 1, so that the two modules have the
    same order. *)
Example C5_supplied_zero_order_is_replaced :
  map m_order (modules library) = [Finite 1; Finite 1] /\
  map l_order (lessons library) = [Finite 1; Finite 1; Finite 0].
Proof. vm_compute. split; reflexivity. Qed.

(** ** Reading a lesson *)

Lemma find_id_key D (key : D -> nat) id l d :
  find_id key id l = Some d -> key d = id.
Proof.
  induction l as [|x l IH]; simpl; [discriminate|].
  destruct (Nat.eqb_spec (key x) id); [|assumption].
  intros H. inversion H; subst. reflexivity.
Qed.

Lemma find_id_upsert D (key : D -> nat) d l :
  find_id key (key d) (upsert key (key d) d l) = Some d.
Proof.
  induction l as [|x l IH]; simpl.
  - now rewrite Nat.eqb_refl.
  - destruct (Nat.eqb_spec (key x) (key d)); simpl.
    + now rewrite Nat.eqb_refl.
    + destruct (Nat.eqb_spec (key x) (key d)); [contradiction|assumption].
Qed.

Lemma load_world sub id w r w' : load sub id w = (r, w') -> w' = w.
Proof.
  unfold load, bind, find_lesson, find_module, find_course, ret, throw.
  destruct (find_id l_id id (lessons w)) as [l|]; [|now inversion 1].
  destruct (find_id m_id (l_module l) (modules w)) as [m|]; [|now inversion 1].
  destruct (find_id c_id (m_course m) (courses w)) as [c|]; [|now inversion 1].
  destruct (jstring_eqb (c_creator c) sub); now inversion 1.
Qed.

Lemma load_readable sub id w l :
  load sub id w = (Ok (inr l), w) <-> readable sub id w l.
Proof.
  unfold readable, load, bind, find_lesson, find_module, find_course, ret, throw.
  destruct (find_id l_id id (lessons w)) as [l0|].
  - destruct (find_id m_id (l_module l0) (modules w)) as [m|] eqn:Hm.
    + destruct (find_id c_id (m_course m) (courses w)) as [c|] eqn:Hc.
      * destruct (jstring_eqb (c_creator c) sub) eqn:Ho; split.
        -- inversion 1; subst. split; [reflexivity|]. exists m, c. auto.
        -- intros (Hl & _). now inversion Hl.
        -- inversion 1.
        -- intros (Hl & m' & c' & Hm' & Hc' & Ho'). inversion Hl; subst.
           rewrite Hm in Hm'. inversion Hm'; subst.
           rewrite Hc in Hc'. inversion Hc'; subst. congruence.
      * split; [inversion 1|].
        intros (Hl & m' & c' & Hm' & Hc' & _). inversion Hl; subst.
        rewrite Hm in Hm'. inversion Hm'; subst. congruence.
    + split; [inversion 1|].
      intros (Hl & m' & c' & Hm' & _). inversion Hl; subst. congruence.
  - split; [inversion 1|]. intros (Hl & _). discriminate.
Qed.

(** ** What counts as a modification *)

Lemma number_eqb_eq a b : number_eqb a b = true <-> a = b.
Proof.
  destruct a as [[an ad]|x], b as [[bn bd]|y]; simpl; split; try discriminate.
  - intros H. apply andb_true_iff in H as [H1 H2].
    apply Z.eqb_eq in H1. apply Pos.eqb_eq in H2. now subst.
  - inversion 1. now rewrite Z.eqb_refl, Pos.eqb_refl.
  - intros H. apply Bool.eqb_prop in H. now subst.
  - inversion 1. apply Bool.eqb_reflx.
Qed.

(** Induction on a value with its elements and members. *)
Lemma JValue_nested_ind (P : JValue -> Prop) :
  P JNull -> (forall b, P (JBool b)) -> (forall n, P (JNum n)) ->
  (forall s, P (JStr s)) ->
  (forall l, Forall P l -> P (JArr l)) ->
  (forall ms, Forall (fun m => P (snd m)) ms -> P (JObj ms)) ->
  forall v, P v.
Proof.
  intros HN HB HNum HS HA HO. fix IH 1. intros [|b|n|s|l|ms].
  - exact HN.
  - apply HB.
  - apply HNum.
  - apply HS.
  - apply HA. revert l. fix IHl 1. intros [|x r]; constructor; [apply IH | apply IHl].
  - apply HO. revert ms. fix IHl 1.
    intros [|[k x] r]; constructor; [apply IH | apply IHl].
Qed.

Lemma deepEqual_eq a : forall b, deepEqual a b = true <-> a = b.
Proof.
  induction a as [|x|x|x|l IH|ms IH] using JValue_nested_ind; intros [|y|y|y|l'|ms'];
    simpl; try (split; [discriminate | inversion 1]); try (split; reflexivity).
  - split; [intros H; apply Bool.eqb_prop in H; now subst
           | inversion 1; apply Bool.eqb_reflx].
  - rewrite number_eqb_eq. split; [congruence | now inversion 1].
  - rewrite jstring_eqb_eq. split; [congruence | now inversion 1].
  - revert l'. induction IH as [|x l Hx _ IHl]; intros [|y l']; simpl;
      try (split; [discriminate | inversion 1]); [split; reflexivity|].
    rewrite andb_true_iff, Hx. specialize (IHl l'). split.
    + intros [-> H]. apply IHl in H. now inversion H.
    + inversion 1; subst. split; [reflexivity|]. now apply IHl.
  - revert ms'. induction IH as [|[k x] l Hx _ IHl]; intros [|[k' y] l']; simpl;
      try (split; [discriminate | inversion 1]); [split; reflexivity|].
    simpl in Hx. rewrite !andb_true_iff, Hx, jstring_eqb_eq. specialize (IHl l'). split.
    + intros [[-> ->] H]. apply IHl in H. now inversion H.
    + inversion 1; subst. split; [split; reflexivity|]. now apply IHl.
Qed.

Lemma same_content_eq a b : same_content a b = true <-> a = b.
Proof.
  unfold same_content. rewrite deepEqual_eq. split; [now inversion 1 | congruence].
Qed.

Lemma same_strings_eq a : forall b, same_strings a b = true <-> a = b.
Proof.
  induction a as [|[x|] a IH]; intros [|[y|] b]; simpl;
    try (split; [discriminate | inversion 1]); try (split; reflexivity).
  - rewrite andb_true_iff, jstring_eqb_eq, IH. split; [intros [-> ->]; reflexivity|].
    inversion 1; auto.
  - rewrite IH. split; [congruence | now inversion 1].
Qed.

Lemma same_number_eq a b : same_number a b = true <-> a = b.
Proof.
  destruct a, b; simpl; try (split; [discriminate | inversion 1]);
    [|split; reflexivity].
  rewrite number_eqb_eq. split; [congruence | now inversion 1].
Qed.

Lemma same_time_eq a b : same_time a b = true <-> a = b.
Proof.
  destruct a, b; simpl; try (split; [discriminate | inversion 1]);
    [|split; reflexivity].
  rewrite Nat.eqb_eq. split; [congruence | now inversion 1].
Qed.

(** ** The enrichment of a lesson *)

(** The hook changes the reading time only. *)
Lemma pre_save_fields l l' :
  pre_save l = Ok l' ->
  l_id l' = l_id l /\ l_title l' = l_title l /\ l_content l' = l_content l /\
  l_objectives l' = l_objectives l /\ l_module l' = l_module l /\
  l_order l' = l_order l /\ l_isEnriched l' = l_isEnriched l /\
  l_estimatedMinutes l' = l_estimatedMinutes l /\ l_tags l' = l_tags l /\
  exists n, wordCount (l_content l) = Ok n /\
            l_readingTime l' = Some (readingTime_of n).
Proof.
  unfold pre_save. intros H. rinv H. inversion H. simpl. eauto 12.
Qed.

(** The assignments touch [content], [objectives], [estimatedMinutes]
    and [isEnriched]. *)
Lemma assign_fields l ld l1 casts :
  assign l ld = Ok (l1, casts) ->
  l_id l1 = l_id l /\ l_title l1 = l_title l /\ l_module l1 = l_module l /\
  l_order l1 = l_order l /\ l_tags l1 = l_tags l /\
  l_readingTime l1 = l_readingTime l /\ l_isEnriched l1 = true.
Proof.
  unfold assign. intros H. rinv H. inversion H; subst. simpl. repeat split.
Qed.

(** The content assigned is the content of the lesson body, which
    validation has found to be an array. *)
Lemma assign_content l ld l1 casts :
  validateLessonStructure ld = Ok tt -> assign l ld = Ok (l1, casts) ->
  get (Some ld) (str "content") = Ok (Some (JArr (l_content l1))).
Proof.
  intros V A. apply validateLessonStructure_ok in V as (blocks & G & _).
  unfold assign in A. rewrite G in A. cbn [rbind] in A. rinv A.
  inversion A; subst. exact G.
Qed.

Lemma lesson_of_valid o ld :
  lesson_of o = Ok ld -> validateLessonStructure ld = Ok tt.
Proof.
  unfold lesson_of, try_catch.
  destruct (settle o) as [text|e]; cbn [rbind]; [|discriminate].
  destruct (parseJSONResponse text) as [ld'|e]; cbn [rbind]; [|discriminate].
  destruct (validateLessonStructure ld') as [[]|e] eqn:V; cbn [rbind];
    [|discriminate].
  inversion 1; subst. exact V.
Qed.

(** An update of the lesson as it was loaded stores the lesson in
    memory. *)
Lemma merged_loaded l l' :
  l_id l' = l_id l -> l_title l' = l_title l -> l_module l' = l_module l ->
  l_order l' = l_order l -> l_tags l' = l_tags l ->
  merged l l' l = l'.
Proof.
  destruct l, l'. simpl. intros -> -> -> -> ->. unfold merged. simpl.
  f_equal.
  - destruct (same_content _ _) eqn:S; [now apply same_content_eq in S | reflexivity].
  - destruct (same_strings _ _) eqn:S; [now apply same_strings_eq in S | reflexivity].
  - destruct (Bool.eqb _ _) eqn:S; [now apply Bool.eqb_prop in S | reflexivity].
  - destruct (same_number _ _) eqn:S; [now apply same_number_eq in S | reflexivity].
  - destruct (same_time _ _) eqn:S; [now apply same_time_eq in S | reflexivity].
Qed.

(** The lesson in memory when the [try] is left depends on the lesson
    loaded and on the outcome of the model call, not on the store: the
    [try] returns it whatever the world and the version are. *)
Lemma enrich_when_answer l o :
  exists l',
    answers l o l' /\
    l_id l' = l_id l /\ l_title l' = l_title l /\ l_module l' = l_module l /\
    l_order l' = l_order l /\ l_tags l' = l_tags l /\
    forall E current w, exists b w',
      enrich_when E current l o w = (Ok (l', b), w').
Proof.
  unfold answers, enrich_when. destruct (lesson_of o) as [ld|e] eqn:Ho.
  2:{ exists l. repeat split. intros. unfold ret. eauto. }
  destruct (assign l ld) as [[l1 casts]|e] eqn:Ha.
  2:{ exfalso. unfold assign in Ha.
      apply lesson_of_valid in Ho. apply validateLessonStructure_ok in Ho
        as (blocks & G & _).
      rewrite G in Ha. cbn [rbind] in Ha.
      destruct (get (Some ld) (str "objectives")) as [x|] eqn:G1.
      - cbn [rbind] in Ha.
        destruct (get (Some ld) (str "estimatedMinutes")) as [y|] eqn:G2;
          [discriminate|].
        unfold get in G, G2. destruct ld; discriminate.
      - unfold get in G, G1. destruct ld; discriminate. }
  pose proof (assign_fields _ _ Ha) as (I1 & I2 & I3 & I4 & I5 & I6 & I7).
  pose proof (assign_content _ _ (lesson_of_valid _ Ho) Ha) as C.
  unfold save_or_keep.
  destruct (rbind casts (fun _ => validateLesson l1)) as [[]|e].
  2:{ exists l1. repeat split; auto. intros. unfold ret. eauto. }
  destruct (if same_content (l_content l) (l_content l1) then Ok l1
            else pre_save l1) as [l2|e] eqn:Hk.
  2:{ exists l1. repeat split; auto. intros. unfold ret. eauto. }
  assert (K : l_id l2 = l_id l1 /\ l_title l2 = l_title l1 /\
              l_content l2 = l_content l1 /\ l_module l2 = l_module l1 /\
              l_order l2 = l_order l1 /\ l_isEnriched l2 = l_isEnriched l1 /\
              l_tags l2 = l_tags l1).
  { destruct (same_content _ _); [inversion Hk; subst; repeat split|].
    apply pre_save_fields in Hk. intuition. }
  destruct K as (K1 & K2 & K3 & K4 & K5 & K6 & K7).
  exists l2. split; [split; congruence|].
  repeat (split; [congruence|]).
  intros E current w.
  unfold try_catchM, bind, save_changes, find_lesson, bind, db_write, throw,
    write_lesson, db_write, ret.
  destruct (find_id l_id (l_id l2) (lessons w)) as [s|].
  - destruct (versioned l l2 && negb current); destruct (db_ok E (writes w)); eauto.
  - destruct (db_ok E (writes w)); eauto.
Qed.

(** What the [try] does to the world: nothing, but for the count of the
    writes when its update was refused or found no match; or the update
    of the stored lesson [s] by the paths that were modified. *)
Lemma enrich_when_cases E current l o w l' b w' :
  enrich_when E current l o w = (Ok (l', b), w') ->
  courses w' = courses w /\ modules w' = modules w /\ calls w' = calls w /\
  next_id w' = next_id w /\
  ((lessons w' = lessons w /\ b = false) \/
   (exists s ld l1,
      find_id l_id (l_id l) (lessons w) = Some s /\
      lessons w' = upsert l_id (l_id l) (merged l l' s) (lessons w) /\
      lesson_of o = Ok ld /\ assign l ld = Ok (l1, Ok tt) /\
      validateLesson l1 = Ok tt /\
      (l' = l1 /\ l_content l1 = l_content l \/
       pre_save l1 = Ok l' /\ l_content l1 <> l_content l) /\
      l_isEnriched l' = true /\ b = versioned l l' /\
      (versioned l l' = true -> current = true) /\
      db_ok E (writes w) = true)).
Proof.
  unfold enrich_when. destruct (lesson_of o) as [ld|e] eqn:Ho.
  2:{ unfold ret. inversion 1; subst. repeat split; auto. }
  destruct (assign l ld) as [[l1 casts]|e] eqn:Ha.
  2:{ unfold ret. inversion 1; subst. repeat split; auto. }
  pose proof (assign_fields _ _ Ha) as (I1 & I2 & I3 & I4 & I5 & I6 & I7).
  unfold save_or_keep.
  destruct (rbind casts (fun _ => validateLesson l1)) as [[]|e] eqn:V.
  2:{ unfold ret. inversion 1; subst. repeat split; auto. }
  assert (V0 : casts = Ok tt)
    by (destruct casts as [[]|]; [reflexivity | discriminate]).
  subst casts.
  assert (V1 : validateLesson l1 = Ok tt) by exact V.
  destruct (if same_content (l_content l) (l_content l1) then Ok l1
            else pre_save l1) as [l2|e] eqn:Hk.
  2:{ unfold ret. inversion 1; subst. repeat split; auto. }
  assert (K : l_id l2 = l_id l1 /\ l_isEnriched l2 = l_isEnriched l1 /\
              (l2 = l1 /\ l_content l1 = l_content l \/
               pre_save l1 = Ok l2 /\ l_content l1 <> l_content l)).
  { destruct (same_content _ _) eqn:S.
    - inversion Hk; subst. apply same_content_eq in S. auto.
    - pose proof Hk as Hk'.
      apply pre_save_fields in Hk' as (F1 & _ & _ & _ & _ & _ & F2 & _).
      split; [assumption|]. split; [assumption|]. right. split; [assumption|].
      intros C. rewrite C in S.
      assert (same_content (l_content l) (l_content l) = true)
        by now apply same_content_eq.
      congruence. }
  destruct K as (K1 & K2 & K3).
  unfold try_catchM, bind, save_changes, find_lesson, bind, throw, write_lesson,
    ret.
  rewrite K1, I1.
  destruct (find_id l_id (l_id l) (lessons w)) as [s|] eqn:Hs.
  - destruct (versioned l l2 && negb current) eqn:Hv.
    + unfold db_write. destruct (db_ok E (writes w)); inversion 1; subst; simpl;
        repeat split; auto.
    + unfold db_write. destruct (db_ok E (writes w)) eqn:Hd; inversion 1; subst;
        simpl; repeat split; auto.
      right. exists s, ld, l1.
      assert (Ls : l_id s = l_id l) by (eapply find_id_key; eassumption).
      rewrite Ls.
      split; [reflexivity|]. split; [reflexivity|]. split; [reflexivity|].
      split; [exact Ha|]. split; [exact V1|].
      split; [exact K3|]. split; [congruence|]. split; [reflexivity|].
      split; [|reflexivity].
      intros Hv'. rewrite Hv' in Hv. simpl in Hv.
      now destruct current.
  - unfold db_write. destruct (db_ok E (writes w)); inversion 1; subst; simpl;
      repeat split; auto.
Qed.

(** [enrich], the [try] of a request that runs alone, in terms of
    [enrich_when]. *)
Lemma enrich_as_when E l o w l' w' :
  enrich E l o w = (Ok l', w') <->
  exists b, enrich_when E true l o w = (Ok (l', b), w').
Proof.
  unfold enrich, bind, ret.
  destruct (enrich_when_answer l o) as (l0 & _ & _ & _ & _ & _ & _ & T).
  destruct (T E true w) as (b & w0 & ->). simpl. split.
  - inversion 1; subst. eauto.
  - intros (b' & H). inversion H; subst. reflexivity.
Qed.

Lemma enrich_total E l o w : exists l' w', enrich E l o w = (Ok l', w').
Proof.
  destruct (enrich_when_answer l o) as (l0 & _ & _ & _ & _ & _ & _ & T).
  destruct (T E true w) as (b & w0 & H).
  exists l0, w0. apply enrich_as_when. eauto.
Qed.

(** What [enrich] does to the world when the lesson it was given is the
    stored one: nothing, but for the count of the writes when the write
    was refused; or the write of the enriched lesson it returns, whose
    reading time the [pre('save')] hook has computed when the content is
    new. *)
Lemma enrich_cases E l o w l' w' :
  find_id l_id (l_id l) (lessons w) = Some l ->
  enrich E l o w = (Ok l', w') ->
  courses w' = courses w /\ modules w' = modules w /\ calls w' = calls w /\
  l_id l' = l_id l /\ l_module l' = l_module l /\ answers l o l' /\
  (lessons w' = lessons w \/
   (lessons w' = upsert l_id (l_id l) l' (lessons w) /\ l_isEnriched l' = true /\
    db_ok E (writes w) = true /\
    (l_content l' <> l_content l ->
     exists n, wordCount (l_content l') = Ok n /\
               l_readingTime l' = Some (readingTime_of n)))).
Proof.
  intros Hs H. apply enrich_as_when in H as (b & H).
  destruct (enrich_when_answer l o) as (l0 & A & A1 & A2 & A3 & A4 & A5 & T).
  destruct (T E true w) as (b0 & w0 & H0). rewrite H0 in H. inversion H; subst.
  apply enrich_when_cases in H0 as (C1 & C2 & C3 & C4 & [[C5 _]|C5]).
  - repeat split; auto.
  - destruct C5 as (s & ld & l1 & Hs' & C5 & _ & _ & V & K & En & _ & _ & D).
    rewrite Hs in Hs'. inversion Hs'; subst s.
    rewrite merged_loaded in C5 by assumption.
    repeat split; auto. right. repeat split; auto.
    intros N. destruct K as [[-> K]|[K _]]; [contradiction|].
    apply pre_save_fields in K as (_ & _ & Kc & _ & _ & _ & _ & _ & _ & n & Kn & Kr).
    exists n. rewrite Kc. auto.
Qed.








(** ** Reads that overlap, and reads one after the other *)




















(** ** Reading time *)

(** The enrichment commit recomputes the reading time: the lesson
    [getLesson] writes, when its content is not the content that was
    loaded, has the reading time of its new content. *)
Lemma getLesson_commit_recomputes_readingTime E l o w l' w' :
  find_id l_id (l_id l) (lessons w) = Some l ->
  enrich E l o w = (Ok l', w') -> lessons w' <> lessons w ->
  l_content l' <> l_content l ->
  exists n, wordCount (l_content l') = Ok n /\
            l_readingTime l' = Some (readingTime_of n).
Proof.
  intros Hf H Hw Hc.
  apply enrich_cases in H as (_ & _ & _ & _ & _ & _ & [C|(_ & _ & _ & C)]);
    [contradiction | now apply C | assumption].
Qed.

(** C8: the code at the failing input. [updateLesson] replaces the
    content of lesson 2 by one paragraph of 201 words, whose reading time
    is 2, and the stored lesson keeps the reading time 1 of the
    placeholder. *)
Example C8_updateLesson_leaves_readingTime_stale :
  exists resp w' l,
    updateLesson (answering []) (str "u1") 2 replace_content library
      = (Ok resp, w') /\
    find_id l_id 2 (lessons w') = Some l /\
    l_content l = [long_paragraph] /\
    wordCount (l_content l) = Ok 201 /\
    readingTime_of 201 = 2 /\
    l_readingTime l = Some 1.
Proof.
  eexists _, _, _. split; [vm_compute; reflexivity|].
  split; [vm_compute; reflexivity|]. repeat split; vm_compute; reflexivity.
Qed.

(* ===================================================================== *)
(** * More of the controllers, the models and the routes                  *)
(* ===================================================================== *)

(** ** What a handler keeps true of the stored lessons *)

Section Keeps.
Variable Q : list LessonDoc -> Prop.

Lemma keeps_ret A (a : A) : keeps Q (ret a).
Proof. intros w r w' H K. inversion K; subst. exact H. Qed.

Lemma keeps_lift A (x : Result A) : keeps Q (lift x).
Proof. intros w r w' H K. inversion K; subst. exact H. Qed.

Lemma keeps_bind A B (m : M A) (k : A -> M B) :
  keeps Q m ->
  (forall a w w1, Q (lessons w) -> m w = (Ok a, w1) -> keeps Q (k a)) ->
  keeps Q (bind m k).
Proof.
  intros Hm Hk w r w' H K.
  apply bind_cases in K as [(e & K & _)|(a & w1 & K1 & K2)].
  - exact (Hm _ _ _ H K).
  - exact (Hk _ _ _ H K1 _ _ _ (Hm _ _ _ H K1) K2).
Qed.

Lemma keeps_lift_bind A B (x : Result A) (k : A -> M B) :
  (forall a, x = Ok a -> keeps Q (k a)) -> keeps Q (bind (lift x) k).
Proof.
  intros Hk. apply keeps_bind; [apply keeps_lift|].
  intros a w w1 _ H. apply lift_cases in H as [H _]. apply Hk. now symmetry.
Qed.

Lemma keeps_try_catchM A (m : M A) (h : Error -> M A) :
  keeps Q m -> (forall e, keeps Q (h e)) -> keeps Q (try_catchM m h).
Proof.
  intros Hm Hh w r w' H K. unfold try_catchM in K.
  destruct (m w) as [[a|e] w1] eqn:Em.
  - inversion K; subst. eapply Hm; eauto.
  - eapply Hh; [|exact K]. eapply Hm; eauto.
Qed.

Lemma keeps_fresh_id : keeps Q fresh_id.
Proof. intros w r w' H K. inversion K; subst. exact H. Qed.

Lemma keeps_call_model E : keeps Q (call_model E).
Proof. intros w r w' H K. inversion K; subst. exact H. Qed.

Lemma keeps_db_write E f :
  (forall w, Q (lessons w) -> Q (lessons (f w))) -> keeps Q (db_write E f).
Proof.
  intros Hf w r w' H K.
  apply db_write_cases in K as [(_ & -> & _)|(_ & -> & _)]; [apply Hf|]; exact H.
Qed.

Lemma keeps_write_course E c : keeps Q (write_course E c).
Proof. apply keeps_db_write; auto. Qed.

Lemma keeps_write_module E m : keeps Q (write_module E m).
Proof. apply keeps_db_write; auto. Qed.

Lemma keeps_write_lesson E l :
  (forall ls, Q ls -> Q (upsert l_id (l_id l) l ls)) -> keeps Q (write_lesson E l).
Proof. intros H. apply keeps_db_write; auto. intros w. simpl. apply H. Qed.

Lemma keeps_load sub id : keeps Q (load sub id).
Proof. intros w r w' H K. apply load_world in K. now subst. Qed.

End Keeps.

Lemma Forall_upsert D (V : D -> Prop) (key : D -> nat) id d l :
  V d -> Forall V l -> Forall V (upsert key id d l).
Proof.
  intros Hd. induction 1 as [|x l Hx Hl IH]; simpl.
  - now constructor.
  - destruct (key x =? id); constructor; auto.
Qed.

Lemma find_id_In D (key : D -> nat) id l d :
  find_id key id l = Some d -> In d l.
Proof.
  induction l as [|x l IH]; simpl; [discriminate|].
  destruct (key x =? id); [inversion 1; now left | right; auto].
Qed.

Lemma find_id_upsert_other D (key : D -> nat) id d l :
  id <> key d -> find_id key id (upsert key (key d) d l) = find_id key id l.
Proof.
  intros N. induction l as [|x l IH]; simpl.
  - destruct (Nat.eqb_spec (key d) id); [congruence|reflexivity].
  - destruct (Nat.eqb_spec (key x) (key d)) as [e|e]; simpl.
    + destruct (Nat.eqb_spec (key d) id); [congruence|].
      destruct (Nat.eqb_spec (key x) id); [congruence|reflexivity].
    + destruct (Nat.eqb_spec (key x) id); [reflexivity|assumption].
Qed.

(** The lesson a handler has loaded is a stored one. *)
Lemma loaded_stored (V : LessonDoc -> Prop) sub id w l w1 :
  Forall V (lessons w) -> load sub id w = (Ok (inr l), w1) -> V l.
Proof.
  intros H K. pose proof (load_world _ _ _ K) as ->.
  apply load_readable in K as (K & _). apply find_id_In in K.
  rewrite Forall_forall in H. auto.
Qed.

Lemma readable_load sub id w l :
  readable sub id w l -> load sub id w = (Ok (inr l), w).
Proof. apply load_readable. Qed.

Lemma readable_stored sub id w l l' :
  readable sub id w l -> l_id l' = id -> l_module l' = l_module l ->
  readable sub id (stored l' w) l'.
Proof.
  intros (F & m & c & Hm & Hc & Hs) I M. split.
  - simpl. rewrite <- I. apply find_id_upsert.
  - exists m, c. simpl. rewrite M. auto.
Qed.

Lemma load_denied sub id w l m c :
  find_id l_id id (lessons w) = Some l ->
  find_id m_id (l_module l) (modules w) = Some m ->
  find_id c_id (m_course m) (courses w) = Some c ->
  c_creator c <> sub ->
  load sub id w = (Ok (inl (refuse 403 "Access denied")), w).
Proof.
  intros Hl Hm Hc Hs.
  unfold load, bind, find_lesson, find_module, find_course, ret.
  rewrite Hl, Hm, Hc.
  destruct (jstring_eqb (c_creator c) sub) eqn:Eq; [|reflexivity].
  apply jstring_eqb_eq in Eq. contradiction.
Qed.

(** ** Who may touch a lesson *)

(** X1. A user who is not the creator of the course a lesson belongs to
    is refused by every lesson handler - reading, updating, deleting a
    block, adding a block, analytics - with 403 'Access denied', and the
    handler leaves the world as it was: no model call, no write. *)
Theorem X1_strangers_are_refused E sub id w l m c :
  find_id l_id id (lessons w) = Some l ->
  find_id m_id (l_module l) (modules w) = Some m ->
  find_id c_id (m_course m) (courses w) = Some c ->
  c_creator c <> sub ->
  getLesson E sub id w = (Ok (refuse 403 "Access denied"), w) /\
  (forall body,
     updateLesson E sub id body w = (Ok (refuse 403 "Access denied"), w)) /\
  (forall index,
     deleteContentBlock E sub id index w
     = (Ok (refuse 403 "Access denied"), w)) /\
  (forall block position,
     LessonController.addContentBlock E sub id block position w
     = (Ok (refuse 403 "Access denied"), w)) /\
  getLessonAnalytics sub id w = (Ok (refuse 403 "Access denied"), w).
Proof.
  intros Hl Hm Hc Hs. pose proof (load_denied _ _ Hl Hm Hc Hs) as L.
  repeat split; intros;
    unfold getLesson, getLesson_begin, updateLesson, deleteContentBlock,
      LessonController.addContentBlock, getLessonAnalytics, bind;
    rewrite L; reflexivity.
Qed.

Lemma X1_strangers_are_refused_witness :
  getLesson rate_limited (str "u2") 2 library
  = (Ok (refuse 403 "Access denied"), library).
Proof.
  assert (H : exists l m c,
            find_id l_id 2 (lessons library) = Some l /\
            find_id m_id (l_module l) (modules library) = Some m /\
            find_id c_id (m_course m) (courses library) = Some c /\
            c_creator c <> str "u2").
  { eexists _, _, _.
    split; [vm_compute; reflexivity|]. split; [vm_compute; reflexivity|].
    split; [vm_compute; reflexivity|]. vm_compute. discriminate. }
  destruct H as (l & m & c & Hl & Hm & Hc & Hs).
  exact (proj1 (@X1_strangers_are_refused rate_limited _ _ _ _ _ _ Hl Hm Hc Hs)).
Defined.

(** ** Saving a lesson *)

Lemma readingTime_of_pos n : readingTime_of n <> 0.
Proof. unfold readingTime_of. lia. Qed.

(** What the validation of a lesson amounts to, path by path. *)
Lemma validateLesson_iff l :
  validateLesson l = Ok tt <->
  l_title l <> [] /\ (List.length (l_title l) <=? 200) = true /\
  l_content l <> [] /\
  each_maxlength (str "objectives") 200 (l_objectives l) = Ok tt /\
  in_range (str "order") 0 None (l_order l) = Ok tt /\
  in_range_opt (str "estimatedMinutes") 1 (Some 240%Q) (l_estimatedMinutes l)
    = Ok tt /\
  each_maxlength (str "tags") 30 (l_tags l) = Ok tt /\
  l_readingTime l <> Some 0.
Proof.
  unfold validateLesson, required, maxlength, content_ok.
  destruct (l_title l) as [|c t]; cbn [rbind]; [intuition congruence|].
  destruct (List.length (c :: t) <=? 200); cbn [rbind]; [|intuition congruence].
  destruct (l_content l) as [|b bs]; cbn [rbind]; [intuition congruence|].
  destruct (each_maxlength (str "objectives") 200 (l_objectives l)) as [[]|];
    cbn [rbind]; [|intuition congruence].
  destruct (in_range (str "order") 0 None (l_order l)) as [[]|];
    cbn [rbind]; [|intuition congruence].
  destruct (in_range_opt (str "estimatedMinutes") 1 (Some 240%Q)
              (l_estimatedMinutes l)) as [[]|]; cbn [rbind]; [|intuition congruence].
  destruct (each_maxlength (str "tags") 30 (l_tags l)) as [[]|];
    cbn [rbind]; [|intuition congruence].
  destruct (l_readingTime l) as [[|n]|]; intuition congruence.
Qed.

Lemma pre_save_valid l l' :
  pre_save l = Ok l' ->
  l_title l <> [] -> (List.length (l_title l) <=? 200) = true ->
  l_content l <> [] ->
  each_maxlength (str "objectives") 200 (l_objectives l) = Ok tt ->
  in_range (str "order") 0 None (l_order l) = Ok tt ->
  in_range_opt (str "estimatedMinutes") 1 (Some 240%Q) (l_estimatedMinutes l)
    = Ok tt ->
  each_maxlength (str "tags") 30 (l_tags l) = Ok tt ->
  valid_lesson l'.
Proof.
  intros H V1 V2 V3 V4 V5 V6 V7.
  apply pre_save_fields in H
    as (_ & F1 & F2 & F3 & _ & F4 & _ & F5 & F6 & n & _ & F7).
  apply validateLesson_iff. rewrite F1, F2, F3, F4, F5, F6, F7.
  repeat split; auto. intros R. inversion R as [R']. now apply readingTime_of_pos in R'.
Qed.

Lemma timed_valid l n : validateLesson l = Ok tt -> valid_lesson (timed l n).
Proof.
  intros V. apply validateLesson_iff in V as (V1 & V2 & V3 & V4 & V5 & V6 & V7 & V8).
  apply validateLesson_iff. simpl. repeat split; auto.
  intros R. inversion R as [R']. now apply readingTime_of_pos in R'.
Qed.

Lemma set_content_valid l c :
  valid_lesson l -> c <> [] -> validateLesson (set_content l c) = Ok tt.
Proof.
  intros V C. apply validateLesson_iff in V as (V1 & V2 & V3 & V4 & V5 & V6 & V7 & V8).
  apply validateLesson_iff. simpl. repeat split; auto.
Qed.

(** A save that goes through. *)
Lemma Lesson_save_ok E l n w :
  validateLesson l = Ok tt -> wordCount (l_content l) = Ok n ->
  db_ok E (writes w) = true ->
  Lesson_save E l w = (Ok (timed l n), stored (timed l n) w).
Proof.
  intros V W D. unfold Lesson_save, bind, lift, pre_save.
  rewrite V, W. simpl. unfold write_lesson, db_write. rewrite D. reflexivity.
Qed.

Lemma wordCount_app a : forall b,
  wordCount (a ++ b)
  = rbind (wordCount a) (fun x => rbind (wordCount b) (fun y => Ok (x + y))).
Proof.
  induction a as [|h a IH]; intros b; simpl.
  - destruct (wordCount b); reflexivity.
  - destruct (block_words h) as [n|e]; simpl; [|reflexivity].
    rewrite IH. destruct (wordCount a) as [x|e]; simpl; [|reflexivity].
    destruct (wordCount b) as [y|e]; simpl; [|reflexivity].
    f_equal. lia.
Qed.

Lemma wordCount_without pre b post n :
  wordCount (pre ++ b :: post) = Ok n ->
  exists m k, wordCount (pre ++ post) = Ok m /\ block_words b = Ok k /\ n = m + k.
Proof.
  rewrite !wordCount_app. simpl.
  destruct (wordCount pre) as [x|]; simpl; [|discriminate].
  destruct (block_words b) as [k|]; simpl; [|discriminate].
  destruct (wordCount post) as [y|]; simpl; [|discriminate].
  inversion 1. exists (x + y), k. repeat split. lia.
Qed.

(** ** Arrays *)

Lemma splice_start_nat k len :
  k <= len -> splice_start (Z.of_nat k) len = k.
Proof.
  intros H. unfold splice_start.
  destruct (Z.ltb_spec (Z.of_nat k) 0); [lia|].
  rewrite Nat2Z.id. lia.
Qed.

Lemma firstn_length_app A (a b : list A) : firstn (List.length a) (a ++ b) = a.
Proof. rewrite firstn_app, Nat.sub_diag, firstn_all. simpl. apply app_nil_r. Qed.

Lemma skipn_length_app_any A (a b : list A) : skipn (List.length a) (a ++ b) = b.
Proof. rewrite skipn_app, Nat.sub_diag, skipn_all. reflexivity. Qed.

Lemma splice_out_middle A (pre : list A) b post :
  splice_out (Z.of_nat (List.length pre)) (pre ++ b :: post) = pre ++ post.
Proof.
  unfold splice_out. rewrite splice_start_nat by (rewrite length_app; simpl; lia).
  rewrite firstn_length_app. f_equal.
  change (S (List.length pre)) with (1 + List.length pre).
  rewrite <- skipn_skipn. now rewrite skipn_length_app_any.
Qed.

Lemma splice_in_middle A (pre : list A) b post :
  splice_in (Z.of_nat (List.length pre)) b (pre ++ post) = pre ++ b :: post.
Proof.
  unfold splice_in. rewrite splice_start_nat by (rewrite length_app; lia).
  now rewrite firstn_length_app, skipn_length_app_any.
Qed.

Lemma Forall_firstn_skipn A (P : A -> Prop) k (a : list A) :
  Forall P a -> Forall P (firstn k a) /\ Forall P (skipn k a).
Proof. intros H. apply Forall_app. now rewrite firstn_skipn. Qed.

Lemma Forall_splice_out A (P : A -> Prop) start (a : list A) :
  Forall P a -> Forall P (splice_out start a).
Proof.
  intros H. unfold splice_out. apply Forall_app. split.
  - now apply Forall_firstn_skipn.
  - now apply Forall_firstn_skipn.
Qed.

Lemma Forall_splice_in A (P : A -> Prop) start x (a : list A) :
  P x -> Forall P a -> Forall P (splice_in start x a).
Proof.
  intros Hx H. unfold splice_in. apply Forall_app. split.
  - now apply Forall_firstn_skipn.
  - constructor; [assumption | now apply Forall_firstn_skipn].
Qed.

Lemma Qle_bool_inject a b : Qle_bool (inject_Z a) (inject_Z b) = (a <=? b)%Z.
Proof. unfold Qle_bool, inject_Z. simpl. now rewrite !Z.mul_1_r. Qed.

Lemma Qle_bool_0_inject k : Qle_bool 0 (inject_Z k) = (0 <=? k)%Z.
Proof. exact (Qle_bool_inject 0 k). Qed.

Lemma toInteger_inject z : toInteger (inject_Z z) = z.
Proof. unfold toInteger, inject_Z. simpl. apply Z.quot_1_r. Qed.

(** ** The blocks of a lesson *)

(** A block of one of the seven kinds passes the checks of
    [addContentBlock]. *)
Lemma recognized_passes block :
  recognized block ->
  truthy (Some block) = true /\
  exists ty, get (Some block) (str "type") = Ok ty /\
             truthy ty = true /\ includes ty = true.
Proof.
  intros (kind & G & K). split.
  - destruct block; try reflexivity; unfold get in G; discriminate.
  - exists (Some (JStr kind)). split; [assumption|]. split.
    + destruct kind; [|reflexivity]. simpl in K.
      repeat (destruct K as [K|K]; [discriminate|]). contradiction.
    + unfold includes. apply existsb_exists. exists kind.
      split; [assumption | now apply jstring_eqb_eq].
Qed.

Lemma delete_at E sub id index w lesson pre b post n :
  readable sub id w lesson -> valid_lesson lesson ->
  l_content lesson = pre ++ b :: post -> pre ++ post <> [] ->
  parseInt index = Some (Z.of_nat (List.length pre)) ->
  wordCount (pre ++ post) = Ok n ->
  db_ok E (writes w) = true ->
  let saved := timed (set_content lesson (pre ++ post)) n in
  deleteContentBlock E sub id index w = (Ok (respond 200 saved), stored saved w).
Proof.
  intros R V C N P W D saved.
  unfold deleteContentBlock, bind. rewrite (readable_load R), P, C.
  rewrite length_app. simpl.
  destruct (Z.ltb_spec (Z.of_nat (List.length pre)) 0); [lia|].
  destruct (Z.leb_spec (Z.of_nat (List.length pre + S (List.length post)))
              (Z.of_nat (List.length pre))); [lia|].
  simpl. rewrite splice_out_middle.
  rewrite (@Lesson_save_ok E _ n); auto.
  apply set_content_valid; assumption.
Qed.

Lemma insert_at E sub id w lesson block pre post position n :
  readable sub id w lesson -> valid_lesson lesson -> recognized block ->
  l_content lesson = pre ++ post ->
  position = Some (inject_Z (Z.of_nat (List.length pre))) \/
  (post = [] /\ (position = None \/ position = Some (-1)%Q)) ->
  wordCount (pre ++ block :: post) = Ok n ->
  db_ok E (writes w) = true ->
  let saved := timed (set_content lesson (pre ++ block :: post)) n in
  LessonController.addContentBlock E sub id (Some block) position w
  = (Ok (respond 200 saved), stored saved w).
Proof.
  intros R V B C P W D saved.
  destruct (recognized_passes B) as (T & ty & G & Tk & Ik).
  unfold LessonController.addContentBlock, bind. rewrite (readable_load R).
  rewrite T. cbn [negb]. cbv beta iota. unfold lift at 1. rewrite G.
  rewrite Tk, Ik.
  assert (Hc : (if Qeq_bool match position with Some q => q | None => (-1)%Q end (-1)
                   || Qle_bool (inject_Z (Z.of_nat (List.length (l_content lesson))))
                        match position with Some q => q | None => (-1)%Q end
                then l_content lesson ++ [block]
                else splice_in (toInteger match position with Some q => q | None => (-1)%Q end)
                       block (l_content lesson))
               = pre ++ block :: post).
  { rewrite C. destruct P as [->|(-> & [->| ->])].
    - assert (Hq : Qeq_bool (inject_Z (Z.of_nat (List.length pre))) (-1) = false).
      { unfold Qeq_bool, inject_Z. simpl. apply Z.eqb_neq. lia. }
      rewrite Hq, Qle_bool_inject, toInteger_inject. cbn [orb].
      destruct (Z.leb_spec (Z.of_nat (List.length (pre ++ post)))
                  (Z.of_nat (List.length pre))) as [Hle|Hle].
      + rewrite length_app in Hle.
        assert (Hp : List.length post = 0) by lia.
        destruct post; [|discriminate]. now rewrite app_nil_r.
      + apply splice_in_middle.
    - simpl. now rewrite app_nil_r.
    - simpl. now rewrite app_nil_r. }
  rewrite Hc. cbn [negb]. cbv beta iota. rewrite (@Lesson_save_ok E _ n); auto.
  apply set_content_valid; [assumption|]. destruct pre; discriminate.
Qed.

(** What a write of lesson [id] leaves of the store. *)
Lemma stored_lessons l w id :
  l_id l = id ->
  find_id l_id id (lessons (stored l w)) = Some l /\
  forall id', id' <> id ->
    find_id l_id id' (lessons (stored l w)) = find_id l_id id' (lessons w).
Proof.
  intros I. split.
  - simpl. rewrite <- I. apply find_id_upsert.
  - intros id' Hid. simpl. apply find_id_upsert_other. congruence.
Qed.

Lemma readable_id sub id w l : readable sub id w l -> l_id l = id.
Proof. intros (F & _). eapply find_id_key; exact F. Qed.

(** X2. [deleteContentBlock] with an index inside the content removes
    that block and no other: when the lesson is valid, another block
    remains and the write is taken, it answers 200 with the lesson whose
    content is the old content without the block at [index] and whose
    reading time is that of the new content; this lesson is the stored
    one, and every other lesson is as before. *)
Theorem X2_deleteContentBlock_removes_the_block
    E sub id index w lesson pre b post n :
  readable sub id w lesson -> valid_lesson lesson ->
  l_content lesson = pre ++ b :: post -> pre ++ post <> [] ->
  parseInt index = Some (Z.of_nat (List.length pre)) ->
  wordCount (pre ++ post) = Ok n ->
  db_ok E (writes w) = true ->
  let saved := timed (set_content lesson (pre ++ post)) n in
  deleteContentBlock E sub id index w = (Ok (respond 200 saved), stored saved w) /\
  find_id l_id id (lessons (stored saved w)) = Some saved /\
  forall id', id' <> id ->
    find_id l_id id' (lessons (stored saved w)) = find_id l_id id' (lessons w).
Proof.
  intros R V C N P W D saved. split.
  - now apply delete_at with b.
  - apply stored_lessons. apply (readable_id R).
Qed.

Lemma X2_deleteContentBlock_removes_the_block_witness :
  exists saved w',
    deleteContentBlock three_blocks (str "u1") 2 (str "1") studied
    = (Ok (respond 200 saved), w') /\
    l_content saved = [heading_block; quiz_block].
Proof.
  assert (H : exists lesson n,
            readable (str "u1") 2 studied lesson /\ valid_lesson lesson /\
            l_content lesson = [heading_block] ++ paragraph_block :: [quiz_block] /\
            wordCount ([heading_block] ++ [quiz_block]) = Ok n).
  { eexists _, _.
    split; [split; [vm_compute; reflexivity
                   |eexists _, _; repeat split; vm_compute; reflexivity]|].
    split; [vm_compute; reflexivity|]. split; vm_compute; reflexivity. }
  destruct H as (lesson & n & R & V & C & W).
  assert (N : [heading_block] ++ [quiz_block] <> []) by discriminate.
  destruct (@X2_deleteContentBlock_removes_the_block three_blocks _ _ (str "1")
              _ _ _ _ _ _ R V C N eq_refl W eq_refl) as (D & _ & _).
  eexists _, _. split; [exact D | reflexivity].
Defined.

(** X3. [deleteContentBlock] refuses an index outside the content -
    negative, or the length of the content or more - with 400 'Invalid
    content block index', and changes nothing. *)
Theorem X3_deleteContentBlock_checks_bounds E sub id index k w lesson :
  readable sub id w lesson ->
  parseInt index = Some k ->
  (k < 0 \/ Z.of_nat (List.length (l_content lesson)) <= k)%Z ->
  deleteContentBlock E sub id index w
  = (Ok (refuse 400 "Invalid content block index"), w).
Proof.
  intros R P B. unfold deleteContentBlock, bind. rewrite (readable_load R), P.
  destruct (Z.ltb_spec k 0); [reflexivity|].
  destruct (Z.leb_spec (Z.of_nat (List.length (l_content lesson))) k); [reflexivity|lia].
Qed.

Lemma X3_deleteContentBlock_checks_bounds_witness :
  deleteContentBlock three_blocks (str "u1") 2 (str "3") studied
  = (Ok (refuse 400 "Invalid content block index"), studied).
Proof.
  assert (H : exists lesson,
            readable (str "u1") 2 studied lesson /\
            (3 < 0 \/ Z.of_nat (List.length (l_content lesson)) <= 3)%Z).
  { eexists.
    split; [split; [vm_compute; reflexivity
                   |eexists _, _; repeat split; vm_compute; reflexivity]|].
    right. vm_compute. discriminate. }
  destruct H as (lesson & R & B).
  exact (@X3_deleteContentBlock_checks_bounds three_blocks _ _ (str "3") 3 _ _
           R eq_refl B).
Defined.

(** X4. The only block of a lesson cannot be deleted: the save fails the
    validation of [content] ('Lesson must have at least one content
    block'), the handler throws, and nothing is written. *)
Theorem X4_last_block_cannot_be_deleted E sub id index w lesson b :
  readable sub id w lesson -> valid_lesson lesson ->
  l_content lesson = [b] -> parseInt index = Some 0%Z ->
  deleteContentBlock E sub id index w
  = (Throw (ValidationError (str "content")), w).
Proof.
  intros R V C P. unfold deleteContentBlock, bind. rewrite (readable_load R), P, C.
  apply validateLesson_iff in V as (V1 & V2 & V3 & V4 & V5 & V6 & V7 & V8).
  cbn [Z.ltb Z.compare Z.leb Z.of_nat List.length orb].
  change (splice_out 0 [b]) with (@nil JValue).
  unfold Lesson_save, bind, lift, validateLesson, required, maxlength, content_ok.
  cbn [set_content l_title l_content].
  destruct (l_title lesson) as [|c t]; [contradiction|]. cbn [rbind].
  rewrite V2. reflexivity.
Qed.

Lemma X4_last_block_cannot_be_deleted_witness :
  deleteContentBlock rate_limited (str "u1") 2 (str "0") library
  = (Throw (ValidationError (str "content")), library).
Proof.
  assert (H : exists lesson,
            readable (str "u1") 2 library lesson /\ valid_lesson lesson /\
            l_content lesson = [CourseController.placeholder]).
  { eexists.
    split; [split; [vm_compute; reflexivity
                   |eexists _, _; repeat split; vm_compute; reflexivity]|].
    split; vm_compute; reflexivity. }
  destruct H as (lesson & R & V & C).
  exact (@X4_last_block_cannot_be_deleted rate_limited _ _ (str "0") _ _ _
           R V C eq_refl).
Defined.

(** X5. [addContentBlock] puts a block of one of the seven kinds at the
    position asked for: before the block that was at index [position],
    or at the end when [position] is the length of the content, -1 or
    absent. When the lesson is valid and the write is taken it answers
    200 with the lesson that has the new content and the reading time of
    the new content; this lesson is the stored one, and every other
    lesson is as before. *)
Theorem X5_addContentBlock_inserts_the_block
    E sub id w lesson block pre post position n :
  readable sub id w lesson -> valid_lesson lesson -> recognized block ->
  l_content lesson = pre ++ post ->
  position = Some (inject_Z (Z.of_nat (List.length pre))) \/
  (post = [] /\ (position = None \/ position = Some (-1)%Q)) ->
  wordCount (pre ++ block :: post) = Ok n ->
  db_ok E (writes w) = true ->
  let saved := timed (set_content lesson (pre ++ block :: post)) n in
  LessonController.addContentBlock E sub id (Some block) position w
  = (Ok (respond 200 saved), stored saved w) /\
  find_id l_id id (lessons (stored saved w)) = Some saved /\
  forall id', id' <> id ->
    find_id l_id id' (lessons (stored saved w)) = find_id l_id id' (lessons w).
Proof.
  intros R V B C P W D saved. split.
  - now apply insert_at.
  - apply stored_lessons. apply (readable_id R).
Qed.

Lemma X5_addContentBlock_inserts_the_block_witness :
  exists saved w',
    LessonController.addContentBlock three_blocks (str "u1") 2 (Some code_block)
      (Some 1%Q) studied
    = (Ok (respond 200 saved), w') /\
    l_content saved = [heading_block; code_block; paragraph_block; quiz_block].
Proof.
  assert (H : exists lesson n,
            readable (str "u1") 2 studied lesson /\ valid_lesson lesson /\
            l_content lesson = [heading_block] ++ [paragraph_block; quiz_block] /\
            wordCount ([heading_block] ++ code_block :: [paragraph_block; quiz_block])
            = Ok n).
  { eexists _, _.
    split; [split; [vm_compute; reflexivity
                   |eexists _, _; repeat split; vm_compute; reflexivity]|].
    split; [vm_compute; reflexivity|]. split; vm_compute; reflexivity. }
  destruct H as (lesson & n & R & V & C & W).
  assert (B : recognized code_block).
  { exists (str "code"). split; [reflexivity|]. vm_compute. tauto. }
  destruct (@X5_addContentBlock_inserts_the_block three_blocks _ _ _ _ _ _ _
              (Some 1%Q) _ R V B C (or_introl eq_refl) W eq_refl) as (D & _ & _).
  eexists _, _. split; [exact D | reflexivity].
Defined.

(** X6. Adding a block at an index and then deleting the block at that
    index gives the lesson its content back: both requests answer 200,
    and the lesson stored in the end is the first one with the reading
    time of its content. *)
Theorem X6_add_then_delete_restores_the_content
    E sub id index w lesson block pre post n :
  readable sub id w lesson -> valid_lesson lesson -> recognized block ->
  l_content lesson = pre ++ post ->
  parseInt index = Some (Z.of_nat (List.length pre)) ->
  wordCount (pre ++ block :: post) = Ok n ->
  db_ok E (writes w) = true -> db_ok E (S (writes w)) = true ->
  exists added w1 m,
    LessonController.addContentBlock E sub id (Some block)
      (Some (inject_Z (Z.of_nat (List.length pre)))) w
    = (Ok (respond 200 added), w1) /\
    l_content added = pre ++ block :: post /\
    wordCount (l_content lesson) = Ok m /\
    deleteContentBlock E sub id index w1
    = (Ok (respond 200 (timed lesson m)), stored (timed lesson m) w1).
Proof.
  intros R V B C P W D1 D2.
  assert (Hne : pre ++ post <> []).
  { apply validateLesson_iff in V as (_ & _ & V & _). now rewrite <- C. }
  pose proof (@insert_at E sub id w lesson block pre post _ n R V B C
                (or_introl eq_refl) W D1) as A.
  destruct (wordCount_without _ _ _ W) as (m & k & Wm & _ & _).
  set (added := timed (set_content lesson (pre ++ block :: post)) n) in *.
  exists added, (stored added w), m.
  split; [exact A|]. split; [reflexivity|]. split; [now rewrite C|].
  assert (R1 : readable sub id (stored added w) added).
  { apply readable_stored with lesson; [assumption| |reflexivity].
    apply (readable_id R). }
  assert (V1 : valid_lesson added).
  { apply timed_valid. apply set_content_valid; [assumption|]. destruct pre; discriminate. }
  pose proof (@delete_at E sub id index (stored added w) added
                pre block post m R1 V1 eq_refl Hne P Wm D2) as Dl.
  replace (timed lesson m) with (timed (set_content added (pre ++ post)) m).
  - exact Dl.
  - unfold timed, set_content, added. simpl. rewrite <- C. reflexivity.
Qed.

Lemma X6_add_then_delete_restores_the_content_witness :
  exists added w1 restored w2,
    LessonController.addContentBlock three_blocks (str "u1") 2 (Some code_block)
      (Some 1%Q) studied
    = (Ok (respond 200 added), w1) /\
    deleteContentBlock three_blocks (str "u1") 2 (str "1") w1
    = (Ok (respond 200 restored), w2) /\
    l_content restored = [heading_block; paragraph_block; quiz_block].
Proof.
  assert (H : exists lesson n,
            readable (str "u1") 2 studied lesson /\ valid_lesson lesson /\
            l_content lesson = [heading_block] ++ [paragraph_block; quiz_block] /\
            wordCount ([heading_block] ++ code_block :: [paragraph_block; quiz_block])
            = Ok n).
  { eexists _, _.
    split; [split; [vm_compute; reflexivity
                   |eexists _, _; repeat split; vm_compute; reflexivity]|].
    split; [vm_compute; reflexivity|]. split; vm_compute; reflexivity. }
  destruct H as (lesson & n & R & V & C & W).
  assert (B : recognized code_block).
  { exists (str "code"). split; [reflexivity|]. vm_compute. tauto. }
  destruct (@X6_add_then_delete_restores_the_content three_blocks _ _ (str "1")
              _ _ _ _ _ _ R V B C eq_refl W eq_refl eq_refl)
    as (added & w1 & m & A & _ & _ & D).
  exists added, w1, (timed lesson m), (stored (timed lesson m) w1).
  split; [exact A|]. split; [exact D|]. exact C.
Defined.

(** X7. The handlers and the instance methods of the Lesson model do the
    same to a lesson. For a block of one of the seven kinds,
    [addContentBlock] of the controller stores and answers what
    [lesson.addContentBlock(block, position)] gives; for an index that
    [parseInt] reads as a number, [deleteContentBlock] stores and answers
    what [lesson.removeContentBlock(index)] gives, and answers 400 where
    the method throws 'Invalid content block index'. *)
Theorem X7_controller_and_model_agree_on_blocks E sub id w lesson :
  readable sub id w lesson ->
  (forall block position, recognized block ->
     LessonController.addContentBlock E sub id (Some block) position w
     = let (r, w') := Models.addContentBlock E lesson block position w in
       (rbind r (fun l => Ok (respond 200 l)), w')) /\
  (forall index k, parseInt index = Some k ->
     deleteContentBlock E sub id index w
     = let (r, w') := Models.removeContentBlock E lesson (inject_Z k) w in
       (rbind r (fun x =>
          Ok match x with
             | Removed l => respond 200 l
             | InvalidBlockIndex => refuse 400 "Invalid content block index"
             end), w')).
Proof.
  intros R. split.
  - intros block position B.
    destruct (recognized_passes B) as (T & ty & G & Tk & Ik).
    unfold LessonController.addContentBlock, Models.addContentBlock, bind.
    rewrite (readable_load R), T. cbn [negb]. cbv beta iota. unfold lift at 1.
    rewrite G, Tk, Ik. cbn [negb]. cbv beta iota.
    destruct (Lesson_save E _ w) as [[l|e] w']; reflexivity.
  - intros index k P.
    unfold deleteContentBlock, Models.removeContentBlock, bind.
    rewrite (readable_load R), P.
    rewrite Qle_bool_0_inject, Qle_bool_inject, toInteger_inject.
    destruct (Z.ltb_spec k 0); destruct (Z.leb_spec 0 k); try lia; cbn [orb andb].
    + reflexivity.
    + destruct (Z.leb_spec (Z.of_nat (List.length (l_content lesson))) k);
        cbn [negb]; [reflexivity|].
      destruct (Lesson_save E _ w) as [[l|e] w']; reflexivity.
Qed.

Lemma X7_controller_and_model_agree_on_blocks_witness :
  exists lesson,
    find_id l_id 2 (lessons studied) = Some lesson /\
    deleteContentBlock three_blocks (str "u1") 2 (str "1") studied
    = let (r, w') :=
        Models.removeContentBlock three_blocks lesson (inject_Z 1) studied in
      (rbind r (fun x =>
         Ok match x with
            | Removed l => respond 200 l
            | InvalidBlockIndex => refuse 400 "Invalid content block index"
            end), w').
Proof.
  assert (H : exists lesson, readable (str "u1") 2 studied lesson).
  { eexists. split; [vm_compute; reflexivity
                    |eexists _, _; repeat split; vm_compute; reflexivity]. }
  destruct H as (lesson & R).
  exists lesson. split; [apply R|].
  exact (proj2 (@X7_controller_and_model_agree_on_blocks three_blocks _ _ _ _ R)
           (str "1") 1%Z eq_refl).
Defined.

(** ** Analytics *)

















(** ** What the handlers keep true of every stored lesson *)

Lemma required_ok path v t : required path v = Ok t -> t <> [].
Proof. unfold required. destruct v as [[|c s]|]; inversion 1. discriminate. Qed.

Lemma maxlength_ok path n s :
  maxlength path n s = Ok tt -> (List.length s <=? n) = true.
Proof. unfold maxlength. destruct (List.length s <=? n); [reflexivity|discriminate]. Qed.

Lemma content_ok_ok c : content_ok c = Ok tt -> c <> [].
Proof. destruct c; discriminate. Qed.

Lemma Lesson_new_valid id t c m o b fresh lesson :
  Lesson_new id t c m o b = Ok fresh -> pre_save fresh = Ok lesson ->
  valid_lesson lesson.
Proof.
  unfold Lesson_new. intros H P. rinv H. inversion H; subst fresh; clear H.
  eapply pre_save_valid; [exact P|..]; simpl; auto.
  - eapply required_ok; eassumption.
  - destruct a2. eapply maxlength_ok; eassumption.
  - destruct a3. eapply content_ok_ok; eassumption.
  - destruct a0 as [q|]; [|discriminate]. rinv Ha4. inversion Ha4; subst. now destruct a0.
Qed.

Lemma findByIdAndUpdate_valid l b l' :
  valid_lesson l -> findByIdAndUpdate l b = Ok l' -> valid_lesson l'.
Proof.
  intros V H. apply validateLesson_iff in V as (V1 & V2 & V3 & V4 & V5 & V6 & V7 & V8).
  unfold findByIdAndUpdate in H.
  apply rbind_ok in H as (title & Ht & H).
  apply rbind_ok in H as (content & Hc & H).
  apply rbind_ok in H as (objectives & Ho & H).
  apply rbind_ok in H as (minutes & Hm & H).
  apply rbind_ok in H as (tags & Hg & H).
  inversion H; subst l'; clear H. apply validateLesson_iff. simpl.
  assert (T : title <> [] /\ (List.length title <=? 200) = true).
  { destruct (truthy (b_title b)); [|inversion Ht; subst; auto].
    rinv Ht. inversion Ht; subst. split.
    - eapply required_ok; eassumption.
    - destruct a1. eapply maxlength_ok; eassumption. }
  assert (C : content <> []).
  { destruct (truthy (b_content b)); [|inversion Hc; subst; auto].
    rinv Hc. inversion Hc; subst. destruct a0. eapply content_ok_ok; eassumption. }
  assert (O : each_maxlength (str "objectives") 200 objectives = Ok tt).
  { destruct (truthy (b_objectives b)); [|inversion Ho; subst; auto].
    rinv Ho. inversion Ho; subst. now destruct a0. }
  assert (M : in_range_opt (str "estimatedMinutes") 1 (Some 240%Q) minutes = Ok tt).
  { destruct (truthy (b_estimatedMinutes b)); [|inversion Hm; subst; auto].
    rinv Hm. inversion Hm; subst. now destruct a0. }
  assert (G : each_maxlength (str "tags") 30 tags = Ok tt).
  { destruct (truthy (b_tags b)); [|inversion Hg; subst; auto].
    rinv Hg. inversion Hg; subst. now destruct a0. }
  destruct T. repeat split; auto.
Qed.

(** The paths of a valid lesson and of another one make a valid lesson. *)
Lemma merged_valid l l' s :
  valid_lesson s -> valid_lesson l' -> valid_lesson (merged l l' s).
Proof.
  intros Vs Vl.
  apply validateLesson_iff in Vs as (S1 & S2 & S3 & S4 & S5 & S6 & S7 & S8).
  apply validateLesson_iff in Vl as (L1 & L2 & L3 & L4 & L5 & L6 & L7 & L8).
  apply validateLesson_iff. unfold merged. simpl.
  repeat split; auto;
    match goal with |- context [if ?c then _ else _] => destruct c end; auto.
Qed.

(** What [enrich] writes, if it writes: the paths it modified, taken
    from a lesson that passed validation, on the lesson that is stored. *)
Lemma enrich_stores E l o w r w' :
  enrich E l o w = (r, w') ->
  lessons w' = lessons w \/
  exists s l' ld l1,
    find_id l_id (l_id l) (lessons w) = Some s /\
    lessons w' = upsert l_id (l_id l) (merged l l' s) (lessons w) /\
    lesson_of o = Ok ld /\ assign l ld = Ok (l1, Ok tt) /\
    validateLesson l1 = Ok tt /\ l_content l' = l_content l1 /\
    (l' = l1 \/ pre_save l1 = Ok l').
Proof.
  intros H. destruct (enrich_total E l o w) as (l' & w1 & H1).
  rewrite H1 in H. inversion H; subst r w1; clear H.
  apply enrich_as_when in H1 as (b & H1).
  apply enrich_when_cases in H1 as (_ & _ & _ & _ & [[C _]|C]); [now left|right].
  destruct C as (s & ld & l1 & F & C & L & A & V & K & _).
  exists s, l', ld, l1. repeat (split; [assumption|]).
  destruct K as [[-> _]|[K _]]; [split; [reflexivity|now left]|].
  split; [|now right].
  now apply pre_save_fields in K as (_ & _ & K & _).
Qed.




Lemma Lesson_save_keeps E l : keeps (Forall valid_lesson) (Lesson_save E l).
Proof.
  unfold Lesson_save. apply keeps_lift_bind. intros [] V.
  apply keeps_lift_bind. intros l' P.
  apply keeps_bind; [|intros; apply keeps_ret].
  apply keeps_write_lesson. intros ls. apply Forall_upsert.
  apply validateLesson_iff in V as (V1 & V2 & V3 & V4 & V5 & V6 & V7 & _).
  eapply pre_save_valid; eassumption.
Qed.

Lemma Lesson_save_recognized E l :
  recognized_lesson l -> keeps (Forall recognized_lesson) (Lesson_save E l).
Proof.
  intros R. unfold Lesson_save. apply keeps_lift_bind. intros [] _.
  apply keeps_lift_bind. intros l' P.
  apply keeps_bind; [|intros; apply keeps_ret].
  apply keeps_write_lesson. intros ls. apply Forall_upsert.
  apply pre_save_fields in P as (_ & _ & P & _). unfold recognized_lesson. now rewrite P.
Qed.

Lemma enrich_keeps E l o :
  valid_lesson l -> keeps (Forall valid_lesson) (enrich E l o).
Proof.
  intros _ w r w' Q K.
  apply enrich_stores in K
    as [->|(s & l' & ld & l1 & F & -> & _ & _ & V & _ & P)]; [exact Q|].
  apply Forall_upsert; [|exact Q]. apply merged_valid.
  - apply find_id_In in F. rewrite Forall_forall in Q. auto.
  - destruct P as [->|P]; [exact V|].
    apply validateLesson_iff in V as (V1 & V2 & V3 & V4 & V5 & V6 & V7 & _).
    eapply pre_save_valid; eassumption.
Qed.

Lemma enrich_recognized E l o :
  recognized_lesson l -> keeps (Forall recognized_lesson) (enrich E l o).
Proof.
  intros _ w r w' Q K.
  apply enrich_stores in K
    as [->|(s & l' & ld & l1 & F & -> & L & A & _ & C & _)]; [exact Q|].
  apply Forall_upsert; [|exact Q]. unfold recognized_lesson, merged. simpl.
  destruct (same_content _ _).
  - apply find_id_In in F. rewrite Forall_forall in Q. now apply Q.
  - pose proof (lesson_of_valid _ L) as V.
    pose proof (assign_content _ _ V A) as G.
    apply validateLessonStructure_ok in V as (blocks & G' & Rb).
    rewrite G in G'. inversion G'; subst blocks. rewrite C. exact Rb.
Qed.

Section Handlers.
Variable E : Env.
Variable V : LessonDoc -> Prop.

(** The course builder stores lessons as [Lesson_new] and the hook make
    them, and changes no lesson that is there. *)
Hypothesis V_new : forall id t m o fresh lesson,
  Lesson_new id t [CourseController.placeholder] m o false = Ok fresh ->
  pre_save fresh = Ok lesson -> V lesson.

Lemma addLesson_keeps m id : keeps (Forall V) (addLesson E m id).
Proof.
  unfold addLesson. destruct (existsb _ _); [apply keeps_ret|].
  apply keeps_bind; [apply keeps_write_module | intros; apply keeps_ret].
Qed.

Lemma addModule_keeps c id : keeps (Forall V) (addModule E c id).
Proof.
  unfold addModule. destruct (existsb _ _); [apply keeps_ret|].
  apply keeps_bind; [apply keeps_write_course | intros; apply keeps_ret].
Qed.

Lemma createLesson_keeps m j ld :
  keeps (Forall V) (CourseController.createLesson E m j ld).
Proof.
  unfold CourseController.createLesson.
  apply keeps_lift_bind. intros title _.
  apply keeps_lift_bind. intros order _.
  apply keeps_bind; [apply keeps_fresh_id|]. intros id w w1 _ _.
  apply keeps_lift_bind. intros fresh N.
  apply keeps_lift_bind. intros lesson P.
  apply keeps_bind; [|intros; apply addLesson_keeps].
  apply keeps_write_lesson. intros ls. apply Forall_upsert.
  eapply V_new; eassumption.
Qed.

Lemma createLessons_keeps ls : forall m j,
  keeps (Forall V) (CourseController.createLessons E m j ls).
Proof.
  induction ls as [|ld ls IH]; intros m j; simpl; [apply keeps_ret|].
  apply keeps_bind; [apply createLesson_keeps | intros; apply IH].
Qed.

Lemma createModule_keeps c i md :
  keeps (Forall V) (CourseController.createModule E c i md).
Proof.
  unfold CourseController.createModule.
  do 4 (apply keeps_lift_bind; intros ? _).
  apply keeps_bind; [apply keeps_fresh_id|]. intros id w w1 _ _.
  apply keeps_lift_bind. intros module _.
  apply keeps_bind; [apply keeps_write_module|]. intros.
  apply keeps_lift_bind. intros ls _.
  apply keeps_bind; [apply createLessons_keeps | intros; apply addModule_keeps].
Qed.

Lemma createModules_keeps ms : forall c i,
  keeps (Forall V) (CourseController.createModules E c i ms).
Proof.
  induction ms as [|md ms IH]; intros c i; simpl; [apply keeps_ret|].
  apply keeps_bind; [apply createModule_keeps | intros; apply IH].
Qed.

Lemma generateCourse_keeps sub topic :
  keeps (Forall V) (CourseController.generateCourse E sub topic).
Proof.
  unfold CourseController.generateCourse.
  destruct (trim topic) as [|c t]; [apply keeps_ret|].
  apply keeps_bind.
  { unfold generateCourse. apply keeps_bind; [apply keeps_call_model|].
    intros; apply keeps_lift. }
  intros cd w w1 _ _. apply keeps_bind.
  { unfold CourseController.build.
    do 5 (apply keeps_lift_bind; intros ? _).
    apply keeps_bind; [apply keeps_fresh_id|]. intros id w2 w3 _ _.
    apply keeps_lift_bind. intros course _.
    apply keeps_bind; [apply keeps_write_course|]. intros.
    apply keeps_lift_bind. intros ms _. apply createModules_keeps. }
  intros course w2 w3 _ _.
  apply keeps_bind; [|intros; apply keeps_ret].
  intros w4 r w5 Q K. inversion K; subst. exact Q.
Qed.

(** A read keeps what the enrichment of a stored lesson keeps. *)
Lemma getLesson_keeps sub id :
  (forall l o, V l -> keeps (Forall V) (enrich E l o)) ->
  keeps (Forall V) (getLesson E sub id).
Proof.
  intros He. unfold getLesson, getLesson_begin, getLesson_resume.
  apply keeps_bind.
  - apply keeps_bind; [apply keeps_load|].
    intros [r|l] w w1 _ _; [apply keeps_ret|].
    destruct (l_isEnriched l); [apply keeps_ret|].
    apply keeps_bind; [apply keeps_call_model | intros; apply keeps_ret].
  - intros [r|[l o]] w w1 Q K; [apply keeps_ret|].
    apply keeps_bind; [|intros; apply keeps_ret]. simpl.
    apply He.
    apply bind_cases in K as [(e & _ & ?)|(a & w2 & K1 & K2)]; [discriminate|].
    destruct a as [r|l0]; [inversion K2|].
    destruct (l_isEnriched l0); [inversion K2|].
    apply bind_cases in K2 as [(e & _ & ?)|(o' & w3 & _ & K2)]; [discriminate|].
    inversion K2; subst. eapply loaded_stored; eassumption.
Qed.

End Handlers.

Lemma updateLesson_keeps E sub id body :
  keeps (Forall valid_lesson) (updateLesson E sub id body).
Proof.
  unfold updateLesson. apply keeps_bind; [apply keeps_load|].
  intros [r|l] w w1 Q K; [apply keeps_ret|].
  apply keeps_lift_bind. intros l' U.
  apply keeps_bind; [|intros; apply keeps_ret].
  apply keeps_write_lesson. intros ls. apply Forall_upsert.
  eapply findByIdAndUpdate_valid; [|exact U]. eapply loaded_stored; eassumption.
Qed.

Lemma deleteContentBlock_keeps E sub id index :
  keeps (Forall valid_lesson) (deleteContentBlock E sub id index).
Proof.
  unfold deleteContentBlock. apply keeps_bind; [apply keeps_load|].
  intros [r|l] w w1 _ _; [apply keeps_ret|].
  match goal with |- keeps _ (if ?c then _ else _) => destruct c end;
    [apply keeps_ret|].
  apply keeps_bind; [apply Lesson_save_keeps | intros; apply keeps_ret].
Qed.

Lemma addContentBlock_keeps E sub id block position :
  keeps (Forall valid_lesson)
        (LessonController.addContentBlock E sub id block position).
Proof.
  unfold LessonController.addContentBlock. apply keeps_bind; [apply keeps_load|].
  intros [r|l] w w1 _ _; [apply keeps_ret|].
  destruct block as [b|]; [|apply keeps_ret].
  destruct (negb (truthy (Some b))); [apply keeps_ret|].
  apply keeps_lift_bind. intros ty _.
  destruct (negb (truthy ty)); [apply keeps_ret|].
  destruct (negb (includes ty)); [apply keeps_ret|].
  apply keeps_bind; [apply Lesson_save_keeps | intros; apply keeps_ret].
Qed.

Lemma deleteContentBlock_recognized E sub id index :
  keeps (Forall recognized_lesson) (deleteContentBlock E sub id index).
Proof.
  unfold deleteContentBlock. apply keeps_bind; [apply keeps_load|].
  intros [r|l] w w1 Q K; [apply keeps_ret|].
  match goal with |- keeps _ (if ?c then _ else _) => destruct c end;
    [apply keeps_ret|].
  apply keeps_bind; [|intros; apply keeps_ret].
  apply Lesson_save_recognized. unfold recognized_lesson. simpl.
  apply Forall_splice_out.
  eapply loaded_stored with (V := recognized_lesson); eassumption.
Qed.

Lemma includes_recognized b ty :
  get (Some b) (str "type") = Ok ty -> includes ty = true -> recognized b.
Proof.
  intros G I. apply includes_In in I as (k & -> & Hk). now exists k.
Qed.

Lemma addContentBlock_recognized E sub id block position :
  keeps (Forall recognized_lesson)
        (LessonController.addContentBlock E sub id block position).
Proof.
  unfold LessonController.addContentBlock. apply keeps_bind; [apply keeps_load|].
  intros [r|l] w w1 Q K; [apply keeps_ret|].
  destruct block as [b|]; [|apply keeps_ret].
  destruct (negb (truthy (Some b))); [apply keeps_ret|].
  apply keeps_lift_bind. intros ty G.
  destruct (negb (truthy ty)); [apply keeps_ret|].
  destruct (includes ty) eqn:I; [|apply keeps_ret]. cbn [negb]. cbv iota.
  apply keeps_bind; [|intros; apply keeps_ret].
  apply Lesson_save_recognized. unfold recognized_lesson. simpl.
  assert (R : Forall recognized (l_content l))
    by (eapply loaded_stored with (V := recognized_lesson); eassumption).
  assert (B : recognized b) by (eapply includes_recognized; eassumption).
  match goal with |- Forall _ (if ?c then _ else _) => destruct c end.
  - apply Forall_app. split; [assumption|]. now constructor.
  - now apply Forall_splice_in.
Qed.

Lemma recognized_placeholder : recognized CourseController.placeholder.
Proof.
  exists (str "paragraph"). split; [reflexivity|]. right. now left.
Qed.

(** X9. Every handler that writes lessons keeps the store valid: when
    every stored lesson passes the validators of the Lesson schema (title
    not empty and at most 200 characters, content not empty, objectives
    at most 200 and tags at most 30 characters each, order not negative,
    estimatedMinutes from 1 to 240, readingTime at least 1), the same is
    true after [generateCourse], [getLesson], [updateLesson],
    [addContentBlock] and [deleteContentBlock], whatever they answer and
    also when they throw. *)
Theorem X9_stored_lessons_stay_valid E w :
  Forall valid_lesson (lessons w) ->
  (forall sub topic r w',
     CourseController.generateCourse E sub topic w = (r, w') ->
     Forall valid_lesson (lessons w')) /\
  (forall sub id r w',
     getLesson E sub id w = (r, w') -> Forall valid_lesson (lessons w')) /\
  (forall sub id body r w',
     updateLesson E sub id body w = (r, w') -> Forall valid_lesson (lessons w')) /\
  (forall sub id block position r w',
     LessonController.addContentBlock E sub id block position w = (r, w') ->
     Forall valid_lesson (lessons w')) /\
  (forall sub id index r w',
     deleteContentBlock E sub id index w = (r, w') ->
     Forall valid_lesson (lessons w')).
Proof.
  intros V. repeat split; intros.
  - eapply generateCourse_keeps; [|exact V|eassumption].
    intros. eapply Lesson_new_valid; eassumption.
  - eapply getLesson_keeps; [|exact V|eassumption].
    intros. now apply enrich_keeps.
  - eapply updateLesson_keeps; eassumption.
  - eapply addContentBlock_keeps; eassumption.
  - eapply deleteContentBlock_keeps; eassumption.
Qed.

Lemma X9_stored_lessons_stay_valid_witness :
  Forall valid_lesson (lessons library) /\ Forall valid_lesson (lessons studied).
Proof.
  assert (V : Forall valid_lesson (lessons library))
    by (repeat (constructor; [vm_compute; reflexivity|]); constructor).
  split; [exact V|].
  destruct (@X9_stored_lessons_stay_valid three_blocks _ V) as (_ & G & _).
  apply (G (str "u1") 2 (fst (getLesson three_blocks (str "u1") 2 library))).
  vm_compute. reflexivity.
Defined.

(** X10. Blocks of other kinds than the seven do not come into the store
    by generation or by the block handlers: when every block of every
    stored lesson is of one of the seven kinds, the same is true after
    [generateCourse], [getLesson], [addContentBlock] and
    [deleteContentBlock], whatever they answer and also when they
    throw. *)
Theorem X10_recognized_kinds_are_kept E w :
  Forall recognized_lesson (lessons w) ->
  (forall sub topic r w',
     CourseController.generateCourse E sub topic w = (r, w') ->
     Forall recognized_lesson (lessons w')) /\
  (forall sub id r w',
     getLesson E sub id w = (r, w') -> Forall recognized_lesson (lessons w')) /\
  (forall sub id block position r w',
     LessonController.addContentBlock E sub id block position w = (r, w') ->
     Forall recognized_lesson (lessons w')) /\
  (forall sub id index r w',
     deleteContentBlock E sub id index w = (r, w') ->
     Forall recognized_lesson (lessons w')).
Proof.
  intros V. repeat split; intros.
  - eapply generateCourse_keeps; [|exact V|eassumption].
    intros id t m o fresh lesson N P.
    apply Lesson_new_ok in N as (_ & N & _).
    apply pre_save_fields in P as (_ & _ & P & _).
    unfold recognized_lesson. rewrite P, N. constructor; [|constructor].
    apply recognized_placeholder.
  - eapply getLesson_keeps; [|exact V|eassumption].
    intros. now apply enrich_recognized.
  - eapply addContentBlock_recognized; eassumption.
  - eapply deleteContentBlock_recognized; eassumption.
Qed.

Lemma X10_recognized_kinds_are_kept_witness :
  Forall recognized_lesson (lessons library) /\
  Forall recognized_lesson (lessons studied).
Proof.
  assert (V : Forall recognized_lesson (lessons library)).
  { repeat (constructor; [repeat constructor; apply recognized_placeholder|]).
    constructor. }
  split; [exact V|].
  destruct (@X10_recognized_kinds_are_kept three_blocks _ V) as (_ & G & _).
  apply (G (str "u1") 2 (fst (getLesson three_blocks (str "u1") 2 library))).
  vm_compute. reflexivity.
Defined.



(** ** The methods of the Module and Course models *)

Lemma filter_all A (f : A -> bool) l :
  Forall (fun x => f x = true) l -> filter f l = l.
Proof.
  induction 1 as [|x l Hx _ IH]; simpl; [reflexivity|]. now rewrite Hx, IH.
Qed.

Lemma existsb_eqb_In n l : existsb (fun x => x =? n) l = true <-> In n l.
Proof.
  rewrite existsb_exists. split.
  - intros (x & Hx & Ex). apply Nat.eqb_eq in Ex. now subst.
  - intros H. exists n. split; [assumption | apply Nat.eqb_refl].
Qed.

Lemma filter_out_added id l :
  ~ In id l -> filter (fun x => negb (x =? id)) (l ++ [id]) = l.
Proof.
  intros N. rewrite filter_app. simpl. rewrite Nat.eqb_refl. simpl.
  rewrite app_nil_r. apply filter_all. apply Forall_forall. intros x Hx.
  destruct (Nat.eqb_spec x id); [subst; contradiction | reflexivity].
Qed.

Lemma not_In_existsb id l : ~ In id l -> existsb (Nat.eqb id) l = false.
Proof.
  intros N. destruct (existsb (Nat.eqb id) l) eqn:X; [|reflexivity].
  apply existsb_exists in X as (x & Hx & Ex). apply Nat.eqb_eq in Ex. now subst.
Qed.

Lemma reorderLessons_accepts E m ids w :
  Forall (fun id => In id (m_lessons m)) ids ->
  List.length ids = List.length (m_lessons m) ->
  db_ok E (writes w) = true ->
  exists m' w',
    reorderLessons E m ids w = (Ok (Reordered m'), w') /\
    m_lessons m' = ids /\ m_id m' = m_id m /\
    find_id m_id (m_id m) (modules w') = Some m' /\
    lessons w' = lessons w /\ courses w' = courses w.
Proof.
  intros A L D. unfold reorderLessons.
  rewrite filter_all.
  2:{ eapply Forall_impl; [|exact A]. intros a Ha. now apply existsb_eqb_In. }
  rewrite L, Nat.eqb_refl.
  unfold bind, write_module, db_write, ret. cbn [negb]. cbv beta iota zeta. rewrite D.
  eexists _, _. split; [reflexivity|]. simpl. repeat split.
  apply (find_id_upsert m_id
           {| m_id := m_id m; m_title := m_title m;
              m_description := m_description m; m_course := m_course m;
              m_lessons := ids; m_order := m_order m;
              m_objectives := m_objectives m |}).
Qed.

(** X12. [reorderLessons] takes a list of ids when each is an id of the
    module and the list is as long as the module's list: it stores the
    module with the given list and touches no lesson and no course. So it
    takes every permutation of the module's lessons; the check counts and
    does not compare, so a list that repeats one id in the place of
    another passes as well. A list without repeats that leaves out a
    lesson of the module is refused and nothing is written. *)
Theorem X12_reorderLessons_accepts_and_rejects E m ids w :
  (Forall (fun id => In id (m_lessons m)) ids ->
   List.length ids = List.length (m_lessons m) ->
   db_ok E (writes w) = true ->
   exists m' w',
     reorderLessons E m ids w = (Ok (Reordered m'), w') /\
     m_lessons m' = ids /\ m_id m' = m_id m /\
     find_id m_id (m_id m) (modules w') = Some m' /\
     lessons w' = lessons w /\ courses w' = courses w) /\
  (Permutation (m_lessons m) ids -> db_ok E (writes w) = true ->
   exists m' w',
     reorderLessons E m ids w = (Ok (Reordered m'), w') /\ m_lessons m' = ids) /\
  (NoDup ids -> (exists x, In x (m_lessons m) /\ ~ In x ids) ->
   reorderLessons E m ids w = (Ok InvalidLessonIDs, w)).
Proof.
  split; [|split].
  - apply reorderLessons_accepts.
  - intros P D.
    destruct (@reorderLessons_accepts E m ids w) as (m' & w' & R & L & _); auto.
    + apply Forall_forall. intros x Hx. apply Permutation_sym in P.
      eapply Permutation_in; eassumption.
    + symmetry. now apply Permutation_length.
    + eauto.
  - intros N (x & Hx & Hn). unfold reorderLessons.
    set (validIds := filter _ ids).
    assert (Nv : NoDup validIds) by now apply NoDup_filter.
    assert (Iv : incl validIds (m_lessons m)).
    { intros a Ha. apply filter_In in Ha as [_ Ha]. now apply existsb_eqb_In. }
    assert (Xv : ~ In x validIds).
    { intros Ha. apply filter_In in Ha as [Ha _]. contradiction. }
    destruct (Nat.eqb_spec (List.length validIds) (List.length (m_lessons m))) as [e|e];
      [|reflexivity].
    exfalso. apply Xv.
    refine (@NoDup_length_incl _ validIds (m_lessons m) Nv _ Iv x Hx). lia.
Qed.

Lemma X12_reorderLessons_accepts_and_rejects_witness :
  exists m,
    hd_error (modules library) = Some m /\ m_lessons m = [2; 3] /\
    (exists m' w',
       reorderLessons two_lessons m [3; 2] library = (Ok (Reordered m'), w') /\
       m_lessons m' = [3; 2]) /\
    (exists m' w',
       reorderLessons two_lessons m [3; 3] library = (Ok (Reordered m'), w') /\
       m_lessons m' = [3; 3]) /\
    reorderLessons two_lessons m [3] library = (Ok InvalidLessonIDs, library).
Proof.
  assert (H : exists m, hd_error (modules library) = Some m /\ m_lessons m = [2; 3])
    by (eexists; split; vm_compute; reflexivity).
  destruct H as (m & Hm & L). exists m. split; [exact Hm|]. split; [exact L|].
  split; [|split].
  - destruct (@X12_reorderLessons_accepts_and_rejects two_lessons m [3; 2] library)
      as (_ & P & _).
    apply P; [rewrite L; apply perm_swap | reflexivity].
  - destruct (@X12_reorderLessons_accepts_and_rejects two_lessons m [3; 3] library)
      as (A & _ & _).
    assert (F : Forall (fun id => In id (m_lessons m)) [3; 3])
      by (rewrite L; repeat constructor; simpl; auto).
    assert (N : List.length [3; 3] = List.length (m_lessons m)) by now rewrite L.
    destruct (A F N eq_refl) as (m' & w' & R & L' & _). eauto.
  - destruct (@X12_reorderLessons_accepts_and_rejects two_lessons m [3] library)
      as (_ & _ & R).
    apply R.
    + constructor; [intros []|constructor].
    + exists 2. rewrite L. split; [now left|].
      intros [Hx|[]]. discriminate.
Defined.

(** X13. [addLesson] and [addModule] add an id once: after the first
    call the id is in the list, a list without repeats stays without
    repeats, and a second call with the same id returns the same document
    and writes nothing. *)
Theorem X13_adding_twice_is_adding_once E w :
  db_ok E (writes w) = true ->
  (forall m id, exists m1 w1,
     addLesson E m id w = (Ok m1, w1) /\ In id (m_lessons m1) /\
     (NoDup (m_lessons m) -> NoDup (m_lessons m1)) /\
     addLesson E m1 id w1 = (Ok m1, w1)) /\
  (forall c id, exists c1 w1,
     addModule E c id w = (Ok c1, w1) /\ In id (c_modules c1) /\
     (NoDup (c_modules c) -> NoDup (c_modules c1)) /\
     addModule E c1 id w1 = (Ok c1, w1)).
Proof.
  intros D. split.
  - intros m id. unfold addLesson.
    destruct (existsb (Nat.eqb id) (m_lessons m)) eqn:X.
    + exists m, w. rewrite X. repeat split; auto.
      apply existsb_exists in X as (x & Hx & Ex). apply Nat.eqb_eq in Ex. now subst.
    + unfold bind, write_module, db_write, ret. cbv beta zeta. rewrite D.
      eexists _, _. split; [reflexivity|]. simpl.
      assert (I : existsb (Nat.eqb id) (m_lessons m ++ [id]) = true).
      { rewrite existsb_app. simpl. rewrite Nat.eqb_refl. apply orb_true_r. }
      rewrite I. repeat split.
      * apply in_or_app. right. now left.
      * intros N. apply NoDup_app; auto.
        -- constructor; [intros []|constructor].
        -- intros a Ha [Ea|[]]. subst a.
           assert (existsb (Nat.eqb id) (m_lessons m) = true); [|congruence].
           apply existsb_exists. exists id. split; [assumption|apply Nat.eqb_refl].
  - intros c id. unfold addModule.
    destruct (existsb (Nat.eqb id) (c_modules c)) eqn:X.
    + exists c, w. rewrite X. repeat split; auto.
      apply existsb_exists in X as (x & Hx & Ex). apply Nat.eqb_eq in Ex. now subst.
    + unfold bind, write_course, db_write, ret. cbv beta zeta. rewrite D.
      eexists _, _. split; [reflexivity|]. simpl.
      assert (I : existsb (Nat.eqb id) (c_modules c ++ [id]) = true).
      { rewrite existsb_app. simpl. rewrite Nat.eqb_refl. apply orb_true_r. }
      rewrite I. repeat split.
      * apply in_or_app. right. now left.
      * intros N. apply NoDup_app; auto.
        -- constructor; [intros []|constructor].
        -- intros a Ha [Ea|[]]. subst a.
           assert (existsb (Nat.eqb id) (c_modules c) = true); [|congruence].
           apply existsb_exists. exists id. split; [assumption|apply Nat.eqb_refl].
Qed.

Lemma X13_adding_twice_is_adding_once_witness :
  exists m m1 w1,
    hd_error (modules library) = Some m /\
    addLesson two_lessons m 9 library = (Ok m1, w1) /\ In 9 (m_lessons m1) /\
    addLesson two_lessons m1 9 w1 = (Ok m1, w1).
Proof.
  assert (H : exists m, hd_error (modules library) = Some m)
    by (eexists; vm_compute; reflexivity).
  destruct H as (m & Hm).
  destruct (@X13_adding_twice_is_adding_once two_lessons library eq_refl) as (A & _).
  destruct (A m 9) as (m1 & w1 & A1 & A2 & _ & A3).
  exists m, m1, w1. auto.
Defined.

(** X14. Removing an id that was just added gives the document back:
    for an id that is not in the list, [addLesson] and then [removeLesson]
    (and [addModule] and then [removeModule]) return and store the
    document as it was before. *)
Theorem X14_removing_undoes_adding E w :
  db_ok E (writes w) = true -> db_ok E (S (writes w)) = true ->
  (forall m id, ~ In id (m_lessons m) ->
     exists m1 w1 w2,
       addLesson E m id w = (Ok m1, w1) /\ In id (m_lessons m1) /\
       removeLesson E m1 id w1 = (Ok m, w2) /\
       find_id m_id (m_id m) (modules w2) = Some m) /\
  (forall c id, ~ In id (c_modules c) ->
     exists c1 w1 w2,
       addModule E c id w = (Ok c1, w1) /\ In id (c_modules c1) /\
       removeModule E c1 id w1 = (Ok c, w2) /\
       find_id c_id (c_id c) (courses w2) = Some c).
Proof.
  intros D1 D2. split.
  - intros m id N. unfold addLesson. rewrite (@not_In_existsb id _ N).
    unfold bind, write_module, db_write, ret. cbv beta zeta. rewrite D1.
    eexists _, _, _. split; [reflexivity|]. split.
    { simpl. apply in_or_app. right. now left. }
    unfold removeLesson, bind, write_module, db_write, ret. simpl.
    rewrite D2, (@filter_out_added id _ N).
    assert (Em : {| m_id := m_id m; m_title := m_title m;
                    m_description := m_description m; m_course := m_course m;
                    m_lessons := m_lessons m; m_order := m_order m;
                    m_objectives := m_objectives m |} = m) by now destruct m.
    rewrite Em. split; [reflexivity|]. simpl. apply find_id_upsert.
  - intros c id N. unfold addModule. rewrite (@not_In_existsb id _ N).
    unfold bind, write_course, db_write, ret. cbv beta zeta. rewrite D1.
    eexists _, _, _. split; [reflexivity|]. split.
    { simpl. apply in_or_app. right. now left. }
    unfold removeModule, bind, write_course, db_write, ret. simpl.
    rewrite D2, (@filter_out_added id _ N).
    assert (Ec : {| c_id := c_id c; c_title := c_title c;
                    c_description := c_description c; c_creator := c_creator c;
                    c_modules := c_modules c; c_tags := c_tags c;
                    c_difficulty := c_difficulty c;
                    c_estimatedHours := c_estimatedHours c |} = c) by now destruct c.
    rewrite Ec. split; [reflexivity|]. simpl. apply find_id_upsert.
Qed.

Lemma X14_removing_undoes_adding_witness :
  exists m m1 w1 w2,
    hd_error (modules library) = Some m /\
    addLesson two_lessons m 9 library = (Ok m1, w1) /\
    removeLesson two_lessons m1 9 w1 = (Ok m, w2).
Proof.
  assert (H : exists m, hd_error (modules library) = Some m /\ m_lessons m = [2; 3])
    by (eexists; split; vm_compute; reflexivity).
  destruct H as (m & Hm & L).
  destruct (@X14_removing_undoes_adding two_lessons library eq_refl eq_refl)
    as (A & _).
  destruct (A m 9) as (m1 & w1 & w2 & A1 & _ & A2 & _).
  { rewrite L. intros [Hx|[Hx|[]]]; discriminate. }
  exists m, m1, w1, w2. auto.
Defined.

(** ** The course a generation answers with *)

(** The next step of a handler that returned, when that step is a pure
    computation, resp. a write. *)
Ltac ok_lift K H :=
  let a := fresh "a" in
  let w1 := fresh "w" in
  apply bind_cases in K as [(? & _ & ?)|(a & w1 & H & K)]; [discriminate|];
  apply lift_cases in H as [H ->]; symmetry in H.

Ltac ok_write K H :=
  let w1 := fresh "w" in
  apply bind_cases in K as [(? & _ & ?)|([] & w1 & H & K)]; [discriminate|];
  apply db_write_cases in H as [(_ & -> & H)|((? & ?) & _)]; [|discriminate].

Lemma castString_required path v t :
  rbind (castString path v) (fun x => required path (option_map trim x)) = Ok t ->
  exists s, castString path v = Ok (Some s) /\ t = trim s.
Proof.
  destruct (castString path v) as [[s|]|e]; cbn [rbind]; try discriminate.
  unfold required. simpl. destruct (trim s) eqn:T; [discriminate|].
  inversion 1. exists s. split; [reflexivity | congruence].
Qed.

Lemma Lesson_new_title id title c m o b l :
  Lesson_new id title c m o b = Ok l ->
  exists s, castString (str "title") title = Ok (Some s) /\ l_title l = trim s.
Proof.
  unfold Lesson_new. intros H. rinv H. inversion H; subst l; simpl.
  apply (castString_required (str "title")). rewrite Ha. simpl. assumption.
Qed.

Lemma Module_new_title id title d c o ob m :
  Module_new id title d c o ob = Ok m ->
  exists s, castString (str "title") title = Ok (Some s) /\ m_title m = trim s.
Proof.
  unfold Module_new. intros H. rinv H. inversion H; subst m; simpl.
  apply (castString_required (str "title")). rewrite Ha. simpl. assumption.
Qed.

Lemma Course_new_title id title d cr tg df h c :
  Course_new id title d cr tg df h = Ok c ->
  exists s, castString (str "title") title = Ok (Some s) /\ c_title c = trim s.
Proof.
  unfold Course_new. intros H. rinv H. inversion H; subst c; simpl.
  apply (castString_required (str "title")). rewrite Ha. simpl. assumption.
Qed.

Lemma createLesson_links E m j ld w m' w' pm :
  CourseController.createLesson E m j ld w = (Ok m', w') ->
  wf w -> modules w = pm ++ [m] -> ids_below m_id (m_id m) pm ->
  Forall (fun x => x < next_id w) (m_lessons m) ->
  exists l,
    lessons w' = lessons w ++ [l] /\ l_id l = next_id w /\
    next_id w' = S (next_id w) /\
    titled ld (l_title l) /\ placeholder_lesson l /\ l_module l = m_id m /\
    l_estimatedMinutes l = None /\
    m_lessons m' = m_lessons m ++ [l_id l] /\ m_id m' = m_id m /\
    m_title m' = m_title m /\ m_course m' = m_course m /\
    modules w' = pm ++ [m'] /\ courses w' = courses w.
Proof.
  intros K Hwf Hm Hpm Hls. unfold CourseController.createLesson in K.
  ok_lift K Htitle. ok_lift K Horder.
  apply bind_cases in K as [(e & H & _)|(id & w1 & H & K)]; [discriminate|].
  unfold fresh_id in H. inversion H; subst id w1; clear H.
  ok_lift K Hnew. ok_lift K Hhook. rename a2 into lesson.
  destruct (Lesson_new_title _ _ _ _ _ _ Hnew) as (s & Hs & Ht).
  assert (I5 : l_estimatedMinutes a1 = None)
    by (unfold Lesson_new in Hnew; rinv Hnew; now inversion Hnew).
  apply Lesson_new_ok in Hnew as (I1 & I2 & I3 & I4).
  apply pre_save_fields in Hhook as (J1 & J2 & J3 & _ & J5 & _ & J7 & J8 & _).
  ok_write K Hwl. unfold with_lessons in K. simpl in K.
  assert (Hid : l_id lesson = next_id w) by congruence.
  rewrite Hid, upsert_fresh in K by apply Hwf.
  unfold addLesson in K. rewrite existsb_eqb_fresh in K by assumption.
  ok_write K Hwm. unfold ret in K. inversion K; subst m' w'; clear K. simpl.
  exists lesson. rewrite Hm, (upsert_last (key := m_id) m _ Hpm).
  assert (T : titled ld (l_title lesson))
    by (eexists _, s; split; [exact Htitle|split; congruence]).
  unfold placeholder_lesson. repeat split; auto; congruence.
Qed.

Lemma seq_snoc start len : seq start len ++ [start + len] = seq start (S len).
Proof. now rewrite seq_S. Qed.

Lemma createLessons_links E ls : forall m j w m' w' pm,
  CourseController.createLessons E m j ls w = (Ok m', w') ->
  wf w -> modules w = pm ++ [m] -> ids_below m_id (m_id m) pm ->
  Forall (fun x => x < next_id w) (m_lessons m) ->
  exists add,
    lessons w' = lessons w ++ add /\
    map l_id add = seq (next_id w) (List.length ls) /\
    next_id w' = next_id w + List.length ls /\
    placeholders_of (m_id m) ls add /\
    m_lessons m' = m_lessons m ++ map l_id add /\ m_id m' = m_id m /\
    m_title m' = m_title m /\ m_course m' = m_course m /\
    modules w' = pm ++ [m'] /\ courses w' = courses w /\ wf w'.
Proof.
  induction ls as [|ld ls IH]; intros m j w m' w' pm K Hwf Hm Hpm Hls.
  - simpl in K. inversion K; subst m' w'. exists []. simpl.
    rewrite !app_nil_r, Nat.add_0_r.
    repeat split; auto; try apply Hwf. constructor.
  - simpl in K.
    apply bind_cases in K as [(e & _ & ?)|(m1 & w1 & H & K)]; [discriminate|].
    pose proof (@createLesson_spec E _ _ _ _ _ _ pm H Hwf Hm Hpm Hls) as (Hwf1 & _).
    destruct (@createLesson_links E _ _ _ _ _ _ pm H Hwf Hm Hpm Hls)
      as (l & L1 & L2 & L3 & L4 & L5 & L6 & Lm & L7 & L8 & L9 & L10 & L11 & L12).
    assert (Hls1 : Forall (fun x => x < next_id w1) (m_lessons m1)).
    { rewrite L7, L3, L2. apply Forall_app. split.
      - eapply Forall_impl; [|exact Hls]. simpl. intros; lia.
      - constructor; [lia|constructor]. }
    assert (Hpm1 : ids_below m_id (m_id m1) pm) by now rewrite L8.
    destruct (IH _ _ _ _ _ pm K Hwf1 L11 Hpm1 Hls1)
      as (add & A1 & A2 & A3 & A4 & A5 & A6 & A7 & A8 & A9 & A10 & A11).
    exists (l :: add). simpl.
    split; [rewrite A1, L1, <- app_assoc; reflexivity|].
    split; [rewrite A2, L2, L3; reflexivity|].
    split; [lia|].
    split.
    { constructor; [split; [split; auto|assumption]|].
      eapply Forall2_impl; [|exact A4]. simpl. intros a b ((? & ? & ?) & ?).
      split; [|assumption]. split; [assumption|]. split; [assumption|]. congruence. }
    split; [rewrite A5, L7, <- app_assoc; reflexivity|].
    repeat (split; [congruence|]). assumption.
Qed.

Lemma createModule_links E c i md w c' w' pc :
  CourseController.createModule E c i md w = (Ok c', w') ->
  wf w -> courses w = pc ++ [c] -> ids_below c_id (c_id c) pc ->
  Forall (fun x => x < next_id w) (c_modules c) ->
  exists m add,
    modules w' = modules w ++ [m] /\ m_id m = next_id w /\
    titled md (m_title m) /\ m_course m = c_id c /\
    lessons w' = lessons w ++ add /\ m_lessons m = map l_id add /\
    map l_id add = seq (S (next_id w)) (List.length (outline_lessons md)) /\
    placeholders_of (m_id m) (outline_lessons md) add /\
    next_id w' = S (next_id w) + List.length (outline_lessons md) /\
    c_modules c' = c_modules c ++ [m_id m] /\ c_id c' = c_id c /\
    c_title c' = c_title c /\ c_creator c' = c_creator c /\
    courses w' = pc ++ [c'] /\ wf w'.
Proof.
  intros K Hwf Hc Hpc Hms.
  pose proof (@createModule_spec E _ _ _ _ _ _ pc K Hwf Hc Hpc Hms) as (Hwf' & _).
  unfold CourseController.createModule in K.
  ok_lift K Htitle. ok_lift K Hdescription. ok_lift K Horder. ok_lift K Hobjectives.
  apply bind_cases in K as [(e & H & _)|(id & w1 & H & K)]; [discriminate|].
  unfold fresh_id in H. inversion H; subst id w1; clear H.
  ok_lift K Hnew. rename a3 into module.
  destruct (Module_new_title _ _ _ _ _ _ Hnew) as (s & Hs & Ht).
  apply Module_new_ok in Hnew as (I1 & I2 & I3 & _).
  ok_write K Hwm. unfold with_modules in K. simpl in K.
  rewrite I1, upsert_fresh in K by apply Hwf.
  set (w1 := {| courses := courses w; modules := modules w ++ [module];
                lessons := lessons w; next_id := S (next_id w);
                calls := calls w; writes := S (writes w) |}) in *.
  assert (Hwf1 : wf w1).
  { destruct Hwf as [W1 W2 W3]. split; simpl; try (apply ids_below_S; assumption).
    apply Forall_app. split; [apply ids_below_S; assumption|].
    constructor; [lia|constructor]. }
  ok_lift K Hls. apply elements_outline_lessons in Hls.
  assert (Hlow : ids_below m_id (m_id module) (modules w))
    by (rewrite I1; apply Hwf).
  assert (Hnone : Forall (fun x => x < next_id w1) (m_lessons module))
    by (rewrite I3; constructor).
  apply bind_cases in K as [(e & _ & ?)|(module' & w2 & H & K)]; [discriminate|].
  destruct (@createLessons_links E _ module 0 w1 _ _ (modules w) H Hwf1 eq_refl Hlow Hnone)
    as (add & A1 & A2 & A3 & A4 & A5 & A6 & A7 & A8 & A9 & A10 & A11).
  unfold w1 in A1, A2, A3, A10. simpl in A1, A2, A3, A10.
  unfold addModule in K.
  rewrite A6, I1, existsb_eqb_fresh in K by assumption.
  ok_write K Hwc. unfold ret in K. inversion K; subst c' w'; clear K.
  unfold with_courses in *. simpl in Hwf' |- *.
  rewrite A10, Hc, (upsert_last (key := c_id) c _ Hpc) in Hwf' |- *.
  exists module', add. rewrite Hls in *.
  split; [assumption|]. split; [congruence|].
  split; [eexists _, s; split; [exact Htitle|split; congruence]|].
  split; [congruence|].
  split; [assumption|]. split; [rewrite A5, I3; reflexivity|].
  split; [assumption|].
  split; [now rewrite A6|].
  split; [lia|]. split; [congruence|].
  repeat (split; [reflexivity|]). exact Hwf'.
Qed.

Lemma between_seq start len : between start (start + len) (seq start len).
Proof. apply Forall_forall. intros x Hx. apply in_seq in Hx. lia. Qed.

Lemma between_le lo lo' hi hi' ids :
  lo' <= lo -> hi <= hi' -> between lo hi ids -> between lo' hi' ids.
Proof. intros H1 H2. apply Forall_impl. intros; lia. Qed.

Lemma NoDup_app_between lo mid hi a b :
  NoDup a -> NoDup b -> between lo mid a -> between mid hi b -> NoDup (a ++ b).
Proof.
  intros Na Nb Ba Bb. apply NoDup_app; auto.
  intros x Ha Hb. unfold between in *. rewrite Forall_forall in Ba, Bb.
  apply Ba in Ha. apply Bb in Hb. lia.
Qed.

Lemma createModules_links E ms : forall c i w c' w' pc,
  CourseController.createModules E c i ms w = (Ok c', w') ->
  wf w -> courses w = pc ++ [c] -> ids_below c_id (c_id c) pc ->
  Forall (fun x => x < next_id w) (c_modules c) ->
  exists view,
    modules w' = modules w ++ map fst view /\
    lessons w' = lessons w ++ concat (map snd view) /\
    c_modules c' = c_modules c ++ map m_id (map fst view) /\
    built_modules (c_id c) ms view /\
    between (next_id w) (next_id w') (map m_id (map fst view)) /\
    NoDup (map m_id (map fst view)) /\
    between (next_id w) (next_id w') (map l_id (concat (map snd view))) /\
    NoDup (map l_id (concat (map snd view))) /\
    next_id w <= next_id w' /\
    c_id c' = c_id c /\ c_title c' = c_title c /\ c_creator c' = c_creator c /\
    courses w' = pc ++ [c'] /\ wf w'.
Proof.
  induction ms as [|md ms IH]; intros c i w c' w' pc K Hwf Hc Hpc Hms.
  - simpl in K. inversion K; subst c' w'. exists []. simpl.
    rewrite !app_nil_r.
    repeat (split; [solve [auto | constructor]|]). assumption.
  - simpl in K.
    apply bind_cases in K as [(e & _ & ?)|(c1 & w1 & H & K)]; [discriminate|].
    destruct (@createModule_links E _ _ _ _ _ _ pc H Hwf Hc Hpc Hms)
      as (m & add & M1 & M2 & M3 & M4 & M5 & M6 & M7 & M8 & M9 & M10 & M11
            & M12 & M13 & M14 & M15).
    assert (Hms1 : Forall (fun x => x < next_id w1) (c_modules c1)).
    { rewrite M10, M9, M2. apply Forall_app. split.
      - eapply Forall_impl; [|exact Hms]. simpl. intros; lia.
      - constructor; [lia|constructor]. }
    assert (Hpc1 : ids_below c_id (c_id c1) pc) by now rewrite M11.
    destruct (IH _ _ _ _ _ pc K M15 M14 Hpc1 Hms1)
      as (view & V1 & V2 & V3 & V4 & V5 & V6 & V7 & V8 & V9 & V10 & V11 & V12
               & V13 & V14).
    exists ((m, add) :: view). simpl.
    split; [rewrite V1, M1, <- app_assoc; reflexivity|].
    split; [rewrite V2, M5, <- !app_assoc; reflexivity|].
    split; [rewrite V3, M10, <- app_assoc; reflexivity|].
    split.
    { constructor; [simpl; auto|].
      eapply Forall2_impl; [|exact V4]. simpl. intros x y (? & ? & ? & ?).
      repeat (split; [congruence || assumption|]). assumption. }
    split.
    { constructor; [lia|]. eapply between_le; [| |exact V5]; lia. }
    split.
    { constructor; [|assumption]. intros Hin.
      unfold between in V5. rewrite Forall_forall in V5. apply V5 in Hin. lia. }
    split.
    { rewrite map_app. apply Forall_app. split.
      - rewrite M7. eapply between_le; [| |apply between_seq]; lia.
      - eapply between_le; [| |exact V7]; lia. }
    split.
    { rewrite map_app. apply NoDup_app_between with (next_id w) (next_id w1) (next_id w').
      - rewrite M7. apply seq_NoDup.
      - assumption.
      - rewrite M7. eapply between_le; [| |apply between_seq]; lia.
      - assumption. }
    split; [lia|].
    repeat (split; [congruence|]). assumption.
Qed.

Lemma find_id_app_skip D (key : D -> nat) lo id old new :
  ids_below key lo old -> lo <= id ->
  find_id key id (old ++ new) = find_id key id new.
Proof.
  intros B L. induction B as [|x old Hx _ IH]; simpl; [reflexivity|].
  destruct (Nat.eqb_spec (key x) id); [lia|assumption].
Qed.

Lemma find_id_NoDup D (key : D -> nat) d l :
  NoDup (map key l) -> In d l -> find_id key (key d) l = Some d.
Proof.
  induction l as [|x l IH]; simpl; intros N I; [contradiction|].
  inversion N as [|? ? Hx N']; subst.
  destruct I as [->|I].
  - now rewrite Nat.eqb_refl.
  - destruct (Nat.eqb_spec (key x) (key d)) as [e|e]; [|auto].
    exfalso. apply Hx. rewrite e. now apply in_map.
Qed.

Lemma pick_all D (key : D -> nat) store sub :
  (forall d, In d sub -> find_id key (key d) store = Some d) ->
  pick key (map key sub) store = sub.
Proof.
  induction sub as [|d sub IH]; intros H; simpl; [reflexivity|].
  rewrite (H d) by now left. f_equal. apply IH. intros; apply H. now right.
Qed.

Lemma pick_new D (key : D -> nat) lo hi old new sub :
  ids_below key lo old -> between lo hi (map key new) -> NoDup (map key new) ->
  incl sub new ->
  pick key (map key sub) (old ++ new) = sub.
Proof.
  intros B T N I. apply pick_all. intros d Hd. apply I in Hd.
  rewrite (@find_id_app_skip _ key lo).
  - now apply find_id_NoDup.
  - assumption.
  - unfold between in T. rewrite Forall_forall in T.
    apply (T (key d)). now apply in_map.
Qed.

Lemma populate_view w c view oldm oldl lo hi :
  find_id c_id (c_id c) (courses w) = Some c ->
  c_modules c = map m_id (map fst view) ->
  modules w = oldm ++ map fst view -> ids_below m_id lo oldm ->
  between lo hi (map m_id (map fst view)) -> NoDup (map m_id (map fst view)) ->
  lessons w = oldl ++ concat (map snd view) -> ids_below l_id lo oldl ->
  between lo hi (map l_id (concat (map snd view))) ->
  NoDup (map l_id (concat (map snd view))) ->
  Forall (fun p => m_lessons (fst p) = map l_id (snd p)) view ->
  forall rt,
    populate rt (c_id c) w
    = (Ok (Some {| v_course := c; v_modules := shown rt view |}), w).
Proof.
  intros Hc Hcm Hm Bm Tm Nm Hl Bl Tl Nl Hv rt.
  assert (Hmap : map (fun m => (m, map (summary rt)
                                       (pick l_id (m_lessons m) (lessons w))))
                     (map fst view) = shown rt view).
  { rewrite map_map. unfold shown.
    apply map_ext_in. intros [m ls] Hp. simpl. f_equal. f_equal.
    rewrite Forall_forall in Hv. pose proof (Hv _ Hp) as Hv'. simpl in Hv'.
    rewrite Hv', Hl.
    apply (@pick_new _ l_id lo hi); auto.
    intros l Hin. apply in_concat. exists ls. split; [|assumption].
    change ls with (snd (m, ls)). now apply in_map. }
  unfold populate. rewrite Hc. simpl. rewrite Hcm, Hm.
  rewrite (@pick_new _ m_id lo hi) by (auto using incl_refl).
  rewrite Hmap. reflexivity.
Qed.

Lemma build_links E creator cd w c w' :
  CourseController.build E creator cd w = (Ok c, w') -> wf w ->
  exists view,
    courses w' = courses w ++ [c] /\ c_id c = next_id w /\
    c_creator c = creator /\ titled cd (c_title c) /\
    c_modules c = map m_id (map fst view) /\
    modules w' = modules w ++ map fst view /\
    lessons w' = lessons w ++ concat (map snd view) /\
    built_modules (c_id c) (outline_modules cd) view /\
    between (next_id w) (next_id w') (map m_id (map fst view)) /\
    NoDup (map m_id (map fst view)) /\
    between (next_id w) (next_id w') (map l_id (concat (map snd view))) /\
    NoDup (map l_id (concat (map snd view))).
Proof.
  intros K Hwf. unfold CourseController.build in K.
  ok_lift K Htitle. ok_lift K Hdescription. ok_lift K Htags.
  ok_lift K Hdifficulty. ok_lift K Hhours.
  apply bind_cases in K as [(e & H & _)|(id & w1 & H & K)]; [discriminate|].
  unfold fresh_id in H. inversion H; subst id w1; clear H.
  ok_lift K Hnew. rename a4 into course.
  destruct (Course_new_title _ _ _ _ _ _ _ Hnew) as (s & Hs & Ht).
  apply Course_new_ok in Hnew as (I1 & I2 & I3 & _).
  ok_write K Hwc. unfold with_courses in K. simpl in K.
  rewrite I1, upsert_fresh in K by apply Hwf.
  set (w1 := {| courses := courses w ++ [course]; modules := modules w;
                lessons := lessons w; next_id := S (next_id w);
                calls := calls w; writes := S (writes w) |}) in *.
  assert (Hwf1 : wf w1).
  { destruct Hwf as [W1 W2 W3]. split; simpl; try (apply ids_below_S; assumption).
    apply Forall_app. split; [apply ids_below_S; assumption|].
    constructor; [lia|constructor]. }
  ok_lift K Hms. apply elements_outline_modules in Hms. rewrite <- Hms in K.
  assert (Hlow : ids_below c_id (c_id course) (courses w))
    by (rewrite I1; apply Hwf).
  assert (Hnone : Forall (fun x => x < next_id w1) (c_modules course))
    by (rewrite I2; constructor).
  destruct (@createModules_links E _ _ _ _ _ _ (courses w) K Hwf1 eq_refl Hlow Hnone)
    as (view & V1 & V2 & V3 & V4 & V5 & V6 & V7 & V8 & V9 & V10 & V11 & V12
             & V13 & V14).
  unfold w1 in V1, V2, V5, V7, V9. simpl in V1, V2, V5, V7, V9.
  exists view.
  split; [assumption|]. split; [congruence|]. split; [congruence|].
  split; [eexists _, s; split; [exact Htitle|split; congruence]|].
  split; [rewrite V3, I2; reflexivity|].
  split; [assumption|]. split; [assumption|].
  split; [now rewrite V10|].
  split; [eapply between_le; [| |exact V5]; lia|]. split; [assumption|].
  split; [eapply between_le; [| |exact V7]; lia|]. assumption.
Qed.

Lemma Forall2_right A B (R : A -> B -> Prop) (P : B -> Prop) l l' :
  (forall a b, R a b -> P b) -> Forall2 R l l' -> Forall P l'.
Proof. intros H. induction 1; constructor; eauto. Qed.

Lemma Forall2_map_right A B C (R : A -> C -> Prop) (f : B -> C) l l' :
  Forall2 (fun a b => R a (f b)) l l' -> Forall2 R l (map f l').
Proof. induction 1; simpl; constructor; auto. Qed.

(** The placeholders as [populate] shows them. *)
Lemma placeholders_shown rt mid stubs ls :
  placeholders_of mid stubs ls -> mirrors_lessons stubs (map (summary rt) ls).
Proof.
  intros H. apply Forall2_map_right. eapply Forall2_impl; [|exact H].
  simpl. intros stub l ((T & (P & _) & _) & N). auto.
Qed.

Lemma built_modules_shown rt cid outlines docs :
  built_modules cid outlines docs -> mirrors_modules cid outlines (shown rt docs).
Proof.
  intros H. apply Forall2_map_right. eapply Forall2_impl; [|exact H].
  simpl. intros md [m ls] (T & C & L & P). simpl in *.
  split; [assumption|]. split; [assumption|].
  split; [now rewrite map_map|]. now apply placeholders_shown with (m_id m).
Qed.

Lemma shown_modules rt docs : map fst (shown rt docs) = map fst docs.
Proof. unfold shown. rewrite map_map. reflexivity. Qed.

Lemma generateCourse_links E sub topic w resp w' :
  wf w ->
  CourseController.generateCourse E sub topic w = (Ok resp, w') ->
  status resp = 201 ->
  exists cd c docs,
    course_of (model E (calls w)) = Ok cd /\
    resp = respond 201 (Some {| v_course := c; v_modules := shown false docs |}) /\
    c_creator c = sub /\ titled cd (c_title c) /\
    c_modules c = map m_id (map fst docs) /\
    built_modules (c_id c) (outline_modules cd) docs /\
    forall rt,
      populate rt (c_id c) w'
      = (Ok (Some {| v_course := c; v_modules := shown rt docs |}), w').
Proof.
  intros Hwf K St. unfold CourseController.generateCourse in K.
  destruct (trim topic) as [|ch t]; [inversion K; subst; discriminate|].
  apply bind_cases in K as [(e & _ & ?)|(cd & w1 & H & K)]; [discriminate|].
  unfold generateCourse, bind, call_model, lift in H.
  inversion H as [[Hcd Hw1]]; clear H.
  apply bind_cases in K as [(e & _ & ?)|(c & w2 & H & K)]; [discriminate|].
  assert (Hwf1 : wf w1) by (rewrite <- Hw1; exact (wf_called Hwf)).
  destruct (build_links _ _ _ H Hwf1)
    as (view & B1 & B2 & B3 & B4 & B5 & B6 & B7 & B8 & B9 & B10 & B11 & B12).
  assert (P : forall rt, populate rt (c_id c) w2
              = (Ok (Some {| v_course := c; v_modules := shown rt view |}), w2)).
  { apply populate_view with (modules w1) (lessons w1) (next_id w1) (next_id w2);
      auto; try apply Hwf1.
    - rewrite B1. apply find_id_last. rewrite B2. apply Hwf1.
    - eapply Forall2_right; [|exact B8]. simpl. tauto. }
  apply bind_cases in K as [(e & _ & ?)|(p & w3 & H3 & K)]; [discriminate|].
  rewrite P in H3. inversion H3; subst p w3; clear H3.
  unfold ret in K. inversion K; subst resp w'; clear K.
  exists cd, c, view. auto 10.
Qed.

(** X15. A generation that answers 201 answers with the outline the
    model sent: the course of the response has the title of the outline,
    cast to a string and trimmed, and the creator is the user; its
    modules are those of the outline, one for each and in their order,
    each with the title of its outline and in this course; the lessons
    shown in a module are those of its stubs, one for each and in their
    order, each with the title of its stub, not enriched and with no
    [estimatedMinutes]. *)
Theorem X15_generateCourse_answers_with_the_outline E sub topic w resp w' :
  wf w ->
  CourseController.generateCourse E sub topic w = (Ok resp, w') ->
  status resp = 201 ->
  exists cd view,
    course_of (model E (calls w)) = Ok cd /\
    data resp = Some (Some view) /\
    c_creator (v_course view) = sub /\ mirrors cd view /\
    Forall (fun p => Forall (fun s => s_readingTime s = None) (snd p))
           (v_modules view).
Proof.
  intros Hwf K St.
  destruct (generateCourse_links _ _ _ Hwf K St)
    as (cd & c & docs & H1 & -> & H3 & H4 & H5 & H6 & _).
  exists cd, {| v_course := c; v_modules := shown false docs |}. simpl.
  split; [assumption|]. split; [reflexivity|]. split; [assumption|].
  split.
  - split; [assumption|]. simpl. split; [now rewrite shown_modules|].
    now apply built_modules_shown.
  - unfold shown. apply Forall_map. apply Forall_forall. intros p _. simpl.
    apply Forall_map. apply Forall_forall. intros l _. reflexivity.
Qed.

Lemma X15_generateCourse_answers_with_the_outline_witness :
  exists resp view,
    fst (CourseController.generateCourse (answering [small_outline])
           (str "u1") (str "Go") empty_world) = Ok resp /\
    data resp = Some (Some view) /\
    c_creator (v_course view) = str "u1" /\
    mirrors small_outline_data view.
Proof.
  assert (H : exists resp w',
            CourseController.generateCourse (answering [small_outline])
              (str "u1") (str "Go") empty_world = (Ok resp, w') /\
            status resp = 201)
    by (eexists _, _; split; vm_compute; reflexivity).
  destruct H as (resp & w' & K & St).
  destruct (@X15_generateCourse_answers_with_the_outline _ _ _ _ _ _
              wf_empty_world K St) as (cd & view & C & D & Cr & Mi & _).
  assert (Ecd : cd = small_outline_data).
  { assert (C' : course_of (model (answering [small_outline]) (calls empty_world))
                 = Ok small_outline_data) by (vm_compute; reflexivity).
    congruence. }
  exists resp, view. rewrite K. subst cd. auto.
Defined.



(** ** What the structure checks of the service accept *)

Lemma missing_nil data fields :
  missing data fields = Ok [] <->
  Forall (fun f => exists x, get (Some data) f = Ok x /\ truthy x = true) fields.
Proof.
  induction fields as [|f r IH]; simpl.
  - split; [constructor | reflexivity].
  - destruct (get (Some data) f) as [x|e] eqn:G; cbn [rbind].
    + destruct (missing data r) as [m|e] eqn:M; cbn [rbind].
      * destruct (truthy x) eqn:T.
        -- split.
           ++ intros H. inversion H; subst m. constructor; [eauto|]. now apply IH.
           ++ intros H. inversion H as [|? ? _ H2]; subst. apply IH in H2.
              inversion H2. reflexivity.
        -- split; [discriminate|].
           intros H. inversion H as [|? ? (y & Hy & Ty) _]; subst.
           rewrite G in Hy. inversion Hy; subst. congruence.
      * split; [discriminate|].
        intros H. inversion H as [|? ? _ H2]; subst. apply IH in H2. discriminate.
    + split; [discriminate|].
      intros H. inversion H as [|? ? (y & Hy & _) _]; subst. congruence.
Qed.

Lemma check_module_iff m i :
  check_module m i = Ok tt <->
  has m "title" /\ exists lessons, lists m "lessons" lessons.
Proof.
  unfold check_module, has, lists.
  destruct (get (Some m) (str "title")) as [t|e] eqn:G; cbn [rbind].
  - destruct (truthy t) eqn:T; cbn [negb].
    + destruct (get (Some m) (str "lessons")) as [ls|e] eqn:L; cbn [rbind].
      * destruct ls as [[| | | |[|x r]|]|]; cbn [asArray]; split;
          try discriminate;
          try (intros (_ & l & Hl & Hn); inversion Hl; subst; congruence).
        intros _. split; [eauto|]. exists (x :: r). split; [reflexivity|discriminate].
      * split; [discriminate|]. intros (_ & l & Hl & _). discriminate.
    + split; [discriminate|]. intros ((x & Hx & Tx) & _). inversion Hx; subst. congruence.
  - split; [discriminate|]. intros ((x & Hx & _) & _). discriminate.
Qed.

Lemma check_modules_iff ms : forall i,
  check_modules ms i = Ok tt <->
  Forall (fun m => has m "title" /\ exists lessons, lists m "lessons" lessons) ms.
Proof.
  induction ms as [|m r IH]; intros i; simpl.
  - split; [constructor | reflexivity].
  - destruct (check_module m i) as [[]|e] eqn:C; cbn [rbind].
    + rewrite IH. split.
      * intros H. constructor; [|assumption]. eapply check_module_iff; eassumption.
      * intros H. now inversion H.
    + split; [discriminate|]. intros H. inversion H as [|? ? H1 _]; subst.
      apply (check_module_iff m i) in H1. congruence.
Qed.

(** X17. [validateCourseStructure] accepts exactly the outlines with a
    truthy [title], a truthy [description] and a [modules] array that is
    not empty, each module with a truthy [title] and a [lessons] array
    that is not empty. [difficulty], [estimatedHours], [tags] and the
    titles of the lesson stubs are not looked at. *)
Theorem X17_validateCourseStructure_accepts_exactly courseData :
  validateCourseStructure courseData = Ok tt <-> well_formed_outline courseData.
Proof.
  unfold validateCourseStructure, well_formed_outline.
  destruct (missing courseData [str "title"; str "description"; str "modules"])
    as [[|f m]|e] eqn:M; cbn [rbind].
  - apply missing_nil in M.
    inversion M as [|? ? H1 M']; subst. inversion M' as [|? ? H2 M'']; subst.
    inversion M'' as [|? ? (x & Hx & Tx) _]; subst.
    rewrite Hx. cbn [rbind].
    destruct x as [[| | | |[|y r]|]|]; cbn [asArray]; split;
      try discriminate;
      try (intros (_ & _ & ms & (Hm & Hn) & _); rewrite Hx in Hm;
           inversion Hm; subst; congruence).
    + intros H. split; [exact H1|]. split; [exact H2|]. exists (y :: r).
      split; [split; [assumption|discriminate]|]. eapply check_modules_iff; eassumption.
    + intros (_ & _ & ms & (Hm & _) & F). rewrite Hx in Hm. inversion Hm; subst ms.
      now apply check_modules_iff.
  - split; [discriminate|]. intros (H1 & H2 & ms & (Hm & Hn) & _).
    assert (M' : missing courseData [str "title"; str "description"; str "modules"] = Ok []).
    { apply missing_nil. repeat constructor; auto.
      exists (Some (JArr ms)). split; [assumption|reflexivity]. }
    congruence.
  - split; [discriminate|]. intros (H1 & H2 & ms & (Hm & Hn) & _).
    assert (M' : missing courseData [str "title"; str "description"; str "modules"] = Ok []).
    { apply missing_nil. repeat constructor; auto.
      exists (Some (JArr ms)). split; [assumption|reflexivity]. }
    congruence.
Qed.

Lemma X17_validateCourseStructure_accepts_exactly_witness :
  well_formed_outline outline_data /\
  validateCourseStructure outline_data = Ok tt.
Proof.
  assert (V : validateCourseStructure outline_data = Ok tt)
    by (vm_compute; reflexivity).
  split; [|exact V].
  apply (proj1 (X17_validateCourseStructure_accepts_exactly outline_data)).
  exact V.
Defined.

Lemma check_block_iff b i : check_block b i = Ok tt <-> recognized b.
Proof.
  split; [apply check_block_ok|].
  intros (k & G & I). unfold check_block. rewrite G. cbn [rbind].
  assert (T : truthy (Some (JStr k)) = true).
  { destruct k; [|reflexivity]. simpl in I.
    repeat (destruct I as [I|I]; [discriminate|]). contradiction. }
  rewrite T. cbn [negb].
  assert (Ik : includes (Some (JStr k)) = true).
  { unfold includes. apply existsb_exists. exists k. split; [assumption|].
    now apply jstring_eqb_eq. }
  now rewrite Ik.
Qed.

Lemma check_blocks_iff bs : forall i,
  check_blocks bs i = Ok tt <-> Forall recognized bs.
Proof.
  induction bs as [|b r IH]; intros i; simpl.
  - split; [constructor | reflexivity].
  - destruct (check_block b i) as [[]|e] eqn:C; cbn [rbind].
    + rewrite IH. split.
      * intros H. constructor; [|assumption]. eapply check_block_iff; eassumption.
      * intros H. now inversion H.
    + split; [discriminate|]. intros H. inversion H as [|? ? H1 _]; subst.
      apply (check_block_iff b i) in H1. congruence.
Qed.

(** X18. [validateLessonStructure] accepts exactly the lesson bodies
    with a truthy [title] and a [content] array that is not empty, each
    block with a [type] that is one of the seven kinds. What else a block
    carries is not looked at. *)
Theorem X18_validateLessonStructure_accepts_exactly lessonData :
  validateLessonStructure lessonData = Ok tt <-> well_formed_lesson lessonData.
Proof.
  unfold validateLessonStructure, well_formed_lesson.
  destruct (missing lessonData [str "title"; str "content"])
    as [[|f m]|e] eqn:M; cbn [rbind].
  - apply missing_nil in M.
    inversion M as [|? ? H1 M']; subst.
    inversion M' as [|? ? (x & Hx & Tx) _]; subst.
    rewrite Hx. cbn [rbind].
    destruct x as [[| | | |[|y r]|]|]; cbn [asArray]; split;
      try discriminate;
      try (intros (_ & bs & (Hm & Hn) & _); rewrite Hx in Hm;
           inversion Hm; subst; congruence).
    + intros H. split; [exact H1|]. exists (y :: r).
      split; [split; [assumption|discriminate]|]. eapply check_blocks_iff; eassumption.
    + intros (_ & bs & (Hm & _) & F). rewrite Hx in Hm. inversion Hm; subst bs.
      now apply check_blocks_iff.
  - split; [discriminate|]. intros (H1 & bs & (Hm & Hn) & _).
    assert (M' : missing lessonData [str "title"; str "content"] = Ok []).
    { apply missing_nil. repeat constructor; auto.
      exists (Some (JArr bs)). split; [assumption|reflexivity]. }
    congruence.
  - split; [discriminate|]. intros (H1 & bs & (Hm & Hn) & _).
    assert (M' : missing lessonData [str "title"; str "content"] = Ok []).
    { apply missing_nil. repeat constructor; auto.
      exists (Some (JArr bs)). split; [assumption|reflexivity]. }
    congruence.
Qed.

Lemma X18_validateLessonStructure_accepts_exactly_witness :
  well_formed_lesson (parsed lesson_c) /\
  validateLessonStructure (parsed lesson_c) = Ok tt.
Proof.
  assert (V : validateLessonStructure (parsed lesson_c) = Ok tt)
    by (vm_compute; reflexivity).
  split; [|exact V].
  apply (proj1 (X18_validateLessonStructure_accepts_exactly (parsed lesson_c))).
  exact V.
Defined.

(** ** The generation routes *)


(** ** A generation that fails *)







